(** * The STARS FFI boundary: a shallow embedding of both wrappers

    The repository holds two implementations of one C ABI
    ([stars_ffi.h]): [backend/native/ffi/src/stars_ffi.cpp] (module
    [Native] below) and
    [backend/crates/stars-core-native/ffi/src/stars_ffi.cpp] (module
    [CoreNative]).  Both wrap the STARS Core scheduling engine and
    [nlohmann::json]; neither of those is part of the sources, so they
    enter as the fields of the class [Collaborators].

    Conventions of the embedding:
    - a nullable C pointer is an [option]; an out-parameter is an
      [outparam] holding the caller's cell, and every operation returns
      the cell as it leaves it;
    - heap objects behind handles are [ptr]s: an address together with
      the (immutable) value stored there; the set of live addresses is
      part of the state, [new] and [delete] change it;
    - the thread-local [g_last_error] is the other part of the state;
    - C++ exceptions are the [Throw] outcomes of [exn]; a [try] block is
      a computation in [MX] and [try_catch] runs its handlers;
    - [size_t] values are [Z] with the wrap-around of unsigned
      subtraction written out; a [double] is an exact rational;
    - a string handed to the caller is a value in the operations; its
      life as a block of the C heap is the subject of the module
      [Memory]. *)

From Stdlib Require Import ZArith QArith String Ascii List.
From stdpp Require Import base gmap sets list strings option.

Local Open Scope Z_scope.
Local Open Scope string_scope.

(** ** Result codes (stars_ffi.h) *)

Inductive StarsErrorCode : Type :=
  | STARS_OK
  | STARS_ERROR_NULL_POINTER
  | STARS_ERROR_INVALID_JSON
  | STARS_ERROR_SERIALIZATION
  | STARS_ERROR_DESERIALIZATION
  | STARS_ERROR_INVALID_HANDLE
  | STARS_ERROR_SCHEDULING_FAILED
  | STARS_ERROR_PRESCHEDULER_FAILED
  | STARS_ERROR_IO
  | STARS_ERROR_UNKNOWN.

Definition code_value (c : StarsErrorCode) : Z :=
  match c with
  | STARS_OK => 0
  | STARS_ERROR_NULL_POINTER => 1
  | STARS_ERROR_INVALID_JSON => 2
  | STARS_ERROR_SERIALIZATION => 3
  | STARS_ERROR_DESERIALIZATION => 4
  | STARS_ERROR_INVALID_HANDLE => 5
  | STARS_ERROR_SCHEDULING_FAILED => 6
  | STARS_ERROR_PRESCHEDULER_FAILED => 7
  | STARS_ERROR_IO => 8
  | STARS_ERROR_UNKNOWN => 99
  end.

#[global] Instance StarsErrorCode_eq_dec : EqDecision StarsErrorCode.
Proof. solve_decision. Defined.

(** [StarsResult]: the code and the owned, nullable [error_message]. *)
Record StarsResult : Type := mkResult {
  code : StarsErrorCode;
  error_message : option string
}.

Definition is_ok (r : StarsResult) : bool :=
  bool_decide (code r = STARS_OK).

(** ** Scheduling parameters (stars_ffi.h) *)

Definition STARS_SCHEDULER_ACCUMULATIVE : Z := 0.
Definition STARS_SCHEDULER_HYBRID_ACCUMULATIVE : Z := 1.

(** [algorithm] is the integer behind the C enum, so that values other
    than the two enumerators can be passed, as through the C ABI. *)
Record StarsSchedulingParams : Type := mkParams {
  algorithm : Z;
  max_iterations : Z;
  time_limit_seconds : Q;
  seed : Z
}.

(** ** Pointers, out-parameters and the state *)

Definition addr : Type := positive.

Record ptr (T : Type) : Type := Ptr { addr_of : addr; deref : T }.
Arguments Ptr {T} _ _.
Arguments addr_of {T} _.
Arguments deref {T} _.

(** A handle as the C side sees it: a pointer that may be null. *)
Definition handle (T : Type) : Type := option (ptr T).

Inductive outparam (V : Type) : Type :=
  | NullOut
  | OutCell (v : V).
Arguments NullOut {V}.
Arguments OutCell {V} _.

(** [*out = v] *)
Definition store {V : Type} (out : outparam V) (v : V) : outparam V :=
  match out with
  | NullOut => NullOut
  | OutCell _ => OutCell v
  end.

Record State : Type := mkState {
  g_last_error : string;
  live : gset addr
}.

(** ** Exceptions and the two computation types *)

Inductive exn_kind : Type :=
  | parse_error      (* nlohmann::json::parse_error *)
  | std_exception.   (* any other class derived from std::exception *)

Inductive exn (A : Type) : Type :=
  | Normal (a : A)
  | Throw (k : exn_kind) (what : string).
Arguments Normal {A} _.
Arguments Throw {A} _ _.

#[global] Instance exn_ret : MRet exn := fun _ a => Normal a.
#[global] Instance exn_bind : MBind exn := fun _ _ f m =>
  match m with
  | Normal a => f a
  | Throw k w => Throw k w
  end.

(** Code outside any [try] block. *)
Definition M (A : Type) : Type := State -> A * State.
(** Code inside a [try] block. *)
Definition MX (A : Type) : Type := State -> exn A * State.

#[global] Instance M_ret : MRet M := fun _ a s => (a, s).
#[global] Instance M_bind : MBind M := fun _ _ f m s =>
  let '(a, s') := m s in f a s'.
#[global] Instance MX_ret : MRet MX := fun _ a s => (Normal a, s).
#[global] Instance MX_bind : MBind MX := fun _ _ f m s =>
  match m s with
  | (Normal a, s') => f a s'
  | (Throw k w, s') => (Throw k w, s')
  end.

(** A call that may throw, made inside a [try] block. *)
Definition call {A : Type} (e : exn A) : MX A := fun s => (e, s).
(** Straight-line code inside a [try] block. *)
Definition lift {A : Type} (m : M A) : MX A := fun s =>
  let '(a, s') := m s in (Normal a, s').

(** [try { body } catch (...) { handler }] *)
Definition try_catch {A : Type} (body : MX A)
    (handler : exn_kind -> string -> M A) : M A := fun s =>
  match body s with
  | (Normal a, s') => (a, s')
  | (Throw k w, s') => handler k w s'
  end.

(** [new T()]: a fresh address becomes live. *)
Definition new_ : M addr := fun s =>
  let a := fresh (live s) in
  (a, {| g_last_error := g_last_error s; live := {[a]} ∪ live s |}).

(** [delete p] at a known address. *)
Definition delete_ (a : addr) : M unit := fun s =>
  (tt, {| g_last_error := g_last_error s; live := live s ∖ {[a]} |}).

(** [delete handle]: deleting the null pointer does nothing. *)
Definition destroy {T : Type} (h : handle T) : M unit :=
  match h with
  | None => mret tt
  | Some p => delete_ (addr_of p)
  end.

(** The scope of a [std::unique_ptr] made by [std::make_unique]: the
    body receives the address and says, with its result, whether it
    called [release()].  When the scope is left by an exception, or
    normally without a release, the object is deleted. *)
Definition unique_scope {A : Type} (body : addr -> MX (A * bool)) : MX A :=
  fun s =>
    let '(a, s1) := new_ s in
    match body a s1 with
    | (Normal (x, true), s2) => (Normal x, s2)
    | (Normal (x, false), s2) => (Normal x, snd (delete_ a s2))
    | (Throw k w, s2) => (Throw k w, snd (delete_ a s2))
    end.

(** ** JSON values (nlohmann::json)

    Objects are association lists kept sorted by key, as the
    [std::map] behind [nlohmann::json] iterates them.  The signed and
    unsigned integer kinds are merged into [JInt]. *)

#[warnings="-register-all"] Inductive json : Type :=
  | JNull
  | JBool (b : bool)
  | JInt (z : Z)
  | JFloat (q : Q)
  | JStr (s : string)
  | JArr (l : list json)
  | JObj (m : list (string * json)).

Definition type_name (j : json) : string :=
  match j with
  | JNull => "null"
  | JBool _ => "boolean"
  | JInt _ | JFloat _ => "number"
  | JStr _ => "string"
  | JArr _ => "array"
  | JObj _ => "object"
  end.

Definition type_error {A : Type} (msg : string) (j : json) : exn A :=
  Throw std_exception ("[json.exception.type_error] " ++ msg ++ type_name j).

Fixpoint obj_lookup (k : string) (m : list (string * json)) : option json :=
  match m with
  | [] => None
  | (k', v) :: m' => if String.eqb k k' then Some v else obj_lookup k m'
  end.

Fixpoint obj_insert (k : string) (v : json) (m : list (string * json))
    : list (string * json) :=
  match m with
  | [] => [(k, v)]
  | (k', v') :: m' =>
      if String.eqb k k' then (k, v) :: m'
      else if String.ltb k k' then (k, v) :: (k', v') :: m'
      else (k', v') :: obj_insert k v m'
  end.

(** [json j; j[k1] = v1; j[k2] = v2; ...] on a fresh value. *)
Definition object_of (fields : list (string * json)) : json :=
  JObj (fold_left (fun m kv => obj_insert (fst kv) (snd kv) m) fields []).

(** [j.contains(key)]: false for anything but an object. *)
Definition contains (j : json) (k : string) : bool :=
  match j with
  | JObj m => bool_decide (is_Some (obj_lookup k m))
  | _ => false
  end.

Definition is_array (j : json) : bool :=
  match j with JArr _ => true | _ => false end.

(** [j[key]] on a mutable value: a null becomes an object, an absent
    key is inserted as null, anything else throws. *)
Definition subscript (j : json) (k : string) : exn json :=
  match j with
  | JObj m => Normal (default JNull (obj_lookup k m))
  | JNull => Normal JNull
  | _ => type_error "cannot use operator[] with a string argument with " j
  end.

(** [j.value(key, default)] with a JSON default: no conversion. *)
Definition value_json (j : json) (k : string) (d : json) : exn json :=
  match j with
  | JObj m => Normal (default d (obj_lookup k m))
  | _ => type_error "cannot use value() with " j
  end.

Definition get_string (j : json) : exn string :=
  match j with
  | JStr s => Normal s
  | _ => type_error "type must be string, but is " j
  end.

Definition get_double (j : json) : exn Q :=
  match j with
  | JInt z => Normal (inject_Z z)
  | JFloat q => Normal q
  | _ => type_error "type must be number, but is " j
  end.

(** Truncation of a rational towards zero. *)
Definition Qtrunc (q : Q) : Z := Z.quot (Qnum q) (Z.pos (Qden q)).

(** [static_cast<int>]: reduction into the 32-bit signed range. *)
Definition to_int32 (z : Z) : Z := (z + 2^31) mod 2^32 - 2^31.

Definition get_int (j : json) : exn Z :=
  match j with
  | JInt z => Normal (to_int32 z)
  | JFloat q => Normal (to_int32 (Qtrunc q))
  | JBool b => Normal (if b then 1 else 0)
  | _ => type_error "type must be number, but is " j
  end.

Definition value_with {A : Type} (get : json -> exn A)
    (j : json) (k : string) (d : A) : exn A :=
  match j with
  | JObj m =>
      match obj_lookup k m with
      | Some v => get v
      | None => Normal d
      end
  | _ => type_error "cannot use value() with " j
  end.

Definition value_string := value_with get_string.
Definition value_double := value_with get_double.
Definition value_int := value_with get_int.

(** Decimal rendering of an array index, the key [items()] reports. *)
Fixpoint digits (fuel : nat) (n : N) (acc : string) : string :=
  match fuel with
  | O => acc
  | S fuel' =>
      let d := String (ascii_of_N (48 + N.modulo n 10)) acc in
      if N.ltb n 10 then d else digits fuel' (N.div n 10) d
  end.

Definition string_of_N (n : N) : string :=
  digits (S (N.to_nat (N.log2 n))) n "".

(** [j.items()] on a const value: members of an object, indexed
    elements of an array, nothing for null, and the value itself under
    the empty key for a scalar. *)
Definition items (j : json) : list (string * json) :=
  match j with
  | JObj m => m
  | JArr l => imap (fun i v => (string_of_N (N.of_nat i), v)) l
  | JNull => []
  | _ => [("", j)]
  end.

(** [for (const auto& x : j)]: elements of an array, values of an
    object, nothing for null, the value itself for a scalar. *)
Definition elements_of (j : json) : list json :=
  match j with
  | JArr l => l
  | JObj m => map snd m
  | JNull => []
  | _ => [j]
  end.

(** [key.find(pat) != std::string::npos] *)
Definition has_substring (pat s : string) : bool :=
  bool_decide (is_Some (String.index 0 pat s)).

(** ** stars::time::Duration *)

(** Modelled from the spec: [stars::time::Duration] is declared in
    [<stars/time/duration.h>], which is not part of the sources.  The
    spec only says a period has a "derived duration"; the accessors are
    read off their uses in the wrappers.  [format_datetime] prints
    [Hours()], [Minutes()] and [Seconds()] of a time of day as the three
    two-digit fields of [hh:mm:ss], so [Minutes()] and [Seconds()] are
    the minute-of-hour and second-of-minute components, and
    [TotalHours()] is the whole span in hours.  A duration is held as
    its whole number of seconds. *)
Record Duration : Type := mkDuration { total_seconds : Z }.

(** [Duration(hours, minutes, seconds, 0)] *)
Definition Duration_hms (h m s : Z) : Duration :=
  mkDuration (h * 3600 + m * 60 + s).

Definition Hours (d : Duration) : Z := Z.quot (total_seconds d) 3600.
Definition Minutes (d : Duration) : Z := Z.rem (Z.quot (total_seconds d) 60) 60.
Definition Seconds (d : Duration) : Z := Z.rem (total_seconds d) 60.
Definition TotalHours (d : Duration) : Q := total_seconds d # 3600.

(** The span of a duration in days: the reference value for the
    exported [duration_days]. *)
Definition days_of (d : Duration) : Q := total_seconds d # 86400.

(** ** The collaborators

    Everything the wrappers call that is not in the sources: the JSON
    text codec, the file system, and the STARS Core classes.  A
    constructor or method that can throw returns an [exn]. *)

(** Modelled from the spec: [stars::time::Period] is declared in
    [<stars/time/period.h>], which is not part of the sources.  The
    data model calls it an "execution period (begin/end timestamps,
    UTC, with derived duration)": a pair of instants; the derived
    duration is the collaborator [Period_GetDuration]. *)
Record Period_ (TimeUTC : Type) : Type := mkPeriod {
  BeginTime : TimeUTC;
  EndTime : TimeUTC
}.
Arguments mkPeriod {TimeUTC} _ _.
Arguments BeginTime {TimeUTC} _.
Arguments EndTime {TimeUTC} _.

(** [Configuration] of the accumulative algorithm, as
    [CoreNative.stars_run_scheduler] builds it (the figure of merit is
    always [TaskPriority]). *)
Record AccumulativeConfiguration : Type := mkAccumulative {
  acc_iterations : Z;
  acc_reattempt : bool;
  acc_range : Z;
  acc_seed : option Z
}.

(** [Configuration] of the hybrid algorithm; [Native] uses the
    three-argument constructor ([hyb_range = None], no seeds). *)
Record HybridConfiguration : Type := mkHybrid {
  hyb_threads : Z;
  hyb_iterations : Z;
  hyb_reattempt : bool;
  hyb_range : option Z;
  hyb_seeds : list Z
}.

Inductive AlgorithmConfiguration : Type :=
  | AccumulativeDefault  (* [Configuration config;] *)
  | Accumulative (c : AccumulativeConfiguration)
  | Hybrid (c : HybridConfiguration).

Class Collaborators : Type := {
  (* nlohmann::json *)
  json_parse : string -> exn json;
  json_dump : json -> exn string;
  (* std::ifstream: the content of a file that can be opened *)
  read_file : string -> option string;
  (* stars::time *)
  TimeUTC : Type;
  TimeUTC_of_string : string -> exn TimeUTC;
  GetDate : TimeUTC -> Z * Z * Z;
  GetDuration : TimeUTC -> Duration;
  ToString : TimeUTC -> string;
  Period_default : Period_ TimeUTC;
  Period_GetDuration : Period_ TimeUTC -> Duration;
  (* stars::scheduler::instruments *)
  Instrument : Type;
  Instrument_at : Z -> Q -> Q -> Q -> exn Instrument;
  Instrument_Load : json -> exn Instrument;
  (* stars::scheduling_blocks *)
  Block : Type;
  GetId : Block -> string;
  GetName : Block -> string;
  (* [dynamic_pointer_cast<const Task>(block)] and its [GetPriority()] *)
  Task_GetPriority : Block -> option Q;
  ObservationTask_Create : string -> Q -> Duration -> Q * Q -> exn Block;
  (* Deserializer >> block: a block, or a null pointer *)
  deserialize_block : json -> exn (option Block);
  (* Serializer << block *)
  serialize_block : Block -> exn json;
  ScheduleJsonBuilder_Build : list Block -> exn json;
  (* stars::builders::json::ScheduleJsonLoader *)
  Loader : Type;
  ScheduleJsonLoader : string -> exn Loader;
  GetContent : Loader -> json;
  LoadInstrument : Loader -> exn (option Instrument);
  LoadExecutionPeriod : Loader -> exn (Period_ TimeUTC);
  LoadBlocks : Loader -> exn (list Block);
  (* stars::scheduler::prescheduler *)
  ComputePeriods : Instrument -> list Block -> Period_ TimeUTC ->
                   exn (list (string * list (Period_ TimeUTC)));
  (* stars::scheduler::algorithms: the schedule (a shared pointer that
     may be null), the unplanned blocks and the fail information *)
  FailInformation : Type;
  Schedule_ComputeFitness : list (Block * Period_ TimeUTC) -> Q;
  Schedule : AlgorithmConfiguration -> list Block -> Instrument ->
             Period_ TimeUTC ->
             exn (option (list (Block * Period_ TimeUTC)) * list Block
                  * FailInformation);
  (* std::thread::hardware_concurrency() *)
  hardware_concurrency : Z
}.

Definition Period `{Collaborators} : Type := Period_ TimeUTC.

(** Modelled from the spec: [ScheduleUnit] and [Schedule] are declared
    in [<stars/scheduler/schedule/>], which is not part of the sources.
    The data model calls a schedule "an ordered sequence of Schedule
    Units (block reference + assigned non-overlapping time period)":
    a unit is a task with its period, a schedule the list of its units,
    and [schedule->size()] their number. *)
Definition ScheduleUnit `{Collaborators} : Type := (Block * Period)%type.
Definition GetTask `{Collaborators} (u : ScheduleUnit) : Block := fst u.
Definition GetPeriod `{Collaborators} (u : ScheduleUnit) : Period := snd u.
Definition ScheduleT `{Collaborators} : Type := list ScheduleUnit.

(** Modelled from the spec: [stars::constraints::PossiblePeriodsMap] is
    not part of the sources.  The data model calls it "a mapping from
    block identifier to an ordered sequence of disjoint candidate time
    windows"; it is held as the list of entries in iteration order. *)
Definition PossiblePeriodsMap `{Collaborators} : Type :=
  list (string * list Period).

(** [container.size()] as a [size_t]. *)
Definition size {A : Type} (l : list A) : Z := Z.of_nat (length l).

(** Unsigned subtraction on [size_t]. *)
Definition size_sub (a b : Z) : Z := (a - b) mod 2^64.

(** The caller's variable behind [&x] after a call. *)
Definition cell_value {V : Type} (out : outparam (option V)) : option V :=
  match out with
  | NullOut => None
  | OutCell v => v
  end.

(** [os << n] for an integer. *)
Definition string_of_Z (n : Z) : string :=
  match n with
  | Z.neg p => "-" ++ string_of_N (N.pos p)
  | _ => string_of_N (Z.to_N n)
  end.

Fixpoint zeros (n : nat) : string :=
  match n with
  | O => ""
  | S n' => String "0" (zeros n')
  end.

(** [os << std::setfill('0') << std::setw(w) << n] *)
Definition setw (w : nat) (n : Z) : string :=
  let s := string_of_Z n in
  zeros (w - String.length s) ++ s.

(** * [backend/native/ffi/src/stars_ffi.cpp] *)

Module Native.
Section WithCollaborators.
Context `{W : Collaborators}.

(** ** Internal state (lines 54-97) *)

Definition set_error (msg : string) : M unit := fun s =>
  (tt, {| g_last_error := msg; live := live s |}).

Definition clear_error : M unit := fun s =>
  (tt, {| g_last_error := ""; live := live s |}).

Definition make_ok : M StarsResult :=
  mret (mkResult STARS_OK None).

(** [duplicate_string(msg)] is taken to succeed: the result carries a
    copy of [msg], also when [msg] is empty. *)
Definition make_error (c : StarsErrorCode) (msg : string) : M StarsResult :=
  set_error msg;; mret (mkResult c (Some msg)).

Definition format_datetime (time : TimeUTC) : string :=
  let '(year, month, day) := GetDate time in
  let duration := GetDuration time in
  setw 4 year ++ "-" ++ setw 2 month ++ "-" ++ setw 2 day ++ "T"
  ++ setw 2 (Hours duration) ++ ":" ++ setw 2 (Minutes duration) ++ ":"
  ++ setw 2 (Seconds duration) ++ "Z".

(** [return make_error(code, msg);] leaving the out-parameter as it is,
    and [*out = v; return make_ok();]. *)
Definition fail_with {V : Type} (c : StarsErrorCode) (msg : string)
    (out : outparam V) : M (StarsResult * outparam V) :=
  r ← make_error c msg; mret (r, out).

Definition succeed {V : Type} (out : outparam V) (v : V)
    : M (StarsResult * outparam V) :=
  r ← make_ok; mret (r, store out v).

(** ** Handle wrappers (lines 103-126)

    [instrument] is a [shared_ptr] in the source.  It is assigned
    (line 191) before the only statement that publishes a context
    (line 212), so behind a handle it is never null. *)

Record StarsContext : Type := mkContext {
  instrument : Instrument;
  executionPeriod : Period;
  config_json : string
}.

Record StarsBlocksCollection : Type := mkBlocks {
  blocks : list Block;
  source_json : string
}.

Record StarsPossiblePeriods : Type := mkPeriods {
  computed : bool
}.

Record StarsSchedule : Type := mkSchedule {
  schedule : option ScheduleT;
  unscheduled : list Block;
  failInfo : FailInformation;
  total_blocks : Z;
  fitness : Q
}.

Definition StarsContextHandle := handle StarsContext.
Definition StarsBlocksHandle := handle StarsBlocksCollection.
Definition StarsPossiblePeriodsHandle := handle StarsPossiblePeriods.
Definition StarsScheduleHandle := handle StarsSchedule.

(** ** Error handling (lines 134-140) *)

Definition stars_get_last_error : M (option string) := fun s =>
  (if String.eqb (g_last_error s) "" then None else Some (g_last_error s), s).

Definition stars_clear_error : M unit := clear_error.

(** ** Context management (lines 161-270) *)

Definition stars_context_create (config : option string)
    (out_handle : outparam StarsContextHandle)
    : M (StarsResult * outparam StarsContextHandle) :=
  match config, out_handle with
  | Some cfg, OutCell _ =>
      try_catch
        (ctx ← lift new_;
         j ← call (json_parse cfg);
         if negb (contains j "instrument") then
           lift (delete_ ctx;;
                 fail_with STARS_ERROR_INVALID_JSON
                   "Missing 'instrument' in config" out_handle)
         else
           instr_json ← call (subscript j "instrument");
           loc1 ← call (value_json instr_json "location" (JObj []));
           lat ← call (value_double loc1 "latitude" 0%Q);
           loc2 ← call (value_json instr_json "location" (JObj []));
           lon ← call (value_double loc2 "longitude" 0%Q);
           loc3 ← call (value_json instr_json "location" (JObj []));
           alt ← call (value_double loc3 "altitude" 0%Q);
           ins ← call (Instrument_at 1 lat lon alt);
           if negb (contains j "executionPeriod") then
             lift (delete_ ctx;;
                   fail_with STARS_ERROR_INVALID_JSON
                     "Missing 'executionPeriod' in config" out_handle)
           else
             period_json ← call (subscript j "executionPeriod");
             begin_str ← call (value_string period_json "begin" "");
             end_str ← call (value_string period_json "end" "");
             if String.eqb begin_str "" || String.eqb end_str "" then
               lift (delete_ ctx;;
                     fail_with STARS_ERROR_INVALID_JSON
                       "Invalid executionPeriod: missing begin or end"
                       out_handle)
             else
               begin_ ← call (TimeUTC_of_string begin_str);
               end_ ← call (TimeUTC_of_string end_str);
               lift (succeed out_handle
                       (Some (Ptr ctx (mkContext ins (mkPeriod begin_ end_) cfg)))))
        (fun _ what => fail_with STARS_ERROR_INVALID_JSON what out_handle)
  | _, _ =>
      fail_with STARS_ERROR_NULL_POINTER "Null pointer argument" out_handle
  end.

Definition stars_context_create_from_file (file_path : option string)
    (out_handle : outparam StarsContextHandle)
    : M (StarsResult * outparam StarsContextHandle) :=
  match file_path, out_handle with
  | Some path, OutCell _ =>
      try_catch
        (match read_file path with
         | None =>
             lift (fail_with STARS_ERROR_IO ("Cannot open file: " ++ path)
                     out_handle)
         | Some buffer => lift (stars_context_create (Some buffer) out_handle)
         end)
        (fun _ what => fail_with STARS_ERROR_IO what out_handle)
  | _, _ =>
      fail_with STARS_ERROR_NULL_POINTER "Null pointer argument" out_handle
  end.

Definition stars_context_destroy (h : StarsContextHandle) : M unit :=
  destroy h.

(** The document [stars_context_get_execution_period] dumps
    (lines 254-263). *)
Definition execution_period_document (c : StarsContext) : json :=
  let period := executionPeriod c in
  (* Calculate duration in days *)
  let duration := Period_GetDuration period in
  let days := (inject_Z (Seconds duration) / 86400)%Q in
  object_of
    [("begin", JStr (format_datetime (BeginTime period)));
     ("end", JStr (format_datetime (EndTime period)));
     ("duration_days", JFloat days)].

Definition stars_context_get_execution_period (h : StarsContextHandle)
    (out_json : outparam (option string))
    : M (StarsResult * outparam (option string)) :=
  match h, out_json with
  | Some p, OutCell _ =>
      try_catch
        (text ← call (json_dump (execution_period_document (deref p)));
         lift (succeed out_json (Some text)))
        (fun _ what => fail_with STARS_ERROR_SERIALIZATION what out_json)
  | _, _ =>
      fail_with STARS_ERROR_NULL_POINTER "Null pointer argument" out_json
  end.

(** ** Scheduling blocks management (lines 276-456) *)

(** The body of the [if] at lines 309-344: one ObservationTask. *)
Definition load_observation_task (value : json) : exn Block :=
  name ← value_string value "name" "unnamed";
  priority ← value_double value "priority" 1%Q;
  hms ← (if contains value "duration" then
           dur ← subscript value "duration";
           hours ← value_int dur "hours" 0;
           minutes ← value_int dur "minutes" 0;
           seconds ← value_int dur "seconds" 0;
           Normal (hours, minutes, seconds)
         else Normal (0, 0, 0));
  target ← (if contains value "targetCoordinates" then
              tc ← subscript value "targetCoordinates";
              ra_deg ← value_double tc "ra" 0%Q;
              dec_deg ← value_double tc "dec" 0%Q;
              Normal (ra_deg, dec_deg)
            else Normal (0%Q, 0%Q));
  let '(hours, minutes, seconds) := hms in
  ObservationTask_Create name priority (Duration_hms hours minutes seconds)
    target.

(** The inner loop (line 308) over the members of one element. *)
Fixpoint load_members (members : list (string * json)) (acc : list Block)
    : exn (list Block) :=
  match members with
  | [] => Normal acc
  | (key, value) :: rest =>
      if has_substring "ObservationTask" key then
        task ← load_observation_task value;
        load_members rest (acc ++ [task])
      else load_members rest acc
  end.

(** The outer loop (line 306) over the elements of the array. *)
Fixpoint load_elements (elements : list json) (acc : list Block)
    : exn (list Block) :=
  match elements with
  | [] => Normal acc
  | block_json :: rest =>
      acc' ← load_members (items block_json) acc;
      load_elements rest acc'
  end.

Definition stars_blocks_load_json (text : option string)
    (out_handle : outparam StarsBlocksHandle)
    : M (StarsResult * outparam StarsBlocksHandle) :=
  match text, out_handle with
  | Some txt, OutCell _ =>
      try_catch
        (bl ← lift new_;
         j ← call (json_parse txt);
         found ← (if contains j "schedulingBlocks" then
                    a ← call (subscript j "schedulingBlocks");
                    mret (Some a)
                  else if is_array j then mret (Some j)
                  else mret None);
         match found with
         | None =>
             lift (delete_ bl;;
                   fail_with STARS_ERROR_INVALID_JSON
                     "No scheduling blocks found in JSON" out_handle)
         | Some blocks_array =>
             match blocks_array with
             | JArr elements =>
                 bs ← call (load_elements elements []);
                 lift (succeed out_handle (Some (Ptr bl (mkBlocks bs txt))))
             | _ =>
                 lift (delete_ bl;;
                       fail_with STARS_ERROR_INVALID_JSON
                         "schedulingBlocks must be an array" out_handle)
             end
         end)
        (fun _ what => fail_with STARS_ERROR_INVALID_JSON what out_handle)
  | _, _ =>
      fail_with STARS_ERROR_NULL_POINTER "Null pointer argument" out_handle
  end.

Definition stars_blocks_load_file (file_path : option string)
    (out_handle : outparam StarsBlocksHandle)
    : M (StarsResult * outparam StarsBlocksHandle) :=
  match file_path, out_handle with
  | Some path, OutCell _ =>
      try_catch
        (match read_file path with
         | None =>
             lift (fail_with STARS_ERROR_IO ("Cannot open file: " ++ path)
                     out_handle)
         | Some buffer => lift (stars_blocks_load_json (Some buffer) out_handle)
         end)
        (fun _ what => fail_with STARS_ERROR_IO what out_handle)
  | _, _ =>
      fail_with STARS_ERROR_NULL_POINTER "Null pointer argument" out_handle
  end.

(** The object written for one block (lines 388-396 and 437-445). *)
Definition block_summary (block : Block) : json :=
  object_of
    [("name", JStr (GetName block));
     ("priority", JFloat (match Task_GetPriority block with
                          | Some p => p
                          | None => 0%Q
                          end))].

Definition stars_blocks_to_json (h : StarsBlocksHandle)
    (out_json : outparam (option string))
    : M (StarsResult * outparam (option string)) :=
  match h, out_json with
  | Some p, OutCell _ =>
      try_catch
        (let j := JArr (map block_summary (blocks (deref p))) in
         text ← call (json_dump j);
         lift (succeed out_json (Some text)))
        (fun _ what => fail_with STARS_ERROR_SERIALIZATION what out_json)
  | _, _ =>
      fail_with STARS_ERROR_NULL_POINTER "Null pointer argument" out_json
  end.

Definition stars_blocks_count (h : StarsBlocksHandle)
    (out_count : outparam Z) : M (StarsResult * outparam Z) :=
  match h, out_count with
  | Some p, OutCell _ => succeed out_count (size (blocks (deref p)))
  | _, _ =>
      fail_with STARS_ERROR_NULL_POINTER "Null pointer argument" out_count
  end.

Definition stars_blocks_get_at (h : StarsBlocksHandle) (index : N)
    (out_json : outparam (option string))
    : M (StarsResult * outparam (option string)) :=
  match h, out_json with
  | Some p, OutCell _ =>
      if bool_decide (size (blocks (deref p)) <= Z.of_N index) then
        fail_with STARS_ERROR_INVALID_HANDLE "Index out of bounds" out_json
      else
        try_catch
          (match blocks (deref p) !! N.to_nat index with
           | Some block =>
               text ← call (json_dump (block_summary block));
               lift (succeed out_json (Some text))
           | None =>
               (* not reached: [index < blocks.size()] here *)
               lift (fail_with STARS_ERROR_INVALID_HANDLE
                       "Index out of bounds" out_json)
           end)
          (fun _ what => fail_with STARS_ERROR_SERIALIZATION what out_json)
  | _, _ =>
      fail_with STARS_ERROR_NULL_POINTER "Null pointer argument" out_json
  end.

Definition stars_blocks_destroy (h : StarsBlocksHandle) : M unit :=
  destroy h.

(** ** Prescheduler (lines 462-509) *)

Definition stars_compute_possible_periods (ctx : StarsContextHandle)
    (blocks_h : StarsBlocksHandle)
    (out_handle : outparam StarsPossiblePeriodsHandle)
    : M (StarsResult * outparam StarsPossiblePeriodsHandle) :=
  match ctx, blocks_h, out_handle with
  | Some c, Some b, OutCell _ =>
      try_catch
        (_ ← call (ComputePeriods (instrument (deref c)) (blocks (deref b))
                     (executionPeriod (deref c)));
         periods ← lift new_;
         lift (succeed out_handle (Some (Ptr periods (mkPeriods true)))))
        (fun _ what =>
           fail_with STARS_ERROR_PRESCHEDULER_FAILED what out_handle)
  | _, _, _ =>
      fail_with STARS_ERROR_NULL_POINTER "Null pointer argument" out_handle
  end.

Definition stars_possible_periods_to_json (h : StarsPossiblePeriodsHandle)
    (out_json : outparam (option string))
    : M (StarsResult * outparam (option string)) :=
  match h, out_json with
  | Some _, OutCell _ =>
      try_catch
        (text ← call (json_dump (JArr []));
         lift (succeed out_json (Some text)))
        (fun _ what => fail_with STARS_ERROR_SERIALIZATION what out_json)
  | _, _ =>
      fail_with STARS_ERROR_NULL_POINTER "Null pointer argument" out_json
  end.

Definition stars_possible_periods_destroy (h : StarsPossiblePeriodsHandle)
    : M unit :=
  destroy h.

(** ** Scheduling algorithm (lines 515-681) *)

Definition stars_scheduling_params_default : StarsSchedulingParams :=
  mkParams STARS_SCHEDULER_ACCUMULATIVE 0 0%Q (-1).

Definition stars_run_scheduler (ctx : StarsContextHandle)
    (blocks_h : StarsBlocksHandle)
    (possible_periods : StarsPossiblePeriodsHandle)
    (params : StarsSchedulingParams)
    (out_handle : outparam StarsScheduleHandle)
    : M (StarsResult * outparam StarsScheduleHandle) :=
  match ctx, blocks_h, out_handle with
  | Some c, Some b, OutCell _ =>
      let bs := blocks (deref b) in
      try_catch
        ((* If periods weren't computed, compute them now *)
         _ ← (if match possible_periods with
                 | None => true
                 | Some pp => negb (computed (deref pp))
                 end
              then
                _ ← call (ComputePeriods (instrument (deref c)) bs
                            (executionPeriod (deref c)));
                mret tt
              else mret tt);
         let config :=
           if bool_decide
                (algorithm params = STARS_SCHEDULER_HYBRID_ACCUMULATIVE)
           then Hybrid (mkHybrid 4 50 false None [])
           else AccumulativeDefault in
         '(result_schedule, unplanned, fail) ←
           call (Schedule config bs (instrument (deref c))
                   (executionPeriod (deref c)));
         sched ← lift new_;
         let scheduled := size_sub (size bs) (size unplanned) in
         let fit :=
           if bool_decide (0 < size bs)
           then (inject_Z scheduled / inject_Z (size bs))%Q
           else 0%Q in
         lift (succeed out_handle
                 (Some (Ptr sched
                          (mkSchedule result_schedule unplanned fail
                             (size bs) fit)))))
        (fun _ what =>
           fail_with STARS_ERROR_SCHEDULING_FAILED what out_handle)
  | _, _, _ =>
      fail_with STARS_ERROR_NULL_POINTER "Null pointer argument" out_handle
  end.

Definition unit_json (u : ScheduleUnit) : json :=
  let task := GetTask u in
  let period := GetPeriod u in
  object_of
    [("task_id", JStr (GetName task));
     ("task_name", JStr (GetName task));
     ("begin", JStr (format_datetime (BeginTime period)));
     ("end", JStr (format_datetime (EndTime period)))].

Definition unscheduled_json (block : Block) : json :=
  object_of [("id", JStr (GetName block)); ("name", JStr (GetName block))].

(** The document [stars_schedule_to_json] dumps (lines 612-642). *)
Definition schedule_document (h : StarsSchedule) : json :=
  let units :=
    match schedule h with
    | Some sch => map unit_json sch
    | None => []
    end in
  object_of
    [("units", JArr units);
     ("unscheduled", JArr (map unscheduled_json (unscheduled h)));
     ("fitness", JFloat (fitness h));
     ("scheduled_count", JInt (size units));
     ("unscheduled_count", JInt (size (unscheduled h)))].

Definition stars_schedule_to_json (h : StarsScheduleHandle)
    (out_json : outparam (option string))
    : M (StarsResult * outparam (option string)) :=
  match h, out_json with
  | Some p, OutCell _ =>
      try_catch
        (text ← call (json_dump (schedule_document (deref p)));
         lift (succeed out_json (Some text)))
        (fun _ what => fail_with STARS_ERROR_SERIALIZATION what out_json)
  | _, _ =>
      fail_with STARS_ERROR_NULL_POINTER "Null pointer argument" out_json
  end.

(** The document [stars_schedule_get_stats] dumps (lines 660-670). *)
Definition stats_document (h : StarsSchedule) : json :=
  let scheduled := size_sub (total_blocks h) (size (unscheduled h)) in
  let unsched := size (unscheduled h) in
  let total := total_blocks h in
  object_of
    [("scheduled_count", JInt scheduled);
     ("unscheduled_count", JInt unsched);
     ("total_blocks", JInt total);
     ("scheduling_rate",
      JFloat (if bool_decide (0 < total)
              then (inject_Z scheduled / inject_Z total)%Q
              else 0%Q));
     ("fitness", JFloat (fitness h))].

Definition stars_schedule_get_stats (h : StarsScheduleHandle)
    (out_json : outparam (option string))
    : M (StarsResult * outparam (option string)) :=
  match h, out_json with
  | Some p, OutCell _ =>
      try_catch
        (text ← call (json_dump (stats_document (deref p)));
         lift (succeed out_json (Some text)))
        (fun _ what => fail_with STARS_ERROR_SERIALIZATION what out_json)
  | _, _ =>
      fail_with STARS_ERROR_NULL_POINTER "Null pointer argument" out_json
  end.

Definition stars_schedule_destroy (h : StarsScheduleHandle) : M unit :=
  destroy h.

(** ** Full pipeline (lines 687-764) *)

Definition stars_run_full_pipeline (input_json : option string)
    (params : StarsSchedulingParams)
    (out_result_json : outparam (option string))
    : M (StarsResult * outparam (option string)) :=
  match input_json, out_result_json with
  | Some _, OutCell _ =>
      (* Create context *)
      '(result, ctx_cell) ← stars_context_create input_json (OutCell None);
      let ctx := cell_value ctx_cell in
      if negb (is_ok result) then mret (result, out_result_json) else
      (* Load blocks *)
      '(result, blocks_cell) ← stars_blocks_load_json input_json (OutCell None);
      let blocks_h := cell_value blocks_cell in
      if negb (is_ok result) then
        stars_context_destroy ctx;;
        mret (result, out_result_json)
      else
      (* Compute possible periods *)
      '(result, periods_cell) ←
        stars_compute_possible_periods ctx blocks_h (OutCell None);
      let periods := cell_value periods_cell in
      if negb (is_ok result) then
        stars_blocks_destroy blocks_h;;
        stars_context_destroy ctx;;
        mret (result, out_result_json)
      else
      (* Run scheduler *)
      '(result, schedule_cell) ←
        stars_run_scheduler ctx blocks_h periods params (OutCell None);
      let sched := cell_value schedule_cell in
      if negb (is_ok result) then
        stars_possible_periods_destroy periods;;
        stars_blocks_destroy blocks_h;;
        stars_context_destroy ctx;;
        mret (result, out_result_json)
      else
      (* Get result JSON *)
      '(result, out) ← stars_schedule_to_json sched out_result_json;
      (* Cleanup *)
      stars_schedule_destroy sched;;
      stars_possible_periods_destroy periods;;
      stars_blocks_destroy blocks_h;;
      stars_context_destroy ctx;;
      mret (result, out)
  | _, _ =>
      fail_with STARS_ERROR_NULL_POINTER "Null pointer argument"
        out_result_json
  end.

Definition stars_run_pipeline_from_file (input_file_path : option string)
    (params : StarsSchedulingParams)
    (out_result_json : outparam (option string))
    : M (StarsResult * outparam (option string)) :=
  match input_file_path, out_result_json with
  | Some path, OutCell _ =>
      try_catch
        (match read_file path with
         | None =>
             lift (fail_with STARS_ERROR_IO ("Cannot open file: " ++ path)
                     out_result_json)
         | Some buffer =>
             lift (stars_run_full_pipeline (Some buffer) params
                     out_result_json)
         end)
        (fun _ what => fail_with STARS_ERROR_IO what out_result_json)
  | _, _ =>
      fail_with STARS_ERROR_NULL_POINTER "Null pointer argument"
        out_result_json
  end.

End WithCollaborators.
End Native.

(** * [backend/crates/stars-core-native/ffi/src/stars_ffi.cpp] *)

Module CoreNative.
Section WithCollaborators.
Context `{W : Collaborators}.

(** ** Internal types and state (lines 42-77) *)

Definition set_error (msg : string) : M unit := fun s =>
  (tt, {| g_last_error := msg; live := live s |}).

Definition clear_error_internal : M unit := fun s =>
  (tt, {| g_last_error := ""; live := live s |}).

(** [duplicate_string(msg)] is taken to succeed. *)
Definition make_result (c : StarsErrorCode) (msg : string) : M StarsResult :=
  let result :=
    mkResult c (if String.eqb msg "" then None else Some msg) in
  (if negb (String.eqb msg "") then set_error msg else mret tt);;
  mret result.

Definition make_ok : M StarsResult := make_result STARS_OK "".

Definition fail_with {V : Type} (c : StarsErrorCode) (msg : string)
    (out : outparam V) : M (StarsResult * outparam V) :=
  r ← make_result c msg; mret (r, out).

Definition succeed {V : Type} (out : outparam V) (v : V)
    : M (StarsResult * outparam V) :=
  r ← make_ok; mret (r, store out v).

(** ** Handle structures (lines 83-113) *)

Record StarsContext : Type := mkContext {
  instrument : option Instrument;
  executionPeriod : Period;
  observatoryName : string;
  originalConfig : json
}.

Record StarsBlocksCollection : Type := mkBlocks {
  blocks : list Block
}.

Record StarsPossiblePeriods : Type := mkPeriods {
  periods : PossiblePeriodsMap;
  blockNamesById : gmap string string
}.

Record StarsSchedule : Type := mkSchedule {
  schedule : option ScheduleT;
  sched_blocks : list Block;
  unscheduled : list Block;
  sched_instrument : option Instrument;
  fitness : Q
}.

Definition StarsContextHandle := handle StarsContext.
Definition StarsBlocksHandle := handle StarsBlocksCollection.
Definition StarsPossiblePeriodsHandle := handle StarsPossiblePeriods.
Definition StarsScheduleHandle := handle StarsSchedule.

(** ** Error handling (lines 121-127) *)

Definition stars_get_last_error : M (option string) := fun s =>
  (if String.eqb (g_last_error s) "" then None else Some (g_last_error s), s).

Definition stars_clear_error : M unit := clear_error_internal.

(** ** Context management (lines 150-247)

    The handlers below leave out [catch (...)]: every exception of the
    embedding derives from [std::exception]. *)

Definition stars_context_create (config_json : option string)
    (out_handle : outparam StarsContextHandle)
    : M (StarsResult * outparam StarsContextHandle) :=
  clear_error_internal;;
  match config_json, out_handle with
  | Some cfg, OutCell _ =>
      try_catch
        (config ← call (json_parse cfg);
         unique_scope (fun ctx =>
           (* Load instrument if present *)
           ins ← (if contains config "instrument" then
                    ij ← call (subscript config "instrument");
                    i ← call (Instrument_Load ij);
                    mret (Some i)
                  else mret None);
           (* Load execution period *)
           ep_ ← (if contains config "executionPeriod" then
                    ep ← call (subscript config "executionPeriod");
                    bj ← call (subscript ep "begin");
                    beginStr ← call (get_string bj);
                    ej ← call (subscript ep "end");
                    endStr ← call (get_string ej);
                    begin_ ← call (TimeUTC_of_string beginStr);
                    end_ ← call (TimeUTC_of_string endStr);
                    mret (mkPeriod begin_ end_)
                  else mret Period_default);
           (* Load observatory name if present *)
           obs ← (if contains config "observatory" then
                    oj ← call (subscript config "observatory");
                    call (get_string oj)
                  else mret "");
           r ← lift (succeed out_handle
                       (Some (Ptr ctx (mkContext ins ep_ obs config))));
           mret (r, true)))
        (fun k what =>
           match k with
           | parse_error =>
               fail_with STARS_ERROR_INVALID_JSON
                 ("JSON parse error: " ++ what) out_handle
           | std_exception =>
               fail_with STARS_ERROR_DESERIALIZATION
                 ("Failed to create context: " ++ what) out_handle
           end)
  | _, _ =>
      fail_with STARS_ERROR_NULL_POINTER "Null pointer argument" out_handle
  end.

Definition stars_context_create_from_file (file_path : option string)
    (out_handle : outparam StarsContextHandle)
    : M (StarsResult * outparam StarsContextHandle) :=
  clear_error_internal;;
  match file_path, out_handle with
  | Some path, OutCell _ =>
      try_catch
        (loader ← call (ScheduleJsonLoader path);
         unique_scope (fun ctx =>
           ins ← call (LoadInstrument loader);
           ep_ ← call (LoadExecutionPeriod loader);
           r ← lift (succeed out_handle
                       (Some (Ptr ctx
                                (mkContext ins ep_ "" (GetContent loader)))));
           mret (r, true)))
        (fun _ what =>
           fail_with STARS_ERROR_IO ("Failed to load file: " ++ what)
             out_handle)
  | _, _ =>
      fail_with STARS_ERROR_NULL_POINTER "Null pointer argument" out_handle
  end.

Definition stars_context_destroy (h : StarsContextHandle) : M unit :=
  destroy h.

(** The document [stars_context_get_execution_period] dumps
    (lines 236-239). *)
Definition execution_period_document (c : StarsContext) : json :=
  let ep_ := executionPeriod c in
  object_of
    [("begin", JStr (ToString (BeginTime ep_)));
     ("end", JStr (ToString (EndTime ep_)));
     ("duration_days",
      JFloat (TotalHours (Period_GetDuration ep_) / 24)%Q)].

Definition stars_context_get_execution_period (h : StarsContextHandle)
    (out_json : outparam (option string))
    : M (StarsResult * outparam (option string)) :=
  clear_error_internal;;
  match h, out_json with
  | Some p, OutCell _ =>
      try_catch
        (text ← call (json_dump (execution_period_document (deref p)));
         lift (succeed out_json (Some text)))
        (fun _ what =>
           fail_with STARS_ERROR_SERIALIZATION
             ("Failed to serialize: " ++ what) out_json)
  | _, _ =>
      fail_with STARS_ERROR_NULL_POINTER "Null pointer argument" out_json
  end.

(** ** Scheduling blocks (lines 253-377) *)

(** The loop at lines 275-286: a null block is not stored. *)
Fixpoint deserialize_elements (elements : list json) (acc : list Block)
    : exn (list Block) :=
  match elements with
  | [] => Normal acc
  | blockJson :: rest =>
      block ← deserialize_block blockJson;
      match block with
      | Some b => deserialize_elements rest (acc ++ [b])
      | None => deserialize_elements rest acc
      end
  end.

Definition stars_blocks_load_json (text : option string)
    (out_handle : outparam StarsBlocksHandle)
    : M (StarsResult * outparam StarsBlocksHandle) :=
  clear_error_internal;;
  match text, out_handle with
  | Some txt, OutCell _ =>
      try_catch
        (data ← call (json_parse txt);
         unique_scope (fun collection =>
           found ← (if is_array data then mret (Some data)
                    else if contains data "schedulingBlocks" then
                      a ← call (subscript data "schedulingBlocks");
                      mret (Some a)
                    else mret None);
           match found with
           | None =>
               r ← lift (fail_with STARS_ERROR_INVALID_JSON
                           "Expected array or object with 'schedulingBlocks' key"
                           out_handle);
               mret (r, false)
           | Some blocksArray =>
               bs ← call (deserialize_elements (elements_of blocksArray) []);
               r ← lift (succeed out_handle
                           (Some (Ptr collection (mkBlocks bs))));
               mret (r, true)
           end))
        (fun k what =>
           match k with
           | parse_error =>
               fail_with STARS_ERROR_INVALID_JSON
                 ("JSON parse error: " ++ what) out_handle
           | std_exception =>
               fail_with STARS_ERROR_DESERIALIZATION
                 ("Failed to load blocks: " ++ what) out_handle
           end)
  | _, _ =>
      fail_with STARS_ERROR_NULL_POINTER "Null pointer argument" out_handle
  end.

Definition stars_blocks_load_file (file_path : option string)
    (out_handle : outparam StarsBlocksHandle)
    : M (StarsResult * outparam StarsBlocksHandle) :=
  clear_error_internal;;
  match file_path, out_handle with
  | Some path, OutCell _ =>
      try_catch
        (loader ← call (ScheduleJsonLoader path);
         unique_scope (fun collection =>
           bs ← call (LoadBlocks loader);
           r ← lift (succeed out_handle
                       (Some (Ptr collection (mkBlocks bs))));
           mret (r, true)))
        (fun _ what =>
           fail_with STARS_ERROR_IO ("Failed to load file: " ++ what)
             out_handle)
  | _, _ =>
      fail_with STARS_ERROR_NULL_POINTER "Null pointer argument" out_handle
  end.

Definition stars_blocks_to_json (h : StarsBlocksHandle)
    (out_json : outparam (option string))
    : M (StarsResult * outparam (option string)) :=
  clear_error_internal;;
  match h, out_json with
  | Some p, OutCell _ =>
      try_catch
        (result ← call (ScheduleJsonBuilder_Build (blocks (deref p)));
         text ← call (json_dump result);
         lift (succeed out_json (Some text)))
        (fun _ what =>
           fail_with STARS_ERROR_SERIALIZATION
             ("Failed to serialize blocks: " ++ what) out_json)
  | _, _ =>
      fail_with STARS_ERROR_NULL_POINTER "Null pointer argument" out_json
  end.

Definition stars_blocks_count (h : StarsBlocksHandle)
    (out_count : outparam Z) : M (StarsResult * outparam Z) :=
  clear_error_internal;;
  match h, out_count with
  | Some p, OutCell _ => succeed out_count (size (blocks (deref p)))
  | _, _ =>
      fail_with STARS_ERROR_NULL_POINTER "Null pointer argument" out_count
  end.

Definition stars_blocks_get_at (h : StarsBlocksHandle) (index : N)
    (out_json : outparam (option string))
    : M (StarsResult * outparam (option string)) :=
  clear_error_internal;;
  match h, out_json with
  | Some p, OutCell _ =>
      if bool_decide (size (blocks (deref p)) <= Z.of_N index) then
        fail_with STARS_ERROR_INVALID_HANDLE "Index out of bounds" out_json
      else
        try_catch
          (match blocks (deref p) !! N.to_nat index with
           | Some block =>
               result ← call (serialize_block block);
               text ← call (json_dump result);
               lift (succeed out_json (Some text))
           | None =>
               (* not reached: [index < blocks.size()] here *)
               lift (fail_with STARS_ERROR_INVALID_HANDLE
                       "Index out of bounds" out_json)
           end)
          (fun _ what =>
             fail_with STARS_ERROR_SERIALIZATION
               ("Failed to serialize block: " ++ what) out_json)
  | _, _ =>
      fail_with STARS_ERROR_NULL_POINTER "Null pointer argument" out_json
  end.

Definition stars_blocks_destroy (h : StarsBlocksHandle) : M unit :=
  destroy h.

(** ** Prescheduler (lines 383-459) *)

(** [blockNamesById.emplace(id, name)] keeps an existing entry. *)
Definition emplace (m : gmap string string) (k v : string)
    : gmap string string :=
  match m !! k with
  | Some _ => m
  | None => <[k := v]> m
  end.

Definition stars_compute_possible_periods (ctx : StarsContextHandle)
    (blocks_h : StarsBlocksHandle)
    (out_handle : outparam StarsPossiblePeriodsHandle)
    : M (StarsResult * outparam StarsPossiblePeriodsHandle) :=
  clear_error_internal;;
  match ctx, blocks_h, out_handle with
  | Some c, Some b, OutCell _ =>
      match instrument (deref c) with
      | None =>
          fail_with STARS_ERROR_INVALID_HANDLE
            "Context has no instrument configured" out_handle
      | Some ins =>
          try_catch
            (unique_scope (fun pp =>
               map_ ← call (ComputePeriods ins (blocks (deref b))
                              (executionPeriod (deref c)));
               let names :=
                 fold_left (fun m block => emplace m (GetId block) (GetName block))
                   (blocks (deref b)) ∅ in
               r ← lift (succeed out_handle
                           (Some (Ptr pp (mkPeriods map_ names))));
               mret (r, true)))
            (fun _ what =>
               fail_with STARS_ERROR_PRESCHEDULER_FAILED
                 ("Prescheduler failed: " ++ what) out_handle)
      end
  | _, _, _ =>
      fail_with STARS_ERROR_NULL_POINTER "Null pointer argument" out_handle
  end.

Definition period_json (p : Period) : json :=
  object_of [("begin", JStr (ToString (BeginTime p)));
             ("end", JStr (ToString (EndTime p)))].

Definition periods_entry (names : gmap string string)
    (e : string * list Period) : json :=
  let '(blockId, ps) := e in
  object_of
    [("block_id", JStr blockId);
     ("block_name", JStr (match names !! blockId with
                          | None => blockId
                          | Some n => n
                          end));
     ("periods", JArr (map period_json ps))].

Definition stars_possible_periods_to_json (h : StarsPossiblePeriodsHandle)
    (out_json : outparam (option string))
    : M (StarsResult * outparam (option string)) :=
  clear_error_internal;;
  match h, out_json with
  | Some p, OutCell _ =>
      try_catch
        (let result :=
           JArr (map (periods_entry (blockNamesById (deref p)))
                   (periods (deref p))) in
         text ← call (json_dump result);
         lift (succeed out_json (Some text)))
        (fun _ what =>
           fail_with STARS_ERROR_SERIALIZATION
             ("Failed to serialize periods: " ++ what) out_json)
  | _, _ =>
      fail_with STARS_ERROR_NULL_POINTER "Null pointer argument" out_json
  end.

Definition stars_possible_periods_destroy (h : StarsPossiblePeriodsHandle)
    : M unit :=
  destroy h.

(** ** Scheduling algorithm (lines 465-642) *)

Definition stars_scheduling_params_default : StarsSchedulingParams :=
  mkParams STARS_SCHEDULER_ACCUMULATIVE 0 0%Q (-1).

(** The [switch] at lines 495-520; [None] is its [default:] label. *)
Definition algorithm_configuration (params : StarsSchedulingParams)
    : option AlgorithmConfiguration :=
  let iterations :=
    if bool_decide (max_iterations params = 0) then 50
    else max_iterations params in
  if bool_decide (algorithm params = STARS_SCHEDULER_ACCUMULATIVE) then
    Some (Accumulative
            (mkAccumulative iterations false 1
               (if bool_decide (0 <= seed params) then Some (seed params)
                else None)))
  else if bool_decide (algorithm params = STARS_SCHEDULER_HYBRID_ACCUMULATIVE)
  then
    Some (Hybrid
            (mkHybrid (Z.max 1 hardware_concurrency) iterations false
               (Some 1) []))
  else None.

Definition stars_run_scheduler (ctx : StarsContextHandle)
    (blocks_h : StarsBlocksHandle)
    (possible_periods : StarsPossiblePeriodsHandle)
    (params : StarsSchedulingParams)
    (out_handle : outparam StarsScheduleHandle)
    : M (StarsResult * outparam StarsScheduleHandle) :=
  clear_error_internal;;
  match ctx, blocks_h, out_handle with
  | Some c, Some b, OutCell _ =>
      match instrument (deref c) with
      | None =>
          fail_with STARS_ERROR_INVALID_HANDLE
            "Context has no instrument configured" out_handle
      | Some ins =>
          let bs := blocks (deref b) in
          try_catch
            (match algorithm_configuration params with
             | None =>
                 lift (fail_with STARS_ERROR_SCHEDULING_FAILED
                         "Unknown algorithm type" out_handle)
             | Some config =>
                 (* Compute possible periods if not provided *)
                 periodsMap ←
                   match possible_periods with
                   | Some pp => mret (periods (deref pp))
                   | None =>
                       call (ComputePeriods ins bs (executionPeriod (deref c)))
                   end;
                 (* Run scheduling *)
                 '(sch, unsched, failInfo) ←
                   call (Schedule config bs ins (executionPeriod (deref c)));
                 (* Build result *)
                 unique_scope (fun result =>
                   let fit :=
                     match sch with
                     | Some units => Schedule_ComputeFitness units
                     | None => 0%Q
                     end in
                   r ← lift (succeed out_handle
                               (Some (Ptr result
                                        (mkSchedule sch bs unsched
                                           (Some ins) fit))));
                   mret (r, true))
             end)
            (fun _ what =>
               fail_with STARS_ERROR_SCHEDULING_FAILED
                 ("Scheduling failed: " ++ what) out_handle)
      end
  | _, _, _ =>
      fail_with STARS_ERROR_NULL_POINTER "Null pointer argument" out_handle
  end.

Definition unit_json (u : ScheduleUnit) : json :=
  object_of
    [("task_id", JStr (GetId (GetTask u)));
     ("task_name", JStr (GetName (GetTask u)));
     ("begin", JStr (ToString (BeginTime (GetPeriod u))));
     ("end", JStr (ToString (EndTime (GetPeriod u))))].

Definition unscheduled_json (block : Block) : json :=
  object_of [("id", JStr (GetId block)); ("name", JStr (GetName block))].

(** The document [stars_schedule_to_json] dumps (lines 566-598). *)
Definition schedule_document (h : StarsSchedule) : json :=
  let head :=
    match schedule h with
    | Some units =>
        [("units", JArr (map unit_json units));
         ("fitness", JFloat (fitness h));
         ("scheduled_count", JInt (size units))]
    | None =>
        [("units", JArr []);
         ("fitness", JFloat 0%Q);
         ("scheduled_count", JInt 0)]
    end in
  object_of
    (head ++
     [("unscheduled", JArr (map unscheduled_json (unscheduled h)));
      ("unscheduled_count", JInt (size (unscheduled h)))]).

Definition stars_schedule_to_json (h : StarsScheduleHandle)
    (out_json : outparam (option string))
    : M (StarsResult * outparam (option string)) :=
  clear_error_internal;;
  match h, out_json with
  | Some p, OutCell _ =>
      try_catch
        (text ← call (json_dump (schedule_document (deref p)));
         lift (succeed out_json (Some text)))
        (fun _ what =>
           fail_with STARS_ERROR_SERIALIZATION
             ("Failed to serialize schedule: " ++ what) out_json)
  | _, _ =>
      fail_with STARS_ERROR_NULL_POINTER "Null pointer argument" out_json
  end.

(** The document [stars_schedule_get_stats] dumps (lines 617-629). *)
Definition stats_document (h : StarsSchedule) : json :=
  let scheduledCount :=
    match schedule h with
    | Some units => size units
    | None => 0
    end in
  let unscheduledCount := size (unscheduled h) in
  let totalCount := (scheduledCount + unscheduledCount) mod 2^64 in
  object_of
    [("scheduled_count", JInt scheduledCount);
     ("unscheduled_count", JInt unscheduledCount);
     ("total_blocks", JInt totalCount);
     ("scheduling_rate",
      JFloat (if bool_decide (0 < totalCount)
              then (inject_Z scheduledCount / inject_Z totalCount)%Q
              else 0%Q));
     ("fitness", JFloat (fitness h))].

Definition stars_schedule_get_stats (h : StarsScheduleHandle)
    (out_json : outparam (option string))
    : M (StarsResult * outparam (option string)) :=
  clear_error_internal;;
  match h, out_json with
  | Some p, OutCell _ =>
      try_catch
        (text ← call (json_dump (stats_document (deref p)));
         lift (succeed out_json (Some text)))
        (fun _ what =>
           fail_with STARS_ERROR_SERIALIZATION
             ("Failed to get stats: " ++ what) out_json)
  | _, _ =>
      fail_with STARS_ERROR_NULL_POINTER "Null pointer argument" out_json
  end.

Definition stars_schedule_destroy (h : StarsScheduleHandle) : M unit :=
  destroy h.

(** ** Full pipeline (lines 648-744) *)

(** The three stages after the context and the blocks exist, shared by
    the text of both pipeline functions (lines 678-694, 727-743). *)
Definition schedule_and_export (ctx : StarsContextHandle)
    (blocks_h : StarsBlocksHandle) (params : StarsSchedulingParams)
    (out_result_json : outparam (option string))
    : M (StarsResult * outparam (option string)) :=
  (* Run scheduler *)
  '(result, schedule_cell) ←
    stars_run_scheduler ctx blocks_h None params (OutCell None);
  let sched := cell_value schedule_cell in
  if negb (is_ok result) then
    stars_context_destroy ctx;;
    stars_blocks_destroy blocks_h;;
    mret (result, out_result_json)
  else
  (* Export result *)
  '(result, out) ← stars_schedule_to_json sched out_result_json;
  (* Cleanup *)
  stars_schedule_destroy sched;;
  stars_blocks_destroy blocks_h;;
  stars_context_destroy ctx;;
  mret (result, out).

Definition stars_run_full_pipeline (input_json : option string)
    (params : StarsSchedulingParams)
    (out_result_json : outparam (option string))
    : M (StarsResult * outparam (option string)) :=
  clear_error_internal;;
  match input_json, out_result_json with
  | Some _, OutCell _ =>
      (* Create context *)
      '(result, ctx_cell) ← stars_context_create input_json (OutCell None);
      let ctx := cell_value ctx_cell in
      if negb (is_ok result) then mret (result, out_result_json) else
      (* Load blocks *)
      '(result, blocks_cell) ← stars_blocks_load_json input_json (OutCell None);
      let blocks_h := cell_value blocks_cell in
      if negb (is_ok result) then
        stars_context_destroy ctx;;
        mret (result, out_result_json)
      else schedule_and_export ctx blocks_h params out_result_json
  | _, _ =>
      fail_with STARS_ERROR_NULL_POINTER "Null pointer argument"
        out_result_json
  end.

Definition stars_run_pipeline_from_file (input_file_path : option string)
    (params : StarsSchedulingParams)
    (out_result_json : outparam (option string))
    : M (StarsResult * outparam (option string)) :=
  clear_error_internal;;
  match input_file_path, out_result_json with
  | Some _, OutCell _ =>
      (* Create context from file *)
      '(result, ctx_cell) ←
        stars_context_create_from_file input_file_path (OutCell None);
      let ctx := cell_value ctx_cell in
      if negb (is_ok result) then mret (result, out_result_json) else
      (* Load blocks from file *)
      '(result, blocks_cell) ←
        stars_blocks_load_file input_file_path (OutCell None);
      let blocks_h := cell_value blocks_cell in
      if negb (is_ok result) then
        stars_context_destroy ctx;;
        mret (result, out_result_json)
      else schedule_and_export ctx blocks_h params out_result_json
  | _, _ =>
      fail_with STARS_ERROR_NULL_POINTER "Null pointer argument"
        out_result_json
  end.

End WithCollaborators.
End CoreNative.

(** * Memory management of the strings handed to the caller

    [duplicate_string], [stars_free_string] and [stars_free_result]
    (lines 65-71 and 146-155 of the native source, 55-61 and 133-144 of
    stars-core-native).  The operations above treat a returned string
    as a value; here it is a block of the C heap, and the heap is the
    map of the blocks in use, each with the characters it holds.
    [malloc] and [free] are the C library's: [malloc] yields a block
    that is not in use, or null when there is no room; [free] of null
    does nothing, [free] of a block in use releases it, and [free] of
    anything else has no defined behaviour, which is the [None] outcome
    below. *)

Module Memory.

Definition malloc (room : bool) (h : gmap addr string) : option addr :=
  if room then Some (fresh (dom h)) else None.

Definition free (p : option addr) (h : gmap addr string)
    : option (gmap addr string) :=
  match p with
  | None => Some h
  | Some a =>
      if bool_decide (is_Some (h !! a)) then Some (delete a h) else None
  end.

(** [room] says whether [malloc] finds room. *)
Definition duplicate_string (room : bool) (s : string) (h : gmap addr string)
    : option addr * gmap addr string :=
  match malloc room h with
  | Some result => (Some result, <[result := s]> h)
  | None => (None, h)
  end.

(** [StarsResult] with its [char* error_message]. *)
Record StarsResult : Type := mkResult {
  code : StarsErrorCode;
  error_message : option addr
}.

Module Native.

Definition stars_free_string (str : option addr) (h : gmap addr string)
    : option (gmap addr string) :=
  free str h.

End Native.

Module CoreNative.

Definition stars_free_string (str : option addr) (h : gmap addr string)
    : option (gmap addr string) :=
  match str with
  | Some _ => free str h
  | None => Some h
  end.

End CoreNative.

(** The same text in both wrappers. *)
Definition stars_free_result (result : outparam StarsResult)
    (h : gmap addr string)
    : option (outparam StarsResult * gmap addr string) :=
  match result with
  | OutCell r =>
      match error_message r with
      | Some _ =>
          h' ← free (error_message r) h;
          Some (OutCell (mkResult (code r) None), h')
      | None => Some (result, h)
      end
  | NullOut => Some (result, h)
  end.

End Memory.

(** * A concrete set of collaborators

    A small, executable stand-in for the JSON library and the engine,
    used to run the wrappers on concrete inputs: a JSON reader and
    printer for the fragment without escapes and exponents, UTC instants
    as seconds since 1970-01-01T00:00:00Z, observation tasks as records,
    and an engine that places blocks back to back in the order given. *)

Module Demo.

Definition dq : string := String "034"%char "".

(** JSON text is written with ['] for the double quote. *)
Fixpoint json_text (s : string) : string :=
  match s with
  | EmptyString => EmptyString
  | String c s' =>
      String (if Ascii.eqb c "'"%char then "034"%char else c) (json_text s')
  end.

(** ** Printer *)

Fixpoint join (sep : string) (l : list string) : string :=
  match l with
  | [] => ""
  | [x] => x
  | x :: l' => x ++ sep ++ join sep l'
  end.

Fixpoint fraction_digits (fuel : nat) (r d : Z) : string :=
  match fuel with
  | O => ""
  | S fuel' =>
      let r10 := r * 10 in
      String (ascii_of_N (48 + Z.to_N (r10 / d)))
        (if Z.eqb (r10 mod d) 0 then ""
         else fraction_digits fuel' (r10 mod d) d)
  end.

Definition print_float (q : Q) : string :=
  let n := Qnum q in
  let d := Z.pos (Qden q) in
  (if Z.ltb n 0 then "-" else "")
  ++ string_of_Z (Z.abs n / d) ++ "." ++ fraction_digits 17 (Z.abs n mod d) d.

Fixpoint print_json (j : json) : string :=
  match j with
  | JNull => "null"
  | JBool b => if b then "true" else "false"
  | JInt z => string_of_Z z
  | JFloat q => print_float q
  | JStr s => dq ++ s ++ dq
  | JArr l => "[" ++ join "," (map print_json l) ++ "]"
  | JObj m =>
      "{" ++ join "," (map (fun kv => dq ++ fst kv ++ dq ++ ":"
                                      ++ print_json (snd kv)) m) ++ "}"
  end.

(** ** Reader *)

Definition is_ws (c : ascii) : bool :=
  Ascii.eqb c " "%char || Ascii.eqb c "010"%char
  || Ascii.eqb c "013"%char || Ascii.eqb c "009"%char.

Fixpoint skip_ws (s : string) : string :=
  match s with
  | String c s' => if is_ws c then skip_ws s' else s
  | EmptyString => s
  end.

Definition digit_of (c : ascii) : option Z :=
  let n := Z.of_N (N_of_ascii c) in
  if Z.leb 48 n && Z.leb n 57 then Some (n - 48) else None.

(** Leading digits of [s]: their value, their number, and the rest. *)
Fixpoint read_digits (s : string) (acc : Z) (count : nat)
    : Z * nat * string :=
  match s with
  | String c s' =>
      match digit_of c with
      | Some d => read_digits s' (acc * 10 + d) (S count)
      | None => (acc, count, s)
      end
  | EmptyString => (acc, count, s)
  end.

Definition read_number (s : string) : option (json * string) :=
  let '(neg, s1) :=
    match s with
    | String "-" s' => (true, s')
    | _ => (false, s)
    end in
  let '(int_part, n_int, s2) := read_digits s1 0 O in
  if Nat.eqb n_int 0 then None else
  let sign (z : Z) := if neg : bool then - z else z in
  match s2 with
  | String "." s3 =>
      let '(frac, n_frac, s4) := read_digits s3 0 O in
      if Nat.eqb n_frac 0 then None else
      let scale := 10 ^ Z.of_nat n_frac in
      Some (JFloat (Qred (sign (int_part * scale + frac) # Z.to_pos scale)),
            s4)
  | _ => Some (JInt (sign int_part), s2)
  end.

(** The characters up to the closing quote (no escapes). *)
Fixpoint read_string (s : string) : option (string * string) :=
  match s with
  | EmptyString => None
  | String c s' =>
      if Ascii.eqb c "034"%char then Some ("", s')
      else match read_string s' with
           | Some (str, rest) => Some (String c str, rest)
           | None => None
           end
  end.

Definition read_literal (lit : string) (v : json) (s : string)
    : option (json * string) :=
  if String.prefix lit s
  then Some (v, String.substring (String.length lit)
                  (String.length s - String.length lit) s)
  else None.

Fixpoint read_value (fuel : nat) (s : string) {struct fuel}
    : option (json * string) :=
  match fuel with
  | O => None
  | S fuel' =>
      match skip_ws s with
      | EmptyString => None
      | String c rest =>
          if Ascii.eqb c "["%char then
            match skip_ws rest with
            | String "]" rest' => Some (JArr [], rest')
            | _ =>
                (fix elements (n : nat) (s : string) (acc : list json)
                   : option (json * string) :=
                   match n with
                   | O => None
                   | S n' =>
                       match read_value fuel' s with
                       | Some (v, s') =>
                           match skip_ws s' with
                           | String "," s'' => elements n' s'' (acc ++ [v])%list
                           | String "]" s'' => Some (JArr (acc ++ [v])%list, s'')
                           | _ => None
                           end
                       | None => None
                       end
                   end) fuel' rest []
            end
          else if Ascii.eqb c "{"%char then
            match skip_ws rest with
            | String "}" rest' => Some (JObj [], rest')
            | _ =>
                (fix members (n : nat) (s : string)
                     (acc : list (string * json)) : option (json * string) :=
                   match n with
                   | O => None
                   | S n' =>
                       match skip_ws s with
                       | String "034"%char s1 =>
                           match read_string s1 with
                           | Some (key, s2) =>
                               match skip_ws s2 with
                               | String ":" s3 =>
                                   match read_value fuel' s3 with
                                   | Some (v, s4) =>
                                       let acc' := obj_insert key v acc in
                                       match skip_ws s4 with
                                       | String "," s5 => members n' s5 acc'
                                       | String "}" s5 => Some (JObj acc', s5)
                                       | _ => None
                                       end
                                   | None => None
                                   end
                               | _ => None
                               end
                           | None => None
                           end
                       | _ => None
                       end
                   end) fuel' rest []
            end
          else if Ascii.eqb c "034"%char then
            match read_string rest with
            | Some (str, rest') => Some (JStr str, rest')
            | None => None
            end
          else if Ascii.eqb c "t"%char then read_literal "true" (JBool true) (String c rest)
          else if Ascii.eqb c "f"%char then read_literal "false" (JBool false) (String c rest)
          else if Ascii.eqb c "n"%char then read_literal "null" JNull (String c rest)
          else read_number (String c rest)
      end
  end.

Definition parse (s : string) : exn json :=
  match read_value (S (String.length s)) s with
  | Some (j, rest) =>
      match skip_ws rest with
      | EmptyString => Normal j
      | _ =>
          Throw parse_error
            "[json.exception.parse_error.101] unexpected trailing input"
      end
  | None =>
      Throw parse_error "[json.exception.parse_error.101] syntax error"
  end.

(** ** Instants *)

(** Days since 1970-01-01 of a civil date, and back. *)
Definition days_from_civil (y m d : Z) : Z :=
  let y := if Z.leb m 2 then y - 1 else y in
  let era := y / 400 in
  let yoe := y - era * 400 in
  let doy := (153 * (if Z.ltb 2 m then m - 3 else m + 9) + 2) / 5 + d - 1 in
  let doe := yoe * 365 + yoe / 4 - yoe / 100 + doy in
  era * 146097 + doe - 719468.

Definition civil_from_days (z : Z) : Z * Z * Z :=
  let z := z + 719468 in
  let era := z / 146097 in
  let doe := z - era * 146097 in
  let yoe := (doe - doe / 1460 + doe / 36524 - doe / 146096) / 365 in
  let y := yoe + era * 400 in
  let doy := doe - (365 * yoe + yoe / 4 - yoe / 100) in
  let mp := (5 * doy + 2) / 153 in
  let d := doy - (153 * mp + 2) / 5 + 1 in
  let m := if Z.ltb mp 10 then mp + 3 else mp - 9 in
  (if Z.leb m 2 then y + 1 else y, m, d).

Definition field_at (s : string) (start len : nat) : option Z :=
  let '(v, n, rest) := read_digits (String.substring start len s) 0 O in
  if Nat.eqb n len then Some v else None.

(** [YYYY-MM-DDTHH:MM:SSZ] *)
Definition time_of_string (s : string) : exn Z :=
  match field_at s 0 4, field_at s 5 2, field_at s 8 2,
        field_at s 11 2, field_at s 14 2, field_at s 17 2 with
  | Some y, Some mo, Some d, Some h, Some mi, Some sec =>
      if String.eqb (String.substring 4 1 s) "-"
         && String.eqb (String.substring 7 1 s) "-"
         && String.eqb (String.substring 10 1 s) "T"
         && String.eqb (String.substring 13 1 s) ":"
         && String.eqb (String.substring 16 1 s) ":"
         && String.eqb (String.substring 19 2 s) "Z"
      then Normal (days_from_civil y mo d * 86400 + h * 3600 + mi * 60 + sec)
      else Throw std_exception ("Invalid UTC time: " ++ s)
  | _, _, _, _, _, _ => Throw std_exception ("Invalid UTC time: " ++ s)
  end.

Definition time_to_string (t : Z) : string :=
  let '(y, m, d) := civil_from_days (t / 86400) in
  let tod := t mod 86400 in
  setw 4 y ++ "-" ++ setw 2 m ++ "-" ++ setw 2 d ++ "T"
  ++ setw 2 (tod / 3600) ++ ":" ++ setw 2 (tod / 60 mod 60) ++ ":"
  ++ setw 2 (tod mod 60) ++ "Z".

(** ** Blocks *)

Record task : Type := mkTask {
  task_name : string;
  task_priority : Q;
  task_duration : Duration;
  task_target : Q * Q
}.

Definition task_json (t : task) : json :=
  object_of
    [("ObservationTask",
      object_of
        [("name", JStr (task_name t));
         ("priority", JFloat (task_priority t));
         ("duration",
          object_of [("hours", JInt 0); ("minutes", JInt 0);
                     ("seconds", JInt (total_seconds (task_duration t)))])])].

(** An element that is an object with the single key
    [ObservationTask] is a task; anything else yields no block. *)
Definition task_of_json (j : json) : exn (option task) :=
  match j with
  | JObj [("ObservationTask", v)] =>
      name ← value_string v "name" "unnamed";
      priority ← value_double v "priority" 1%Q;
      dur ← value_json v "duration" (JObj []);
      hours ← value_int dur "hours" 0;
      minutes ← value_int dur "minutes" 0;
      seconds ← value_int dur "seconds" 0;
      Normal (Some (mkTask name priority (Duration_hms hours minutes seconds)
                      (0%Q, 0%Q)))
  | _ => Normal None
  end.

(** ** Engine *)

(** Blocks are placed back to back from [cursor] while they end by
    [limit]; the others are left unplanned. *)
Fixpoint place (bs : list task) (cursor limit : Z)
    (units : list (task * Period_ Z)) (unplanned : list task)
    : list (task * Period_ Z) * list task :=
  match bs with
  | [] => (units, unplanned)
  | b :: bs' =>
      let stop := cursor + total_seconds (task_duration b) in
      if Z.leb stop limit
      then place bs' stop limit (units ++ [(b, mkPeriod cursor stop)]) unplanned
      else place bs' cursor limit units (unplanned ++ [b])
  end.

(** The one file of the demo file system. *)
Definition demo_path : string := "schedule.json".
Definition demo_file : string :=
  json_text
    ("{'instrument':{'location':{'latitude':28.75,'longitude':-17.5,'altitude':2396.0}},"
     ++ "'executionPeriod':{'begin':'2025-01-01T00:00:00Z','end':'2025-01-02T00:00:00Z'},"
     ++ "'schedulingBlocks':[{'ObservationTask':{'name':'M31','priority':2.0,"
     ++ "'duration':{'hours':1,'minutes':0,'seconds':0}}}]}").

Definition file_system (path : string) : option string :=
  if String.eqb path demo_path then Some demo_file else None.

Definition load_file (path : string) : exn json :=
  match file_system path with
  | Some text => parse text
  | None => Throw std_exception ("Cannot open " ++ path)
  end.

Definition period_of_json (j : json) : exn (Period_ Z) :=
  ep ← subscript j "executionPeriod";
  b ← value_string ep "begin" "";
  e ← value_string ep "end" "";
  begin_ ← time_of_string b;
  end_ ← time_of_string e;
  Normal (mkPeriod begin_ end_).

Fixpoint tasks_of (elements : list json) : exn (list task) :=
  match elements with
  | [] => Normal []
  | e :: rest =>
      t ← task_of_json e;
      ts ← tasks_of rest;
      Normal (match t with Some t => t :: ts | None => ts end)
  end.

(** The prescheduler of the demo: every block is observable during the
    whole execution period. *)
Definition prescheduler (ins : Q * Q * Q) (bs : list task) (p : Period_ Z)
    : exn (list (string * list (Period_ Z))) :=
  Normal (map (fun b => (task_name b, [p])) bs).

Definition engine (config : AlgorithmConfiguration) (bs : list task)
    (ins : Q * Q * Q) (p : Period_ Z)
    : exn (option (list (task * Period_ Z)) * list task * unit) :=
  let '(units, unplanned) := place bs (BeginTime p) (EndTime p) [] [] in
  Normal (Some units, unplanned, tt).

(** The collaborators around a given prescheduler and engine. *)
Definition make
    (prescheduler : Q * Q * Q -> list task -> Period_ Z ->
                    exn (list (string * list (Period_ Z))))
    (engine : AlgorithmConfiguration -> list task -> Q * Q * Q ->
              Period_ Z ->
              exn (option (list (task * Period_ Z)) * list task * unit))
    : Collaborators := {|
  json_parse := parse;
  json_dump := fun j => Normal (print_json j);
  read_file := file_system;
  TimeUTC := Z;
  TimeUTC_of_string := time_of_string;
  GetDate := fun t => civil_from_days (t / 86400);
  GetDuration := fun t => mkDuration (t mod 86400);
  ToString := time_to_string;
  Period_default := mkPeriod 0 0;
  Period_GetDuration := fun p => mkDuration (EndTime p - BeginTime p);
  Instrument := Q * Q * Q;
  Instrument_at := fun _ lat lon alt => Normal (lat, lon, alt);
  Instrument_Load := fun j =>
    loc ← value_json j "location" (JObj []);
    lat ← value_double loc "latitude" 0%Q;
    lon ← value_double loc "longitude" 0%Q;
    alt ← value_double loc "altitude" 0%Q;
    Normal (lat, lon, alt);
  Block := task;
  GetId := task_name;
  GetName := task_name;
  Task_GetPriority := fun t => Some (task_priority t);
  ObservationTask_Create := fun name priority duration target =>
    Normal (mkTask name priority duration target);
  deserialize_block := task_of_json;
  serialize_block := fun t => Normal (task_json t);
  ScheduleJsonBuilder_Build := fun ts => Normal (JArr (map task_json ts));
  Loader := json;
  ScheduleJsonLoader := load_file;
  GetContent := fun j => j;
  LoadInstrument := fun j =>
    ij ← subscript j "instrument";
    loc ← value_json ij "location" (JObj []);
    lat ← value_double loc "latitude" 0%Q;
    lon ← value_double loc "longitude" 0%Q;
    alt ← value_double loc "altitude" 0%Q;
    Normal (Some (lat, lon, alt));
  LoadExecutionPeriod := period_of_json;
  LoadBlocks := fun j =>
    a ← subscript j "schedulingBlocks";
    tasks_of (elements_of a);
  ComputePeriods := prescheduler;
  FailInformation := unit;
  Schedule_ComputeFitness := fun units => inject_Z (size units);
  Schedule := engine;
  hardware_concurrency := 4
|}.

Definition collaborators : Collaborators := make prescheduler engine.

Definition s0 : State := mkState "" ∅.

End Demo.

(** * Vocabulary of the statements *)

(** What every operation answers to a null required pointer. *)
Definition null_pointer_result : StarsResult :=
  mkResult STARS_ERROR_NULL_POINTER (Some "Null pointer argument").

(** [op] takes one required pointer and an out-parameter: a null in
    either place is answered by [null_pointer_result], whatever the
    other argument and the state are, and the out-parameter is returned
    as it was passed. *)
Definition null_checked2 {A V : Type}
    (op : option A -> outparam V -> M (StarsResult * outparam V)) : Prop :=
  (forall out s, (op None out s).1 = (null_pointer_result, out)) /\
  (forall a s, (op a NullOut s).1 = (null_pointer_result, NullOut)).

(** The same for two required pointers and an out-parameter. *)
Definition null_checked3 {A B V : Type}
    (op : option A -> option B -> outparam V -> M (StarsResult * outparam V))
    : Prop :=
  (forall b out s, (op None b out s).1 = (null_pointer_result, out)) /\
  (forall a out s, (op a None out s).1 = (null_pointer_result, out)) /\
  (forall a b s, (op a b NullOut s).1 = (null_pointer_result, NullOut)).

(** A successful creating operation: a fresh object became live and a
    handle to it was written. *)
Definition created {T : Type} (s : State) (r : StarsResult)
    (out' : outparam (handle T)) (s' : State) : Prop :=
  code r = STARS_OK /\ error_message r = None /\
  live s' = {[fresh (live s)]} ∪ live s /\
  exists x, out' = OutCell (Some (Ptr (fresh (live s)) x)).

(** A successful exporting operation: a text was written, the heap is
    as before. *)
Definition exported {V : Type} (s : State) (r : StarsResult)
    (out' : outparam V) (s' : State) : Prop :=
  code r = STARS_OK /\ error_message r = None /\ live s' = live s /\
  exists v, out' = OutCell v.

(** A failure carries a message and the slot holds the same text. *)
Definition mirrored (r : StarsResult) (s' : State) : Prop :=
  exists msg, error_message r = Some msg /\ g_last_error s' = msg.

(** A failure that leaves the out-parameter and the heap as they were
    and reports a non-empty message. *)
Definition failed_clean {V : Type} (out : outparam V) (s : State)
    (r : StarsResult) (out' : outparam V) (s' : State) : Prop :=
  code r <> STARS_OK /\ out' = out /\ live s' = live s /\
  mirrored r s' /\ error_message r <> Some "".

(** A failure that leaves the out-parameter as it was; the heap is as
    before, or holds in addition the object the failing operation had
    allocated for itself. *)
Definition failed_leaky {V : Type} (out : outparam V) (s : State)
    (r : StarsResult) (out' : outparam V) (s' : State) : Prop :=
  code r <> STARS_OK /\ out' = out /\
  (live s' = live s \/ live s' = {[fresh (live s)]} ∪ live s) /\
  mirrored r s'.

(** The address behind a handle variable of the pipeline. *)
Definition handle_addrs {T : Type} (h : handle T) : list addr :=
  match h with
  | Some p => [addr_of p]
  | None => []
  end.

(** The same address as a set. *)
Definition addr_set {T : Type} (h : handle T) : gset addr :=
  match h with
  | Some p => {[addr_of p]}
  | None => ∅
  end.

(** ** The handles a pipeline invocation hands out *)

Module NativeTrace.
Section WithCollaborators.
Context `{W : Collaborators}.

(** The handles the stages of one [stars_run_full_pipeline] invocation
    hand out: past the null check the stages are run as the pipeline
    runs them, each in the state its predecessor left, and the handle of
    every stage that returned [STARS_OK] is recorded, up to the first
    stage that fails. *)
Definition handles_created (input_json : option string)
    (params : StarsSchedulingParams)
    (out_result_json : outparam (option string)) (s : State) : list addr :=
  match input_json, out_result_json with
  | Some _, OutCell _ =>
      let '((r1, c1), s1) :=
        Native.stars_context_create input_json (OutCell None) s in
      if negb (is_ok r1) then [] else
      let '((r2, c2), s2) :=
        Native.stars_blocks_load_json input_json (OutCell None) s1 in
      if negb (is_ok r2) then handle_addrs (cell_value c1) else
      let '((r3, c3), s3) :=
        Native.stars_compute_possible_periods (cell_value c1) (cell_value c2)
          (OutCell None) s2 in
      if negb (is_ok r3)
      then handle_addrs (cell_value c1) ++ handle_addrs (cell_value c2) else
      let '((r4, c4), s4) :=
        Native.stars_run_scheduler (cell_value c1) (cell_value c2)
          (cell_value c3) params (OutCell None) s3 in
      handle_addrs (cell_value c1) ++ handle_addrs (cell_value c2)
      ++ handle_addrs (cell_value c3)
      ++ (if negb (is_ok r4) then [] else handle_addrs (cell_value c4))
  | _, _ => []
  end.

(** The same for [stars_run_pipeline_from_file], which runs the
    pipeline on the content of the file when it can be opened. *)
Definition handles_created_from_file (input_file_path : option string)
    (params : StarsSchedulingParams)
    (out_result_json : outparam (option string)) (s : State) : list addr :=
  match input_file_path, out_result_json with
  | Some path, OutCell _ =>
      match read_file path with
      | Some buffer => handles_created (Some buffer) params out_result_json s
      | None => []
      end
  | _, _ => []
  end.

End WithCollaborators.
End NativeTrace.

Module CoreNativeTrace.
Section WithCollaborators.
Context `{W : Collaborators}.

(** The handles in use from the scheduler stage on: the two it is
    given and, when it returns [STARS_OK], the schedule. *)
Definition handles_created_after (ctx : CoreNative.StarsContextHandle)
    (blocks_h : CoreNative.StarsBlocksHandle)
    (params : StarsSchedulingParams) (s : State) : list addr :=
  let '((r3, c3), s3) :=
    CoreNative.stars_run_scheduler ctx blocks_h None params (OutCell None) s in
  handle_addrs ctx ++ handle_addrs blocks_h
  ++ (if negb (is_ok r3) then [] else handle_addrs (cell_value c3)).

(** The handles the stages of one [stars_run_full_pipeline] invocation
    hand out, as in [NativeTrace.handles_created]. *)
Definition handles_created (input_json : option string)
    (params : StarsSchedulingParams)
    (out_result_json : outparam (option string)) (s : State) : list addr :=
  match input_json, out_result_json with
  | Some _, OutCell _ =>
      let s0 := (CoreNative.clear_error_internal s).2 in
      let '((r1, c1), s1) :=
        CoreNative.stars_context_create input_json (OutCell None) s0 in
      if negb (is_ok r1) then [] else
      let '((r2, c2), s2) :=
        CoreNative.stars_blocks_load_json input_json (OutCell None) s1 in
      if negb (is_ok r2) then handle_addrs (cell_value c1) else
      handles_created_after (cell_value c1) (cell_value c2) params s2
  | _, _ => []
  end.

Definition handles_created_from_file (input_file_path : option string)
    (params : StarsSchedulingParams)
    (out_result_json : outparam (option string)) (s : State) : list addr :=
  match input_file_path, out_result_json with
  | Some _, OutCell _ =>
      let s0 := (CoreNative.clear_error_internal s).2 in
      let '((r1, c1), s1) :=
        CoreNative.stars_context_create_from_file input_file_path
          (OutCell None) s0 in
      if negb (is_ok r1) then [] else
      let '((r2, c2), s2) :=
        CoreNative.stars_blocks_load_file input_file_path (OutCell None) s1 in
      if negb (is_ok r2) then handle_addrs (cell_value c1) else
      handles_created_after (cell_value c1) (cell_value c2) params s2
  | _, _ => []
  end.

End WithCollaborators.
End CoreNativeTrace.

(** The calls of [f] on the elements of a list, in order, up to the
    first that throws. *)
Fixpoint exn_map {A B : Type} (f : A -> exn B) (l : list A) : exn (list B) :=
  match l with
  | [] => Normal []
  | x :: l' => y ← f x; ys ← exn_map f l'; Normal (y :: ys)
  end.

(** What the native loader recognises: a member whose key contains
    [ObservationTask]. *)
Definition recognized (member : string * json) : bool :=
  has_substring "ObservationTask" member.1.

(** The values of the recognised members of all elements, in order. *)
Definition recognized_values (elements : list json) : list json :=
  map snd (List.filter recognized (concat (map items elements))).

(** What the text of a block collection must parse to: a bare array, or
    an object whose [schedulingBlocks] member is an array. *)
Definition holds_blocks_array (j : json) (elements : list json) : Prop :=
  j = JArr elements \/
  exists m, j = JObj m /\ obj_lookup "schedulingBlocks" m = Some (JArr elements).

(** The blocks among what the deserializer handed back, nulls
    dropped. *)
Definition kept_blocks `{W : Collaborators} (decoded : list (option Block)) : list Block :=
  omap id decoded.

(** A member of a JSON document. *)
Definition field (j : json) (k : string) : option json :=
  match j with
  | JObj m => obj_lookup k m
  | _ => None
  end.

(** The document reports a scheduled and an unscheduled count whose
    sum is [n]. *)
Definition counts_add_up_to (doc : json) (n : Z) : Prop :=
  exists scheduled unscheduled,
    field doc "scheduled_count" = Some (JInt scheduled) /\
    field doc "unscheduled_count" = Some (JInt unscheduled) /\
    scheduled + unscheduled = n.

(** The contract of the engine, in the words of the data model: a
    schedule is a sequence of units, each placing one block, "plus the
    complementary set of unscheduled blocks".  A null schedule has no
    units. *)
Definition engine_accounts_for_every_block `{W : Collaborators} : Prop :=
  forall config bs ins p sch unplanned fail,
    Schedule config bs ins p = Normal (sch, unplanned, fail) ->
    map GetTask (default [] sch) ++ unplanned ≡ₚ bs.

(** The number of blocks behind a collection handle of the native
    wrapper, and their (name, priority) pairs. *)
Definition native_count `{W : Collaborators}
    (h : Native.StarsBlocksHandle) : option Z :=
  match h with
  | Some p => Some (size (Native.blocks (deref p)))
  | None => None
  end.

Definition native_pairs `{W : Collaborators}
    (h : Native.StarsBlocksHandle) : option (list (string * option Q)) :=
  match h with
  | Some p =>
      Some (map (fun b => (GetName b, Task_GetPriority b))
              (Native.blocks (deref p)))
  | None => None
  end.

(** A failure of the native operation [m] carries a message and the
    slot holds the same text.  [stars_get_last_error], called next,
    returns that text, unless the text is empty: an empty slot is what
    [stars_get_last_error] takes for "no error", and it returns
    null. *)
Definition slot_mirrors_native {V : Type}
    (m : M (StarsResult * V)) : Prop :=
  forall s r v s',
    m s = ((r, v), s') ->
    code r <> STARS_OK ->
    exists msg,
      error_message r = Some msg /\
      g_last_error s' = msg /\
      (Native.stars_get_last_error s').1
      = (if String.eqb msg "" then None else Some msg).

(** A failure of the native operation [m] carries a message, and
    [stars_get_last_error] returns it afterwards. *)
Definition last_error_is_message_native {V : Type}
    (m : M (StarsResult * V)) : Prop :=
  forall s r v s',
    m s = ((r, v), s') ->
    code r <> STARS_OK ->
    is_Some (error_message r) /\
    (Native.stars_get_last_error s').1 = error_message r.

(** A failure of the stars-core-native operation [m] carries a
    message, and [stars_get_last_error] returns it afterwards. *)
Definition slot_mirrors_core `{W : Collaborators} {V : Type}
    (m : M (StarsResult * V)) : Prop :=
  forall s r v s',
    m s = ((r, v), s') ->
    code r <> STARS_OK ->
    is_Some (error_message r) /\
    (CoreNative.stars_get_last_error s').1 = error_message r.

(** The exceptions the native wrapper can catch come from libraries
    that are not part of the sources: nlohmann::json ([parse], [dump];
    the type errors of its accessors are spelled out in the embedding),
    [stars::time], the instrument and task factories, the prescheduler
    and the scheduling algorithms.  None of them throws an exception
    whose [what()] is the empty string. *)
Definition what_is_never_empty `{W : Collaborators} : Prop :=
  (forall text k w, json_parse text = Throw k w -> w <> "") /\
  (forall j k w, json_dump j = Throw k w -> w <> "") /\
  (forall t k w, TimeUTC_of_string t = Throw k w -> w <> "") /\
  (forall n lat lon alt k w,
     Instrument_at n lat lon alt = Throw k w -> w <> "") /\
  (forall name priority duration target k w,
     ObservationTask_Create name priority duration target = Throw k w ->
     w <> "") /\
  (forall ins bs p k w, ComputePeriods ins bs p = Throw k w -> w <> "") /\
  (forall config bs ins p k w,
     Schedule config bs ins p = Throw k w -> w <> "").

(** The message of a failure of [m] is not the empty string. *)
Definition failure_has_text {V : Type} (m : M (StarsResult * V)) : Prop :=
  forall s r v s' msg,
    m s = ((r, v), s') ->
    code r <> STARS_OK ->
    error_message r = Some msg ->
    msg <> "".

(** ** Vocabulary of the further properties *)

(** A successful call of the stars-core-native operation [m] carries no
    message and leaves the slot empty, whatever it held before:
    [stars_get_last_error] returns null afterwards. *)
Definition success_clears_slot {V : Type} (m : M (StarsResult * V)) : Prop :=
  forall s r v s',
    m s = ((r, v), s') ->
    code r = STARS_OK ->
    error_message r = None /\
    g_last_error s' = "" /\
    (CoreNative.stars_get_last_error s').1 = None.

(** A successful call of the native operation [m] carries no message
    and leaves the slot as it found it: [stars_get_last_error] returns
    afterwards what it would have returned before. *)
Definition success_keeps_slot {V : Type} (m : M (StarsResult * V)) : Prop :=
  forall s r v s',
    m s = ((r, v), s') ->
    code r = STARS_OK ->
    error_message r = None /\
    g_last_error s' = g_last_error s /\
    (Native.stars_get_last_error s').1 = (Native.stars_get_last_error s).1.

(** The operation writes through its out-pointer exactly when it
    returns [STARS_OK].  After a failure the caller's cell is as it
    was.  After a success the cell holds the value [v] the operation
    produced, and what the cell held before the call has no part in
    it: the same call on a cell with any other content returns the
    same result, leaves the same state and leaves [v] in the cell. *)
Definition writes_only_on_success {V : Type}
    (op : outparam V -> M (StarsResult * outparam V)) : Prop :=
  forall out s r out' s',
    op out s = ((r, out'), s') ->
    (code r <> STARS_OK -> out' = out) /\
    (code r = STARS_OK ->
     exists v, out' = OutCell v /\
       forall before, op (OutCell before) s = ((r, OutCell v), s')).

(** The call leaves the set of live objects as it found it, whatever
    it returns. *)
Definition heap_neutral {V : Type} (m : M (StarsResult * V)) : Prop :=
  forall s, live (m s).2 = live s.

(** The call allocates one object, behind the handle it writes, when it
    returns [STARS_OK], and nothing otherwise. *)
Definition allocates_on_success_only {T : Type}
    (m : M (StarsResult * outparam (handle T))) : Prop :=
  forall s r out' s',
    m s = ((r, out'), s') ->
    (code r = STARS_OK ->
     live s' = {[fresh (live s)]} ∪ live s /\
     exists x, out' = OutCell (Some (Ptr (fresh (live s)) x))) /\
    (code r <> STARS_OK -> live s' = live s).

(** Destroying the handle that a successful [create] wrote gives back
    the set of live objects from before the creation. *)
Definition released_by {T : Type}
    (create : M (StarsResult * outparam (handle T)))
    (destroy_ : handle T -> M unit) : Prop :=
  forall s r out' s',
    create s = ((r, out'), s') ->
    code r = STARS_OK ->
    live (destroy_ (cell_value out') s').2 = live s.

(** The first block of a collection that carries the identifier [id]. *)
Definition first_with_id `{W : Collaborators} (id : string)
    (bs : list Block) : option Block :=
  snd <$> list_find (fun b => GetId b = id) bs.

(** A string of exactly [w] decimal digits. *)
Definition digits_of_width (w : nat) (s : string) : bool :=
  Nat.eqb (String.length s) w
  && forallb (fun c => (48 <=? nat_of_ascii c)%nat && (nat_of_ascii c <=? 57)%nat)
       (list_ascii_of_string s).

(** The fixed-width layout [YYYY-MM-DDThh:mm:ssZ]. *)
Definition iso_layout (s : string) : Prop :=
  exists year month day hh mm ss,
    s = year ++ "-" ++ month ++ "-" ++ day ++ "T" ++ hh ++ ":" ++ mm ++ ":"
        ++ ss ++ "Z" /\
    digits_of_width 4 year = true /\
    digits_of_width 2 month = true /\ digits_of_width 2 day = true /\
    digits_of_width 2 hh = true /\ digits_of_width 2 mm = true /\
    digits_of_width 2 ss = true.

(** The instrument that the native [stars_context_create] builds from
    a parsed configuration (lines 181-191 of its source). *)
Definition native_instrument `{W : Collaborators} (j : json)
    : exn Instrument :=
  instr_json ← subscript j "instrument";
  loc1 ← value_json instr_json "location" (JObj []);
  lat ← value_double loc1 "latitude" 0%Q;
  loc2 ← value_json instr_json "location" (JObj []);
  lon ← value_double loc2 "longitude" 0%Q;
  loc3 ← value_json instr_json "location" (JObj []);
  alt ← value_double loc3 "altitude" 0%Q;
  Instrument_at 1 lat lon alt.

(** The instrument that the stars-core-native [stars_context_create]
    loads when the configuration has one (lines 164-169 of its
    source). *)
Definition core_instrument `{W : Collaborators} (j : json)
    : exn (option Instrument) :=
  if contains j "instrument" then
    ij ← subscript j "instrument";
    i ← Instrument_Load ij;
    Normal (Some i)
  else Normal None.

(** The call returns one of the listed codes, whatever the state. *)
Definition returns_only {V : Type} (codes : list StarsErrorCode)
    (m : M (StarsResult * V)) : Prop :=
  forall s, In (code (m s).1.1) codes.

(** The message of a result is null or a block in use: what a result
    is like when a wrapper returns it and nobody has freed it yet. *)
Definition owns_its_message (r : Memory.StarsResult) (h : gmap addr string)
    : Prop :=
  match Memory.error_message r with
  | Some a => is_Some (h !! a)
  | None => True
  end.

(** * Concrete inputs

    Values for [Demo.collaborators] on which the theorems below are
    instantiated. *)

(** A pipeline input whose blocks section is not an array: the context
    stage succeeds and the blocks stage fails. *)
Definition blocks_not_an_array : string :=
  Demo.json_text
    ("{'instrument':{},"
     ++ "'executionPeriod':{'begin':'2025-01-01T00:00:00Z','end':'2025-01-02T00:00:00Z'},"
     ++ "'schedulingBlocks':5}").

(** The demo collaborators around a prescheduler that always fails. *)
Definition no_ephemeris : Collaborators :=
  Demo.make (fun _ _ _ => Throw std_exception "no ephemeris") Demo.engine.

Definition two_tasks : list Demo.task :=
  [Demo.mkTask "M31" 2%Q (Duration_hms 1 0 0) (0%Q, 0%Q);
   Demo.mkTask "M42" 1%Q (Duration_hms 0 30 0) (0%Q, 0%Q)].

(** An array with one observation task among elements of other
    kinds. *)
Definition mixed_blocks : string :=
  Demo.json_text
    ("[{'Calibration':{'name':'flat'}}, 5, "
     ++ "{'ObservationTask':{'name':'M31','priority':2.0}}, "
     ++ "{'EngineeringTask':{'name':'focus'}}, null]").

(** One observation task, as a bare array. *)
Definition one_task : string :=
  Demo.json_text "[{'ObservationTask':{'name':'M31','priority':2.0}}]".

(** A state in which a context (at 1) and a collection (at 2) are
    live. *)
Definition s2 : State := mkState "" ({[1%positive]} ∪ {[2%positive]}).

Definition hour_context : ptr (Native.StarsContext (W := Demo.collaborators)) :=
  Ptr 1%positive (Native.mkContext (W := Demo.collaborators)
                    (0%Q, 0%Q, 0%Q) (mkPeriod 0 3600) "").

Definition two_blocks : ptr (Native.StarsBlocksCollection (W := Demo.collaborators)) :=
  Ptr 2%positive (Native.mkBlocks (W := Demo.collaborators) two_tasks "").

Definition hour_context' : ptr (CoreNative.StarsContext (W := Demo.collaborators)) :=
  Ptr 1%positive (CoreNative.mkContext (W := Demo.collaborators)
                    (Some (0%Q, 0%Q, 0%Q)) (mkPeriod 0 3600) "" (JObj [])).

Definition two_blocks' : ptr (CoreNative.StarsBlocksCollection (W := Demo.collaborators)) :=
  Ptr 2%positive (CoreNative.mkBlocks (W := Demo.collaborators) two_tasks).

(** What the demo engine makes of [two_blocks] within one hour: the
    first task is placed, the second does not fit. *)
Definition hour_schedule : ptr (Native.StarsSchedule (W := Demo.collaborators)) :=
  Ptr 3%positive
    (Native.mkSchedule (W := Demo.collaborators)
       (Some [(Demo.mkTask "M31" 2%Q (Duration_hms 1 0 0) (0%Q, 0%Q),
               mkPeriod 0 3600)])
       [Demo.mkTask "M42" 1%Q (Duration_hms 0 30 0) (0%Q, 0%Q)] tt 2 (1 # 2)).

Definition hour_schedule' : ptr (CoreNative.StarsSchedule (W := Demo.collaborators)) :=
  Ptr 3%positive
    (CoreNative.mkSchedule (W := Demo.collaborators)
       (Some [(Demo.mkTask "M31" 2%Q (Duration_hms 1 0 0) (0%Q, 0%Q),
               mkPeriod 0 3600)])
       two_tasks
       [Demo.mkTask "M42" 1%Q (Duration_hms 0 30 0) (0%Q, 0%Q)]
       (Some (0%Q, 0%Q, 0%Q)) 1%Q).

(** What stars-core-native exports for [two_blocks']. *)
Definition core_export : string :=
  Demo.print_json (JArr (map Demo.task_json two_tasks)).

(** The execution period of the scenario in the specification. *)
Definition new_year_day : Period_ Z := mkPeriod 1735689600 1735776000.

Definition new_year_context : ptr (Native.StarsContext (W := Demo.collaborators)) :=
  Ptr 1%positive (Native.mkContext (W := Demo.collaborators)
                    (0%Q, 0%Q, 0%Q) new_year_day "").

Definition new_year_context' : ptr (CoreNative.StarsContext (W := Demo.collaborators)) :=
  Ptr 1%positive (CoreNative.mkContext (W := Demo.collaborators)
                    (Some (0%Q, 0%Q, 0%Q)) new_year_day "" (JObj [])).

(** A state whose slot holds the message of an earlier failure. *)
Definition after_failure : State := mkState "Index out of bounds" ∅.

(** A text that is not JSON. *)
Definition not_json : string := "{".

(** Parameters naming an algorithm the header does not define. *)
Definition odd_params : StarsSchedulingParams := mkParams 7 10 (5 # 2) 3.

(** What [CoreNative.stars_compute_possible_periods] makes of
    [hour_context'] and [two_blocks'] with the demo prescheduler. *)
Definition hour_periods' : ptr (CoreNative.StarsPossiblePeriods (W := Demo.collaborators)) :=
  Ptr 3%positive
    (CoreNative.mkPeriods (W := Demo.collaborators)
       [("M31", [mkPeriod 0 3600]); ("M42", [mkPeriod 0 3600])]
       (<["M42" := "M42"]> (<["M31" := "M31"]> ∅))).

(** A configuration whose [schedulingBlocks] member is null. *)
Definition null_blocks : string :=
  Demo.json_text "{'schedulingBlocks':null}".

(** An array whose second element carries an [ObservationTask] with a
    name that is not a string. *)
Definition ill_typed_blocks : string :=
  Demo.json_text
    "[{'ObservationTask':{'name':'M31'}},{'ObservationTask':{'name':5}}]".

(** A configuration with an instrument and no execution period, and
    one whose execution period has no [begin]. *)
Definition no_period : string := Demo.json_text "{'instrument':{}}".

Definition no_begin : string :=
  Demo.json_text
    "{'instrument':{},'executionPeriod':{'end':'2025-01-02T00:00:00Z'}}".

Definition one_day_config : string :=
  Demo.json_text
    ("{'instrument':{},'executionPeriod':"
     ++ "{'begin':'2025-01-01T00:00:00Z','end':'2025-01-02T00:00:00Z'}}").

(** A heap with one block, and a failed result that owns it. *)
Definition one_message : gmap addr string :=
  {[ 1%positive := "Index out of bounds" ]}.

Definition failed_result : Memory.StarsResult :=
  Memory.mkResult STARS_ERROR_INVALID_HANDLE (Some 1%positive).

(** The context and the collection that the first two stages of a
    pipeline call make of [Demo.demo_file], for the collaborators
    [no_ephemeris]. *)
Definition demo_context : ptr (Native.StarsContext (W := no_ephemeris)) :=
  Ptr 1%positive
    (Native.mkContext (W := no_ephemeris)
       ((115 # 4)%Q, (-35 # 2)%Q, 2396%Q) new_year_day Demo.demo_file).

Definition demo_blocks : ptr (Native.StarsBlocksCollection (W := no_ephemeris)) :=
  Ptr 2%positive
    (Native.mkBlocks (W := no_ephemeris)
       [Demo.mkTask "M31" 2%Q (Duration_hms 1 0 0) (0%Q, 0%Q)]
       Demo.demo_file).

(** * Verification *)

(** ** Proof support *)

#[global] Set Warnings "-clear-no-such-hyp".

(** Unfolds the computation types down to functions on the state and
    splits on the outcome of every call. *)
Ltac step :=
  cbv [mbind mret M_bind M_ret MX_bind MX_ret exn_bind exn_ret
       call lift try_catch unique_scope new_ delete_ destroy
       Native.fail_with Native.succeed Native.make_error Native.make_ok
       Native.set_error Native.clear_error
       CoreNative.fail_with CoreNative.succeed CoreNative.make_result
       CoreNative.make_ok CoreNative.set_error
       CoreNative.clear_error_internal
       Native.stars_context_destroy Native.stars_blocks_destroy
       Native.stars_possible_periods_destroy Native.stars_schedule_destroy
       CoreNative.stars_context_destroy CoreNative.stars_blocks_destroy
       CoreNative.stars_possible_periods_destroy
       CoreNative.stars_schedule_destroy cell_value] in *;
  simpl in *; simplify_eq/=.

Ltac run := repeat (progress step || case_match).

Lemma triple_eta {A B C : Type} (x : A * B * C) : x = ((x.1.1, x.1.2), x.2).
Proof. destruct x as [[? ?] ?]; reflexivity. Qed.

Lemma null_checked2_intro {A V : Type}
    (op : option A -> outparam V -> M (StarsResult * outparam V)) :
  (forall a out s, a = None \/ out = NullOut ->
     (op a out s).1 = (null_pointer_result, out)) ->
  null_checked2 op.
Proof. intros H; split; intros; apply H; auto. Qed.

Lemma null_checked3_intro {A B V : Type}
    (op : option A -> option B -> outparam V -> M (StarsResult * outparam V)) :
  (forall a b out s, a = None \/ b = None \/ out = NullOut ->
     (op a b out s).1 = (null_pointer_result, out)) ->
  null_checked3 op.
Proof. intros H; repeat split; intros; apply H; auto. Qed.

Ltac null_check :=
  first [apply null_checked2_intro | apply null_checked3_intro];
  intros;
  repeat match goal with
         | H : _ \/ _ |- _ => destruct H
         end;
  subst; run; reflexivity.

(** ** C3: null pointers are rejected first *)

(** C3.  Every fallible operation of either wrapper answers a null
    required pointer (input text or path, handle, or out-parameter)
    with [STARS_ERROR_NULL_POINTER] and leaves the out-parameter as it
    was, for every value of the remaining arguments: malformed text, an
    index out of range, a context without instrument and unknown
    algorithms included, so no other validation comes first.  The
    [possible_periods] argument of [stars_run_scheduler] is optional and
    is not among the required pointers.  In particular
    [stars_run_scheduler] with a null context returns
    [STARS_ERROR_NULL_POINTER] and does not write the schedule handle. *)
Theorem C3_null_pointer_checked_first `{W : Collaborators} :
  (null_checked2 Native.stars_context_create /\
   null_checked2 Native.stars_context_create_from_file /\
   null_checked2 Native.stars_context_get_execution_period /\
   null_checked2 Native.stars_blocks_load_json /\
   null_checked2 Native.stars_blocks_load_file /\
   null_checked2 Native.stars_blocks_to_json /\
   null_checked2 Native.stars_blocks_count /\
   (forall index,
      null_checked2 (fun h out => Native.stars_blocks_get_at h index out)) /\
   null_checked3 Native.stars_compute_possible_periods /\
   null_checked2 Native.stars_possible_periods_to_json /\
   (forall pp params,
      null_checked3
        (fun c b out => Native.stars_run_scheduler c b pp params out)) /\
   null_checked2 Native.stars_schedule_to_json /\
   null_checked2 Native.stars_schedule_get_stats /\
   (forall params,
      null_checked2
        (fun i out => Native.stars_run_full_pipeline i params out)) /\
   (forall params,
      null_checked2
        (fun i out => Native.stars_run_pipeline_from_file i params out))) /\
  (null_checked2 CoreNative.stars_context_create /\
   null_checked2 CoreNative.stars_context_create_from_file /\
   null_checked2 CoreNative.stars_context_get_execution_period /\
   null_checked2 CoreNative.stars_blocks_load_json /\
   null_checked2 CoreNative.stars_blocks_load_file /\
   null_checked2 CoreNative.stars_blocks_to_json /\
   null_checked2 CoreNative.stars_blocks_count /\
   (forall index,
      null_checked2 (fun h out => CoreNative.stars_blocks_get_at h index out)) /\
   null_checked3 CoreNative.stars_compute_possible_periods /\
   null_checked2 CoreNative.stars_possible_periods_to_json /\
   (forall pp params,
      null_checked3
        (fun c b out => CoreNative.stars_run_scheduler c b pp params out)) /\
   null_checked2 CoreNative.stars_schedule_to_json /\
   null_checked2 CoreNative.stars_schedule_get_stats /\
   (forall params,
      null_checked2
        (fun i out => CoreNative.stars_run_full_pipeline i params out)) /\
   (forall params,
      null_checked2
        (fun i out => CoreNative.stars_run_pipeline_from_file i params out))).
Proof.
  split.
  - unfold Native.stars_context_create, Native.stars_context_create_from_file,
      Native.stars_context_get_execution_period, Native.stars_blocks_load_json,
      Native.stars_blocks_load_file, Native.stars_blocks_to_json,
      Native.stars_blocks_count, Native.stars_blocks_get_at,
      Native.stars_compute_possible_periods,
      Native.stars_possible_periods_to_json, Native.stars_run_scheduler,
      Native.stars_schedule_to_json, Native.stars_schedule_get_stats,
      Native.stars_run_full_pipeline, Native.stars_run_pipeline_from_file.
    repeat match goal with |- _ /\ _ => split end; intros; null_check.
  - unfold CoreNative.stars_context_create,
      CoreNative.stars_context_create_from_file,
      CoreNative.stars_context_get_execution_period,
      CoreNative.stars_blocks_load_json, CoreNative.stars_blocks_load_file,
      CoreNative.stars_blocks_to_json, CoreNative.stars_blocks_count,
      CoreNative.stars_blocks_get_at,
      CoreNative.stars_compute_possible_periods,
      CoreNative.stars_possible_periods_to_json,
      CoreNative.stars_run_scheduler, CoreNative.stars_schedule_to_json,
      CoreNative.stars_schedule_get_stats,
      CoreNative.stars_run_full_pipeline,
      CoreNative.stars_run_pipeline_from_file.
    repeat match goal with |- _ /\ _ => split end; intros; null_check.
Qed.

(** ** What one call does to the heap, the out-parameter and the slot *)

Lemma fresh_union_difference (L : gset addr) :
  ({[fresh L]} ∪ L) ∖ {[fresh L]} = L.
Proof. pose proof (is_fresh L). set_solver. Qed.

Ltac finish :=
  first
    [ left; unfold created, exported;
      repeat match goal with |- _ /\ _ => split end;
      try reflexivity; try (eexists; reflexivity);
      rewrite ?fresh_union_difference; reflexivity
    | right; unfold failed_clean, failed_leaky, mirrored;
      repeat match goal with |- _ /\ _ => split end;
      try discriminate; try reflexivity;
      try (eexists; split; reflexivity);
      rewrite ?fresh_union_difference;
      first [ reflexivity | left; reflexivity | right; reflexivity ] ].

Section Specs.
Context `{W : Collaborators}.

(** *** stars-core-native *)

Lemma CoreNative_context_create_spec cfg out s r out' s' :
  CoreNative.stars_context_create cfg out s = ((r, out'), s') ->
  created s r out' s' \/ failed_clean out s r out' s'.
Proof. unfold CoreNative.stars_context_create. intros; run; finish. Qed.

Lemma CoreNative_context_create_from_file_spec path out s r out' s' :
  CoreNative.stars_context_create_from_file path out s = ((r, out'), s') ->
  created s r out' s' \/ failed_clean out s r out' s'.
Proof. unfold CoreNative.stars_context_create_from_file. intros; run; finish. Qed.

Lemma CoreNative_blocks_load_json_spec text out s r out' s' :
  CoreNative.stars_blocks_load_json text out s = ((r, out'), s') ->
  created s r out' s' \/ failed_clean out s r out' s'.
Proof. unfold CoreNative.stars_blocks_load_json. intros; run; finish. Qed.

Lemma CoreNative_blocks_load_file_spec path out s r out' s' :
  CoreNative.stars_blocks_load_file path out s = ((r, out'), s') ->
  created s r out' s' \/ failed_clean out s r out' s'.
Proof. unfold CoreNative.stars_blocks_load_file. intros; run; finish. Qed.

Lemma CoreNative_compute_possible_periods_spec ctx b out s r out' s' :
  CoreNative.stars_compute_possible_periods ctx b out s = ((r, out'), s') ->
  created s r out' s' \/ failed_clean out s r out' s'.
Proof. unfold CoreNative.stars_compute_possible_periods. intros; run; finish. Qed.

Lemma CoreNative_run_scheduler_spec ctx b pp params out s r out' s' :
  CoreNative.stars_run_scheduler ctx b pp params out s = ((r, out'), s') ->
  created s r out' s' \/ failed_clean out s r out' s'.
Proof. unfold CoreNative.stars_run_scheduler. intros; run; finish. Qed.

Lemma CoreNative_context_get_execution_period_spec h out s r out' s' :
  CoreNative.stars_context_get_execution_period h out s = ((r, out'), s') ->
  exported s r out' s' \/ failed_clean out s r out' s'.
Proof.
  unfold CoreNative.stars_context_get_execution_period. intros; run; finish.
Qed.

Lemma CoreNative_blocks_to_json_spec h out s r out' s' :
  CoreNative.stars_blocks_to_json h out s = ((r, out'), s') ->
  exported s r out' s' \/ failed_clean out s r out' s'.
Proof. unfold CoreNative.stars_blocks_to_json. intros; run; finish. Qed.

Lemma CoreNative_blocks_count_spec h out s r out' s' :
  CoreNative.stars_blocks_count h out s = ((r, out'), s') ->
  exported s r out' s' \/ failed_clean out s r out' s'.
Proof. unfold CoreNative.stars_blocks_count. intros; run; finish. Qed.

Lemma CoreNative_blocks_get_at_spec h index out s r out' s' :
  CoreNative.stars_blocks_get_at h index out s = ((r, out'), s') ->
  exported s r out' s' \/ failed_clean out s r out' s'.
Proof. unfold CoreNative.stars_blocks_get_at. intros; run; finish. Qed.

Lemma CoreNative_possible_periods_to_json_spec h out s r out' s' :
  CoreNative.stars_possible_periods_to_json h out s = ((r, out'), s') ->
  exported s r out' s' \/ failed_clean out s r out' s'.
Proof. unfold CoreNative.stars_possible_periods_to_json. intros; run; finish. Qed.

Lemma CoreNative_schedule_to_json_spec h out s r out' s' :
  CoreNative.stars_schedule_to_json h out s = ((r, out'), s') ->
  exported s r out' s' \/ failed_clean out s r out' s'.
Proof. unfold CoreNative.stars_schedule_to_json. intros; run; finish. Qed.

Lemma CoreNative_schedule_get_stats_spec h out s r out' s' :
  CoreNative.stars_schedule_get_stats h out s = ((r, out'), s') ->
  exported s r out' s' \/ failed_clean out s r out' s'.
Proof. unfold CoreNative.stars_schedule_get_stats. intros; run; finish. Qed.

(** *** native *)

Lemma Native_context_create_spec cfg out s r out' s' :
  Native.stars_context_create cfg out s = ((r, out'), s') ->
  created s r out' s' \/ failed_leaky out s r out' s'.
Proof. unfold Native.stars_context_create. intros; run; finish. Qed.

Lemma Native_context_create_from_file_spec path out s r out' s' :
  Native.stars_context_create_from_file path out s = ((r, out'), s') ->
  created s r out' s' \/ failed_leaky out s r out' s'.
Proof. unfold Native.stars_context_create_from_file. intros; run; finish. Qed.

Lemma Native_blocks_load_json_spec text out s r out' s' :
  Native.stars_blocks_load_json text out s = ((r, out'), s') ->
  created s r out' s' \/ failed_leaky out s r out' s'.
Proof. unfold Native.stars_blocks_load_json. intros; run; finish. Qed.

Lemma Native_blocks_load_file_spec path out s r out' s' :
  Native.stars_blocks_load_file path out s = ((r, out'), s') ->
  created s r out' s' \/ failed_leaky out s r out' s'.
Proof. unfold Native.stars_blocks_load_file. intros; run; finish. Qed.

Lemma Native_compute_possible_periods_spec ctx b out s r out' s' :
  Native.stars_compute_possible_periods ctx b out s = ((r, out'), s') ->
  created s r out' s' \/ failed_leaky out s r out' s'.
Proof. unfold Native.stars_compute_possible_periods. intros; run; finish. Qed.

Lemma Native_run_scheduler_spec ctx b pp params out s r out' s' :
  Native.stars_run_scheduler ctx b pp params out s = ((r, out'), s') ->
  created s r out' s' \/ failed_leaky out s r out' s'.
Proof. unfold Native.stars_run_scheduler. intros; run; finish. Qed.

Lemma Native_context_get_execution_period_spec h out s r out' s' :
  Native.stars_context_get_execution_period h out s = ((r, out'), s') ->
  exported s r out' s' \/ failed_leaky out s r out' s'.
Proof. unfold Native.stars_context_get_execution_period. intros; run; finish. Qed.

Lemma Native_blocks_to_json_spec h out s r out' s' :
  Native.stars_blocks_to_json h out s = ((r, out'), s') ->
  exported s r out' s' \/ failed_leaky out s r out' s'.
Proof. unfold Native.stars_blocks_to_json. intros; run; finish. Qed.

Lemma Native_blocks_count_spec h out s r out' s' :
  Native.stars_blocks_count h out s = ((r, out'), s') ->
  exported s r out' s' \/ failed_leaky out s r out' s'.
Proof. unfold Native.stars_blocks_count. intros; run; finish. Qed.

Lemma Native_possible_periods_to_json_spec h out s r out' s' :
  Native.stars_possible_periods_to_json h out s = ((r, out'), s') ->
  exported s r out' s' \/ failed_leaky out s r out' s'.
Proof. unfold Native.stars_possible_periods_to_json. intros; run; finish. Qed.

Lemma Native_schedule_to_json_spec h out s r out' s' :
  Native.stars_schedule_to_json h out s = ((r, out'), s') ->
  exported s r out' s' \/ failed_leaky out s r out' s'.
Proof. unfold Native.stars_schedule_to_json. intros; run; finish. Qed.

Lemma Native_schedule_get_stats_spec h out s r out' s' :
  Native.stars_schedule_get_stats h out s = ((r, out'), s') ->
  exported s r out' s' \/ failed_leaky out s r out' s'.
Proof. unfold Native.stars_schedule_get_stats. intros; run; finish. Qed.

Lemma Native_blocks_get_at_spec h index out s r out' s' :
  Native.stars_blocks_get_at h index out s = ((r, out'), s') ->
  exported s r out' s' \/ failed_leaky out s r out' s'.
Proof. unfold Native.stars_blocks_get_at. intros; run; finish. Qed.

End Specs.

(** ** C1: a failed pipeline call leaves none of its handles alive *)

Section Pipelines.
Context `{W : Collaborators}.

Lemma is_ok_true r : is_ok r = true <-> code r = STARS_OK.
Proof. unfold is_ok. apply bool_decide_eq_true. Qed.

Lemma is_ok_false r : is_ok r = false <-> code r <> STARS_OK.
Proof. unfold is_ok. apply bool_decide_eq_false. Qed.

Lemma CoreNative_schedule_and_export_spec ctx b params out s r out' s' :
  CoreNative.schedule_and_export ctx b params out s = ((r, out'), s') ->
  live s' = live s ∖ addr_set ctx ∖ addr_set b /\
  Forall (fun a => a ∉ live s')
    (CoreNativeTrace.handles_created_after ctx b params s) /\
  (code r <> STARS_OK ->
   out' = out /\ mirrored r s' /\ error_message r <> Some "").
Proof.
  unfold CoreNative.schedule_and_export,
    CoreNativeTrace.handles_created_after.
  cbv [mbind mret M_bind M_ret].
  destruct (CoreNative.stars_run_scheduler _ _ _ _ _ _)
    as [[r3 c3] s3] eqn:E3.
  apply CoreNative_run_scheduler_spec in E3.
  destruct E3 as [(Hc & _ & HL & x & ->) | (Hc & -> & HL & Hm & Hne)].
  - apply is_ok_true in Hc as Hok. rewrite Hok. simpl.
    destruct (CoreNative.stars_schedule_to_json _ _ _)
      as [[r4 c4] s4] eqn:E4.
    apply CoreNative_schedule_to_json_spec in E4.
    intros H.
    assert (live s' = live s ∖ addr_set ctx ∖ addr_set b) as HL'.
    { pose proof (is_fresh (live s)).
      destruct E4 as [(_ & _ & HL4 & _) | (_ & _ & HL4 & _)];
        destruct ctx, b; run; rewrite HL4, HL; set_solver. }
    split; [exact HL' |]. split.
    + rewrite HL'.
      repeat rewrite Forall_app. repeat split;
        destruct ctx, b; simpl; repeat constructor; set_solver.
    + intros Hr.
      destruct E4 as [(Hc4 & _) | (_ & -> & _ & Hm & Hne)];
        destruct ctx, b; run; try congruence; done.
  - apply is_ok_false in Hc as Hok. rewrite Hok. simpl.
    intros H.
    assert (live s' = live s ∖ addr_set ctx ∖ addr_set b) as HL'.
    { destruct ctx, b; run; rewrite HL; set_solver. }
    split; [exact HL' |]. split.
    + rewrite HL'.
      repeat rewrite Forall_app. repeat split;
        destruct ctx, b; simpl; repeat constructor; set_solver.
    + intros _. destruct ctx, b; run; done.
Qed.

(** Both pipeline functions of stars-core-native have the same shape:
    two creating stages, then [schedule_and_export]. *)
Lemma CoreNative_two_stages_spec
    (stage1 : M (StarsResult * outparam CoreNative.StarsContextHandle))
    (stage2 : M (StarsResult * outparam CoreNative.StarsBlocksHandle))
    params out s r out' s' :
  (forall s r out' s', stage1 s = ((r, out'), s') ->
     created s r out' s' \/ failed_clean (OutCell None) s r out' s') ->
  (forall s r out' s', stage2 s = ((r, out'), s') ->
     created s r out' s' \/ failed_clean (OutCell None) s r out' s') ->
  (let '((result, ctx_cell), s1) := stage1 s in
   if negb (is_ok result) then (result, out, s1) else
   let '((result, blocks_cell), s2) := stage2 s1 in
   if negb (is_ok result) then
     (result, out, (CoreNative.stars_context_destroy (cell_value ctx_cell) s2).2)
   else CoreNative.schedule_and_export (cell_value ctx_cell)
          (cell_value blocks_cell) params out s2) = ((r, out'), s') ->
  live s' = live s /\
  Forall (fun a => a ∉ live s')
    (let '((r1, c1), s1) := stage1 s in
     if negb (is_ok r1) then [] else
     let '((r2, c2), s2) := stage2 s1 in
     if negb (is_ok r2) then handle_addrs (cell_value c1) else
     CoreNativeTrace.handles_created_after (cell_value c1) (cell_value c2)
       params s2) /\
  (code r <> STARS_OK ->
   out' = out /\ mirrored r s' /\ error_message r <> Some "").
Proof.
  intros Hs1 Hs2.
  destruct (stage1 s) as [[r1 c1] s1] eqn:E1. apply Hs1 in E1.
  destruct E1 as [(Hc & _ & HL & x & ->) | (Hc & -> & HL & Hm & Hne)].
  - apply is_ok_true in Hc as Hok. rewrite Hok. simpl.
    destruct (stage2 s1) as [[r2 c2] s2] eqn:E2. apply Hs2 in E2.
    pose proof (is_fresh (live s)) as Hf.
    destruct E2 as [(Hc2 & _ & HL2 & x2 & ->) | (Hc2 & -> & HL2 & Hm & Hne)].
    + apply is_ok_true in Hc2 as Hok2. rewrite Hok2. simpl.
      intros H. apply CoreNative_schedule_and_export_spec in H.
      destruct H as (HL' & HF & Hr). simpl in HL'.
      pose proof (is_fresh (live s1)) as Hf1.
      repeat split; [| exact HF | apply Hr; assumption ..].
      rewrite HL', HL2, HL. rewrite HL in Hf1. set_solver.
    + apply is_ok_false in Hc2 as Hok2. rewrite Hok2. simpl.
      intros H. run.
      assert (live s2 ∖ {[fresh (live s)]} = live s) as HL'
        by (rewrite HL2, HL; set_solver).
      repeat split; try assumption.
      repeat constructor. set_solver.
  - apply is_ok_false in Hc as Hok. rewrite Hok. simpl.
    intros H. simplify_eq. repeat split; try assumption. constructor.
Qed.

Lemma CoreNative_full_pipeline_spec input params out s r out' s' :
  CoreNative.stars_run_full_pipeline input params out s = ((r, out'), s') ->
  live s' = live s /\
  Forall (fun a => a ∉ live s')
    (CoreNativeTrace.handles_created input params out s) /\
  (code r <> STARS_OK ->
   out' = out /\ mirrored r s' /\ error_message r <> Some "").
Proof.
  unfold CoreNative.stars_run_full_pipeline, CoreNativeTrace.handles_created.
  destruct input as [txt |]; [destruct out as [| v] |];
    [ intros; run; repeat split; try constructor; try done;
      eexists; split; reflexivity
    |
    | intros; run; repeat split; try constructor; try done;
      eexists; split; reflexivity ].
  cbv [mbind mret M_bind M_ret CoreNative.clear_error_internal]. simpl.
  intros H.
  apply (CoreNative_two_stages_spec
           (CoreNative.stars_context_create (Some txt) (OutCell None))
           (CoreNative.stars_blocks_load_json (Some txt) (OutCell None))
           params (OutCell v) (mkState "" (live s)) r out' s');
    [ intros; eapply CoreNative_context_create_spec; eassumption
    | intros; eapply CoreNative_blocks_load_json_spec; eassumption
    | ].
  rewrite <- H.
  destruct (CoreNative.stars_context_create _ _ _) as [[? ?] ?]; simpl.
  destruct (negb _); [reflexivity |].
  destruct (CoreNative.stars_blocks_load_json _ _ _) as [[? ?] ?]; simpl.
  destruct (negb _); [| reflexivity].
  destruct (CoreNative.stars_context_destroy _ _); reflexivity.
Qed.

Lemma CoreNative_pipeline_from_file_spec path params out s r out' s' :
  CoreNative.stars_run_pipeline_from_file path params out s
  = ((r, out'), s') ->
  live s' = live s /\
  Forall (fun a => a ∉ live s')
    (CoreNativeTrace.handles_created_from_file path params out s) /\
  (code r <> STARS_OK ->
   out' = out /\ mirrored r s' /\ error_message r <> Some "").
Proof.
  unfold CoreNative.stars_run_pipeline_from_file,
    CoreNativeTrace.handles_created_from_file.
  destruct path as [p |]; [destruct out as [| v] |];
    [ intros; run; repeat split; try constructor; try done;
      eexists; split; reflexivity
    |
    | intros; run; repeat split; try constructor; try done;
      eexists; split; reflexivity ].
  cbv [mbind mret M_bind M_ret CoreNative.clear_error_internal]. simpl.
  intros H.
  apply (CoreNative_two_stages_spec
           (CoreNative.stars_context_create_from_file (Some p) (OutCell None))
           (CoreNative.stars_blocks_load_file (Some p) (OutCell None))
           params (OutCell v) (mkState "" (live s)) r out' s');
    [ intros; eapply CoreNative_context_create_from_file_spec; eassumption
    | intros; eapply CoreNative_blocks_load_file_spec; eassumption
    | ].
  rewrite <- H.
  destruct (CoreNative.stars_context_create_from_file _ _ _)
    as [[? ?] ?]; simpl.
  destruct (negb _); [reflexivity |].
  destruct (CoreNative.stars_blocks_load_file _ _ _) as [[? ?] ?]; simpl.
  destruct (negb _); [| reflexivity].
  destruct (CoreNative.stars_context_destroy _ _); reflexivity.
Qed.

Lemma Native_full_pipeline_spec input params out s r out' s' :
  Native.stars_run_full_pipeline input params out s = ((r, out'), s') ->
  Forall (fun a => a ∉ live s')
    (NativeTrace.handles_created input params out s) /\
  (code r <> STARS_OK -> out' = out /\ mirrored r s').
Proof.
  unfold Native.stars_run_full_pipeline, NativeTrace.handles_created.
  destruct input as [txt |]; [destruct out as [| v] |];
    [ intros; run; repeat split; try constructor; try done;
      eexists; split; reflexivity
    |
    | intros; run; repeat split; try constructor; try done;
      eexists; split; reflexivity ].
  cbv [mbind mret M_bind M_ret].
  destruct (Native.stars_context_create _ _ _) as [[r1 c1] s1] eqn:E1.
  apply Native_context_create_spec in E1.
  destruct E1 as [(Hc & _ & HL & x & ->) | (Hc & -> & HL & Hm)];
    [ apply is_ok_true in Hc as Hok | apply is_ok_false in Hc as Hok ];
    rewrite Hok; cbn [negb];
    [| intros; simplify_eq; split; [constructor | done] ].
  destruct (Native.stars_blocks_load_json _ _ _) as [[r2 c2] s2] eqn:E2.
  apply Native_blocks_load_json_spec in E2.
  destruct E2 as [(Hc2 & _ & HL2 & x2 & ->) | (Hc2 & -> & HL2 & Hm)];
    [ apply is_ok_true in Hc2 as Hok2 | apply is_ok_false in Hc2 as Hok2 ];
    rewrite Hok2; cbn [negb];
    [| intros; run; split; [repeat constructor; set_solver | done] ].
  destruct (Native.stars_compute_possible_periods _ _ _ _)
    as [[r3 c3] s3] eqn:E3.
  apply Native_compute_possible_periods_spec in E3.
  destruct E3 as [(Hc3 & _ & HL3 & x3 & ->) | (Hc3 & -> & HL3 & Hm)];
    [ apply is_ok_true in Hc3 as Hok3 | apply is_ok_false in Hc3 as Hok3 ];
    rewrite Hok3; cbn [negb];
    [| intros; run; split; [repeat constructor; set_solver | done] ].
  destruct (Native.stars_run_scheduler _ _ _ _ _ _) as [[r4 c4] s4] eqn:E4.
  apply Native_run_scheduler_spec in E4.
  destruct E4 as [(Hc4 & _ & HL4 & x4 & ->) | (Hc4 & -> & HL4 & Hm)];
    [ apply is_ok_true in Hc4 as Hok4 | apply is_ok_false in Hc4 as Hok4 ];
    rewrite Hok4; cbn [negb];
    [| intros; run; split; [repeat constructor; set_solver | done] ].
  destruct (Native.stars_schedule_to_json _ _ _) as [[r5 c5] s5] eqn:E5.
  apply Native_schedule_to_json_spec in E5.
  intros H; run. split; [repeat constructor; set_solver |].
  intros Hr. destruct E5 as [(Hc5 & _) | (_ & -> & _ & Hm)]; done.
Qed.

Lemma Native_pipeline_from_file_spec path params out s r out' s' :
  Native.stars_run_pipeline_from_file path params out s = ((r, out'), s') ->
  Forall (fun a => a ∉ live s')
    (NativeTrace.handles_created_from_file path params out s) /\
  (code r <> STARS_OK -> out' = out /\ mirrored r s').
Proof.
  unfold Native.stars_run_pipeline_from_file,
    NativeTrace.handles_created_from_file.
  destruct path as [p |]; [destruct out as [| v] |];
    [ intros; run; repeat split; try constructor; try done;
      eexists; split; reflexivity
    |
    | intros; run; repeat split; try constructor; try done;
      eexists; split; reflexivity ].
  cbv [try_catch lift].
  destruct (read_file p) as [buffer |].
  - destruct (Native.stars_run_full_pipeline _ _ _ _) as [[r0 o0] s0] eqn:E.
    intros; simplify_eq. eapply Native_full_pipeline_spec; eassumption.
  - intros; run. split; [constructor |]. intros _. split; [done |].
    eexists; split; reflexivity.
Qed.

(** The native wrapper allocates the context before it parses the
    text and has no [delete] in its handler: when parsing throws, the
    object stays live although no handle to it was ever written. *)
Lemma Native_context_create_strands_its_object cfg v s k what :
  json_parse cfg = Throw k what ->
  Native.stars_context_create (Some cfg) (OutCell v) s
  = ((mkResult STARS_ERROR_INVALID_JSON (Some what), OutCell v),
     mkState what ({[fresh (live s)]} ∪ live s)).
Proof. intros H. unfold Native.stars_context_create. run. reflexivity. Qed.

End Pipelines.

(** C1.  When [stars_run_full_pipeline] or [stars_run_pipeline_from_file]
    returns a code other than [STARS_OK], every handle that a stage of
    this invocation handed out (context, blocks, possible periods,
    schedule: the stages before the failing one, and all four when the
    export fails) has been destroyed by the time the call returns: its
    address is not live in the final state.  In the stars-core-native
    wrapper the set of live objects is moreover exactly what it was
    before the call. *)
Theorem C1_failed_pipeline_destroys_its_handles `{W : Collaborators} :
  (forall input params out s r out' s',
     Native.stars_run_full_pipeline input params out s = ((r, out'), s') ->
     code r <> STARS_OK ->
     Forall (fun a => a ∉ live s')
       (NativeTrace.handles_created input params out s)) /\
  (forall path params out s r out' s',
     Native.stars_run_pipeline_from_file path params out s
     = ((r, out'), s') ->
     code r <> STARS_OK ->
     Forall (fun a => a ∉ live s')
       (NativeTrace.handles_created_from_file path params out s)) /\
  (forall input params out s r out' s',
     CoreNative.stars_run_full_pipeline input params out s
     = ((r, out'), s') ->
     code r <> STARS_OK ->
     Forall (fun a => a ∉ live s')
       (CoreNativeTrace.handles_created input params out s) /\
     live s' = live s) /\
  (forall path params out s r out' s',
     CoreNative.stars_run_pipeline_from_file path params out s
     = ((r, out'), s') ->
     code r <> STARS_OK ->
     Forall (fun a => a ∉ live s')
       (CoreNativeTrace.handles_created_from_file path params out s) /\
     live s' = live s).
Proof.
  repeat match goal with |- _ /\ _ => split end; intros * H Hr.
  - apply Native_full_pipeline_spec in H. apply H.
  - apply Native_pipeline_from_file_spec in H. apply H.
  - apply CoreNative_full_pipeline_spec in H. split; apply H.
  - apply CoreNative_pipeline_from_file_spec in H. split; apply H.
Qed.

Lemma C1_witness :
  let W := Demo.collaborators in
  let params := Native.stars_scheduling_params_default in
  let run := Native.stars_run_full_pipeline (Some blocks_not_an_array)
               params (OutCell None) Demo.s0 in
  let run' := CoreNative.stars_run_pipeline_from_file (Some "missing.json")
                params (OutCell None) Demo.s0 in
  (code run.1.1 = STARS_ERROR_INVALID_JSON /\
   NativeTrace.handles_created (Some blocks_not_an_array) params
     (OutCell None) Demo.s0 = [1%positive] /\
   Forall (fun a => a ∉ live run.2)
     (NativeTrace.handles_created (Some blocks_not_an_array) params
        (OutCell None) Demo.s0)) /\
  (code run'.1.1 = STARS_ERROR_IO /\ live run'.2 = live Demo.s0).
Proof.
  cbv zeta. split.
  - split; [vm_compute; reflexivity |].
    split; [vm_compute; reflexivity |].
    eapply (proj1 (C1_failed_pipeline_destroys_its_handles
                     (W := Demo.collaborators))).
    + apply triple_eta.
    + vm_compute. discriminate.
  - split; [vm_compute; reflexivity |].
    eapply (proj2 (proj2 (proj2 (C1_failed_pipeline_destroys_its_handles
                                   (W := Demo.collaborators))))).
    + apply triple_eta.
    + vm_compute. discriminate.
Defined.

(** ** C6: failures of [stars_compute_possible_periods] *)

(** C6.  With non-null arguments, [stars_compute_possible_periods]
    - in stars-core-native returns [STARS_ERROR_INVALID_HANDLE] when the
      context has no instrument;
    - in both wrappers returns [STARS_ERROR_PRESCHEDULER_FAILED] when
      [ComputePeriods] throws;
    and in each of these cases the out-parameter keeps its content and
    no object stays allocated.  (A context of the native wrapper always
    has its instrument, see [Native.StarsContext].) *)
Theorem C6_possible_periods_failures `{W : Collaborators} :
  (forall (c : ptr CoreNative.StarsContext) b v s,
     CoreNative.instrument (deref c) = None ->
     CoreNative.stars_compute_possible_periods (Some c) (Some b) (OutCell v) s
     = ((mkResult STARS_ERROR_INVALID_HANDLE
           (Some "Context has no instrument configured"), OutCell v),
        mkState "Context has no instrument configured" (live s))) /\
  (forall (c : ptr CoreNative.StarsContext) b v s ins k what,
     CoreNative.instrument (deref c) = Some ins ->
     ComputePeriods ins (CoreNative.blocks (deref b))
       (CoreNative.executionPeriod (deref c)) = Throw k what ->
     CoreNative.stars_compute_possible_periods (Some c) (Some b) (OutCell v) s
     = ((mkResult STARS_ERROR_PRESCHEDULER_FAILED
           (Some ("Prescheduler failed: " ++ what)), OutCell v),
        mkState ("Prescheduler failed: " ++ what) (live s))) /\
  (forall (c : ptr Native.StarsContext) b v s k what,
     ComputePeriods (Native.instrument (deref c)) (Native.blocks (deref b))
       (Native.executionPeriod (deref c)) = Throw k what ->
     Native.stars_compute_possible_periods (Some c) (Some b) (OutCell v) s
     = ((mkResult STARS_ERROR_PRESCHEDULER_FAILED (Some what), OutCell v),
        mkState what (live s))).
Proof.
  repeat match goal with |- _ /\ _ => split end.
  - intros * Hi. unfold CoreNative.stars_compute_possible_periods.
    run. reflexivity.
  - intros * Hi Hc. unfold CoreNative.stars_compute_possible_periods.
    run. rewrite fresh_union_difference. reflexivity.
  - intros * Hc. unfold Native.stars_compute_possible_periods.
    run. reflexivity.
Qed.

Lemma C6_witness :
  let W := no_ephemeris in
  let bare := Ptr 1%positive (CoreNative.mkContext None (mkPeriod 0 86400) "" (JObj [])) in
  let ctx := Ptr 1%positive
               (CoreNative.mkContext (Some (0%Q, 0%Q, 0%Q)) (mkPeriod 0 86400) ""
                  (JObj [])) in
  let nctx := Ptr 1%positive
                (Native.mkContext (0%Q, 0%Q, 0%Q) (mkPeriod 0 86400) "") in
  (CoreNative.stars_compute_possible_periods (Some bare)
     (Some (Ptr 2%positive (CoreNative.mkBlocks []))) (OutCell None) Demo.s0).1
  = (mkResult STARS_ERROR_INVALID_HANDLE
       (Some "Context has no instrument configured"), OutCell None) /\
  (CoreNative.stars_compute_possible_periods (Some ctx)
     (Some (Ptr 2%positive (CoreNative.mkBlocks []))) (OutCell None) Demo.s0).1
  = (mkResult STARS_ERROR_PRESCHEDULER_FAILED
       (Some "Prescheduler failed: no ephemeris"), OutCell None) /\
  (Native.stars_compute_possible_periods (Some nctx)
     (Some (Ptr 2%positive (Native.mkBlocks [] ""))) (OutCell None) Demo.s0).1
  = (mkResult STARS_ERROR_PRESCHEDULER_FAILED (Some "no ephemeris"),
     OutCell None).
Proof.
  cbv zeta.
  destruct (C6_possible_periods_failures (W := no_ephemeris))
    as (H1 & H2 & H3).
  repeat match goal with |- _ /\ _ => split end.
  - rewrite H1; reflexivity.
  - erewrite H2; reflexivity.
  - erewrite H3; reflexivity.
Defined.

(** ** C10: the bounds check of [stars_blocks_get_at] *)

(** C10.  With a non-null collection and out-parameter,
    [stars_blocks_get_at] answers an index at or beyond the number of
    blocks with [STARS_ERROR_INVALID_HANDLE] ("Index out of bounds") and
    leaves the out-parameter as it was; for an index below the number
    of blocks it does not take that branch: it returns [STARS_OK] or,
    when serialising throws, [STARS_ERROR_SERIALIZATION]. *)
Theorem C10_blocks_get_at_bounds `{W : Collaborators} :
  (forall (p : ptr Native.StarsBlocksCollection) index v s,
     size (Native.blocks (deref p)) <= Z.of_N index ->
     (Native.stars_blocks_get_at (Some p) index (OutCell v) s).1
     = (mkResult STARS_ERROR_INVALID_HANDLE (Some "Index out of bounds"),
        OutCell v)) /\
  (forall (p : ptr Native.StarsBlocksCollection) index v s,
     Z.of_N index < size (Native.blocks (deref p)) ->
     let r := (Native.stars_blocks_get_at (Some p) index (OutCell v) s).1.1 in
     code r = STARS_OK \/ code r = STARS_ERROR_SERIALIZATION) /\
  (forall (p : ptr CoreNative.StarsBlocksCollection) index v s,
     size (CoreNative.blocks (deref p)) <= Z.of_N index ->
     (CoreNative.stars_blocks_get_at (Some p) index (OutCell v) s).1
     = (mkResult STARS_ERROR_INVALID_HANDLE (Some "Index out of bounds"),
        OutCell v)) /\
  (forall (p : ptr CoreNative.StarsBlocksCollection) index v s,
     Z.of_N index < size (CoreNative.blocks (deref p)) ->
     let r :=
       (CoreNative.stars_blocks_get_at (Some p) index (OutCell v) s).1.1 in
     code r = STARS_OK \/ code r = STARS_ERROR_SERIALIZATION).
Proof.
  unfold size.
  repeat match goal with |- _ /\ _ => split end; intros * Hi; cbv zeta.
  - unfold Native.stars_blocks_get_at.
    rewrite bool_decide_eq_true_2 by exact Hi. reflexivity.
  - unfold Native.stars_blocks_get_at, size.
    rewrite bool_decide_eq_false_2 by lia.
    destruct (Native.blocks (deref p) !! N.to_nat index) eqn:E.
    + run; auto.
    + apply lookup_ge_None in E. lia.
  - unfold CoreNative.stars_blocks_get_at.
    cbv [mbind M_bind CoreNative.clear_error_internal].
    rewrite bool_decide_eq_true_2 by exact Hi. reflexivity.
  - unfold CoreNative.stars_blocks_get_at, size.
    cbv [mbind M_bind CoreNative.clear_error_internal].
    rewrite bool_decide_eq_false_2 by lia.
    destruct (CoreNative.blocks (deref p) !! N.to_nat index) eqn:E.
    + run; auto.
    + apply lookup_ge_None in E. lia.
Qed.

Lemma C10_witness :
  let W := Demo.collaborators in
  let a := Ptr 1%positive (Native.mkBlocks two_tasks "") in
  let b := Ptr 1%positive (CoreNative.mkBlocks two_tasks) in
  ((Native.stars_blocks_get_at (Some a) 2%N (OutCell None) Demo.s0).1
   = (mkResult STARS_ERROR_INVALID_HANDLE (Some "Index out of bounds"),
      OutCell None) /\
   (code (Native.stars_blocks_get_at (Some a) 1%N (OutCell None) Demo.s0).1.1
    = STARS_OK \/
    code (Native.stars_blocks_get_at (Some a) 1%N (OutCell None) Demo.s0).1.1
    = STARS_ERROR_SERIALIZATION)) /\
  ((CoreNative.stars_blocks_get_at (Some b) 7%N (OutCell None) Demo.s0).1
   = (mkResult STARS_ERROR_INVALID_HANDLE (Some "Index out of bounds"),
      OutCell None) /\
   (code (CoreNative.stars_blocks_get_at (Some b) 0%N (OutCell None)
            Demo.s0).1.1 = STARS_OK \/
    code (CoreNative.stars_blocks_get_at (Some b) 0%N (OutCell None)
            Demo.s0).1.1 = STARS_ERROR_SERIALIZATION)).
Proof.
  cbv zeta.
  destruct (C10_blocks_get_at_bounds (W := Demo.collaborators))
    as (H1 & H2 & H3 & H4).
  repeat match goal with |- _ /\ _ => split end.
  - apply H1. vm_compute. discriminate.
  - apply H2. vm_compute. reflexivity.
  - apply H3. vm_compute. discriminate.
  - apply H4. vm_compute. reflexivity.
Defined.

(** ** C9: unrecognised elements are skipped *)

Section LenientSkip.
Context `{W : Collaborators}.

Lemma Native_load_members_recognized members acc :
  Native.load_members members acc
  = (bs ← exn_map Native.load_observation_task
            (map snd (List.filter recognized members));
     Normal (acc ++ bs)%list).
Proof.
  revert acc. induction members as [| [key value] rest IH]; intros acc.
  - simpl. cbv [mbind exn_bind]. rewrite app_nil_r. reflexivity.
  - simpl. unfold recognized at 1. simpl.
    destruct (has_substring "ObservationTask" key); [| apply IH].
    simpl. cbv [mbind exn_bind] in *.
    destruct (Native.load_observation_task value); [| reflexivity].
    rewrite IH.
    destruct (exn_map _ _); [| reflexivity].
    rewrite <- app_assoc. reflexivity.
Qed.

Lemma Native_load_members_app m1 m2 acc :
  Native.load_members (m1 ++ m2) acc
  = (acc' ← Native.load_members m1 acc; Native.load_members m2 acc').
Proof.
  revert acc. induction m1 as [| [key value] rest IH]; intros acc;
    [reflexivity |].
  simpl. destruct (has_substring "ObservationTask" key); [| apply IH].
  cbv [mbind exn_bind] in *.
  destruct (Native.load_observation_task value); [apply IH | reflexivity].
Qed.

Lemma Native_load_elements_flat elements acc :
  Native.load_elements elements acc
  = Native.load_members (concat (map items elements)) acc.
Proof.
  revert acc. induction elements as [| e rest IH]; intros acc;
    [reflexivity |].
  simpl. rewrite Native_load_members_app.
  cbv [mbind exn_bind].
  destruct (Native.load_members (items e) acc); [apply IH | reflexivity].
Qed.

(** The native loop builds exactly the recognised members. *)
Lemma Native_load_elements_recognized elements :
  Native.load_elements elements []
  = exn_map Native.load_observation_task (recognized_values elements).
Proof.
  rewrite Native_load_elements_flat, Native_load_members_recognized.
  unfold recognized_values. cbv [mbind exn_bind].
  destruct (exn_map _ _); reflexivity.
Qed.

(** The stars-core-native loop keeps exactly the elements for which
    the deserializer hands back a block. *)
Lemma CoreNative_deserialize_elements_acc elements acc :
  CoreNative.deserialize_elements elements acc
  = (decoded ← exn_map deserialize_block elements;
     Normal (acc ++ kept_blocks decoded)%list).
Proof.
  revert acc. induction elements as [| e rest IH]; intros acc.
  - simpl. cbv [mbind exn_bind]. rewrite app_nil_r. reflexivity.
  - simpl. cbv [mbind exn_bind] in *.
    destruct (deserialize_block e) as [[b |] |]; [| | reflexivity];
      rewrite IH; destruct (exn_map _ _); try reflexivity.
    simpl. rewrite <- app_assoc. reflexivity.
Qed.

Lemma CoreNative_blocks_load_json_decoded txt j elements decoded v s :
  json_parse txt = Normal j ->
  holds_blocks_array j elements ->
  exn_map deserialize_block elements = Normal decoded ->
  (CoreNative.stars_blocks_load_json (Some txt) (OutCell v) s).1
  = (mkResult STARS_OK None,
     OutCell (Some (Ptr (fresh (live s))
                      (CoreNative.mkBlocks (kept_blocks decoded))))).
Proof.
  intros Hp Hj Hb. unfold CoreNative.stars_blocks_load_json.
  cbv [try_catch mbind mret M_bind MX_bind MX_ret lift call new_
       unique_scope CoreNative.clear_error_internal]. rewrite Hp.
  destruct Hj as [-> | (m & -> & Hm)].
  - simpl. rewrite CoreNative_deserialize_elements_acc, Hb. reflexivity.
  - simpl. rewrite Hm. rewrite bool_decide_eq_true_2 by eauto. simpl.
    rewrite CoreNative_deserialize_elements_acc, Hb. reflexivity.
Qed.

(** C9.  Elements with an unrecognised discriminator do not make
    [stars_blocks_load_json] fail and contribute nothing to the
    collection.

    In the native wrapper the loops over the elements yield exactly the
    tasks built from the members whose key contains [ObservationTask],
    whatever else the array holds; when those tasks can be built, the
    call returns [STARS_OK] with a collection of exactly them.

    In stars-core-native the loop keeps exactly the elements for which
    the deserializer hands back a block and skips those for which it
    hands back a null pointer; when the deserializer throws on no
    element, the call returns [STARS_OK] with exactly the blocks it
    handed back. *)
Theorem C9_unrecognized_elements_are_skipped :
  (forall elements,
     Native.load_elements elements []
     = exn_map Native.load_observation_task (recognized_values elements)) /\
  (forall txt j elements bs v s,
     json_parse txt = Normal j ->
     holds_blocks_array j elements ->
     exn_map Native.load_observation_task (recognized_values elements)
     = Normal bs ->
     (Native.stars_blocks_load_json (Some txt) (OutCell v) s).1
     = (mkResult STARS_OK None,
        OutCell (Some (Ptr (fresh (live s)) (Native.mkBlocks bs txt))))) /\
  (forall elements,
     CoreNative.deserialize_elements elements []
     = (decoded ← exn_map deserialize_block elements;
        Normal (kept_blocks decoded))) /\
  (forall txt j elements decoded v s,
     json_parse txt = Normal j ->
     holds_blocks_array j elements ->
     exn_map deserialize_block elements = Normal decoded ->
     (CoreNative.stars_blocks_load_json (Some txt) (OutCell v) s).1
     = (mkResult STARS_OK None,
        OutCell (Some (Ptr (fresh (live s))
                         (CoreNative.mkBlocks (kept_blocks decoded)))))).
Proof.
  repeat match goal with |- _ /\ _ => split end.
  - apply Native_load_elements_recognized.
  - intros * Hp Hj Hb. unfold Native.stars_blocks_load_json.
    cbv [try_catch mbind mret MX_bind MX_ret lift call new_]. rewrite Hp.
    destruct Hj as [-> | (m & -> & Hm)].
    + simpl. rewrite Native_load_elements_recognized, Hb. reflexivity.
    + simpl. rewrite Hm. rewrite bool_decide_eq_true_2 by eauto. simpl.
      rewrite Native_load_elements_recognized, Hb. reflexivity.
  - intros. apply CoreNative_deserialize_elements_acc.
  - intros *. apply CoreNative_blocks_load_json_decoded.
Qed.

End LenientSkip.

Lemma C9_witness :
  let W := Demo.collaborators in
  let m31 := Demo.mkTask "M31" 2%Q (Duration_hms 0 0 0) (0%Q, 0%Q) in
  (Native.stars_blocks_load_json (Some mixed_blocks) (OutCell None) Demo.s0).1
  = (mkResult STARS_OK None,
     OutCell (Some (Ptr 1%positive (Native.mkBlocks [m31] mixed_blocks)))) /\
  (CoreNative.stars_blocks_load_json (Some mixed_blocks) (OutCell None)
     Demo.s0).1
  = (mkResult STARS_OK None,
     OutCell (Some (Ptr 1%positive (CoreNative.mkBlocks [m31])))).
Proof.
  cbv zeta.
  destruct (C9_unrecognized_elements_are_skipped (W := Demo.collaborators))
    as (_ & H2 & _ & H4).
  split.
  - etrans;
      [ eapply H2;
        [vm_compute; reflexivity | left; reflexivity | vm_compute; reflexivity]
      | reflexivity ].
  - etrans;
      [ eapply H4;
        [vm_compute; reflexivity | left; reflexivity | vm_compute; reflexivity]
      | reflexivity ].
Defined.

(** ** C2: the counts of a schedule add up to the blocks given *)

Section Counts.
Context `{W : Collaborators}.
Hypothesis engine_contract : engine_accounts_for_every_block.

Lemma contract_sizes config bs ins p sch unplanned fail :
  Schedule config bs ins p = Normal (sch, unplanned, fail) ->
  size (default [] sch) + size unplanned = size bs.
Proof.
  intros H. apply engine_contract in H. apply Permutation_length in H.
  rewrite length_app, length_map in H.
  unfold size. rewrite <- Nat2Z.inj_add. f_equal. exact H.
Qed.

(** What a successful [stars_run_scheduler] stores behind the handle. *)
Lemma Native_run_scheduler_handle (ctx : ptr Native.StarsContext)
    (b : ptr Native.StarsBlocksCollection) pp params v s r h s' :
  Native.stars_run_scheduler (Some ctx) (Some b) pp params (OutCell v) s
  = ((r, OutCell (Some h)), s') ->
  code r = STARS_OK ->
  Native.total_blocks (deref h) = size (Native.blocks (deref b)) /\
  size (default [] (Native.schedule (deref h)))
  + size (Native.unscheduled (deref h)) = size (Native.blocks (deref b)).
Proof.
  unfold Native.stars_run_scheduler. intros H Hc. run;
    match goal with
    | H : Schedule _ _ _ _ = Normal _ |- _ => apply contract_sizes in H
    end; auto.
Qed.

Lemma CoreNative_run_scheduler_handle (ctx : ptr CoreNative.StarsContext)
    (b : ptr CoreNative.StarsBlocksCollection) pp params v s r h s' :
  CoreNative.stars_run_scheduler (Some ctx) (Some b) pp params (OutCell v) s
  = ((r, OutCell (Some h)), s') ->
  code r = STARS_OK ->
  size (default [] (CoreNative.schedule (deref h)))
  + size (CoreNative.unscheduled (deref h))
  = size (CoreNative.blocks (deref b)).
Proof.
  unfold CoreNative.stars_run_scheduler. intros H Hc. run;
    match goal with
    | H : Schedule _ _ _ _ = Normal _ |- _ => apply contract_sizes in H
    end; auto.
Qed.

Lemma size_nonneg {A : Type} (l : list A) : 0 <= size l.
Proof. unfold size. lia. Qed.

Lemma size_map {A B : Type} (f : A -> B) (l : list A) : size (map f l) = size l.
Proof. unfold size. rewrite length_map. reflexivity. Qed.

Lemma Native_stats_counts h n :
  Native.total_blocks h = n -> n < 2^64 ->
  size (default [] (Native.schedule h)) + size (Native.unscheduled h) = n ->
  counts_add_up_to (Native.stats_document h) n.
Proof.
  intros Ht Hn Hs.
  exists (size_sub (Native.total_blocks h) (size (Native.unscheduled h))),
    (size (Native.unscheduled h)).
  split; [reflexivity |]. split; [reflexivity |].
  unfold size_sub. rewrite Ht.
  pose proof (size_nonneg (default [] (Native.schedule h))).
  pose proof (size_nonneg (Native.unscheduled h)).
  rewrite Z.mod_small; lia.
Qed.

Lemma Native_schedule_counts h n :
  size (default [] (Native.schedule h)) + size (Native.unscheduled h) = n ->
  counts_add_up_to (Native.schedule_document h) n.
Proof.
  intros Hs.
  exists (size (default [] (Native.schedule h))), (size (Native.unscheduled h)).
  split; [| split; [| exact Hs]];
    unfold Native.schedule_document;
    destruct (Native.schedule h); simpl; rewrite ?size_map; reflexivity.
Qed.

Lemma CoreNative_stats_counts h n :
  size (default [] (CoreNative.schedule h)) + size (CoreNative.unscheduled h)
  = n ->
  counts_add_up_to (CoreNative.stats_document h) n.
Proof.
  intros Hs.
  exists (size (default [] (CoreNative.schedule h))),
    (size (CoreNative.unscheduled h)).
  split; [| split; [| exact Hs]];
    unfold CoreNative.stats_document;
    destruct (CoreNative.schedule h); reflexivity.
Qed.

Lemma CoreNative_schedule_counts h n :
  size (default [] (CoreNative.schedule h)) + size (CoreNative.unscheduled h)
  = n ->
  counts_add_up_to (CoreNative.schedule_document h) n.
Proof.
  intros Hs.
  exists (size (default [] (CoreNative.schedule h))),
    (size (CoreNative.unscheduled h)).
  split; [| split; [| exact Hs]];
    unfold CoreNative.schedule_document;
    destruct (CoreNative.schedule h); reflexivity.
Qed.

End Counts.

(** C2.  Let the engine account for every block it is given, once, as
    the task of a unit or as an unscheduled block.  Then for every
    schedule handle that [stars_run_scheduler] produced from a block
    collection (of fewer than [2^64] blocks), the [scheduled_count] and
    the [unscheduled_count] of the statistics document add up to the
    number of blocks of that collection, and so do the two counts of
    the schedule document; [stars_schedule_get_stats] and
    [stars_schedule_to_json] write exactly the dump of these
    documents. *)
Theorem C2_schedule_counts_add_up `{W : Collaborators} :
  engine_accounts_for_every_block ->
  (forall (ctx : ptr Native.StarsContext)
          (b : ptr Native.StarsBlocksCollection) pp params v s r h s',
     Native.stars_run_scheduler (Some ctx) (Some b) pp params (OutCell v) s
     = ((r, OutCell (Some h)), s') ->
     code r = STARS_OK ->
     size (Native.blocks (deref b)) < 2^64 ->
     counts_add_up_to (Native.stats_document (deref h))
       (size (Native.blocks (deref b))) /\
     counts_add_up_to (Native.schedule_document (deref h))
       (size (Native.blocks (deref b))) /\
     (forall v s text,
        json_dump (Native.stats_document (deref h)) = Normal text ->
        (Native.stars_schedule_get_stats (Some h) (OutCell v) s).1
        = (mkResult STARS_OK None, OutCell (Some text))) /\
     (forall v s text,
        json_dump (Native.schedule_document (deref h)) = Normal text ->
        (Native.stars_schedule_to_json (Some h) (OutCell v) s).1
        = (mkResult STARS_OK None, OutCell (Some text)))) /\
  (forall (ctx : ptr CoreNative.StarsContext)
          (b : ptr CoreNative.StarsBlocksCollection) pp params v s r h s',
     CoreNative.stars_run_scheduler (Some ctx) (Some b) pp params
       (OutCell v) s = ((r, OutCell (Some h)), s') ->
     code r = STARS_OK ->
     counts_add_up_to (CoreNative.stats_document (deref h))
       (size (CoreNative.blocks (deref b))) /\
     counts_add_up_to (CoreNative.schedule_document (deref h))
       (size (CoreNative.blocks (deref b))) /\
     (forall v s text,
        json_dump (CoreNative.stats_document (deref h)) = Normal text ->
        (CoreNative.stars_schedule_get_stats (Some h) (OutCell v) s).1
        = (mkResult STARS_OK None, OutCell (Some text))) /\
     (forall v s text,
        json_dump (CoreNative.schedule_document (deref h)) = Normal text ->
        (CoreNative.stars_schedule_to_json (Some h) (OutCell v) s).1
        = (mkResult STARS_OK None, OutCell (Some text)))).
Proof.
  intros Hengine. split.
  - intros * H Hc Hn.
    destruct (Native_run_scheduler_handle Hengine _ _ _ _ _ _ _ _ _ H Hc)
      as [Ht Hs].
    split; [apply Native_stats_counts; assumption |].
    split; [apply Native_schedule_counts; assumption |].
    split; intros * Hd.
    + unfold Native.stars_schedule_get_stats.
      cbv [try_catch mbind M_bind MX_bind call CoreNative.clear_error_internal].
      rewrite Hd. reflexivity.
    + unfold Native.stars_schedule_to_json.
      cbv [try_catch mbind M_bind MX_bind call CoreNative.clear_error_internal].
      rewrite Hd. reflexivity.
  - intros * H Hc.
    pose proof (CoreNative_run_scheduler_handle Hengine _ _ _ _ _ _ _ _ _ H Hc)
      as Hs.
    split; [apply CoreNative_stats_counts; assumption |].
    split; [apply CoreNative_schedule_counts; assumption |].
    split; intros * Hd.
    + unfold CoreNative.stars_schedule_get_stats.
      cbv [try_catch mbind M_bind MX_bind call CoreNative.clear_error_internal].
      rewrite Hd. reflexivity.
    + unfold CoreNative.stars_schedule_to_json.
      cbv [try_catch mbind M_bind MX_bind call CoreNative.clear_error_internal].
      rewrite Hd. reflexivity.
Qed.

(** The engine of the demo accounts for every block. *)
Lemma Demo_place_accounts bs cursor limit units unplanned :
  map fst (Demo.place bs cursor limit units unplanned).1
  ++ (Demo.place bs cursor limit units unplanned).2
  ≡ₚ (map fst units ++ unplanned) ++ bs.
Proof.
  revert cursor units unplanned.
  induction bs as [| b bs IH]; intros cursor units unplanned.
  - simpl. rewrite app_nil_r. reflexivity.
  - simpl. destruct (Z.leb _ _); rewrite IH.
    + rewrite map_app. simpl.
      rewrite <- !app_assoc. simpl.
      apply Permutation_app_head. apply Permutation_middle.
    + rewrite <- !app_assoc. reflexivity.
Qed.

Lemma Demo_engine_accounts :
  engine_accounts_for_every_block (W := Demo.collaborators).
Proof.
  intros config bs ins p sch unplanned fail. simpl. unfold Demo.engine.
  pose proof (Demo_place_accounts bs (BeginTime p) (EndTime p) [] []) as H.
  destruct (Demo.place _ _ _ _ _) as [units un]. intros E. simplify_eq.
  exact H.
Qed.

Lemma C2_witness :
  let W := Demo.collaborators in
  let run := Native.stars_run_scheduler (Some hour_context) (Some two_blocks)
               None Native.stars_scheduling_params_default (OutCell None) s2 in
  let run' := CoreNative.stars_run_scheduler (Some hour_context')
                (Some two_blocks') None
                CoreNative.stars_scheduling_params_default (OutCell None) s2 in
  (run.1 = (mkResult STARS_OK None, OutCell (Some hour_schedule)) /\
   counts_add_up_to (Native.stats_document (deref hour_schedule)) 2 /\
   counts_add_up_to (Native.schedule_document (deref hour_schedule)) 2) /\
  (run'.1 = (mkResult STARS_OK None, OutCell (Some hour_schedule')) /\
   counts_add_up_to (CoreNative.stats_document (deref hour_schedule')) 2 /\
   counts_add_up_to (CoreNative.schedule_document (deref hour_schedule')) 2).
Proof.
  cbv zeta.
  destruct (C2_schedule_counts_add_up (W := Demo.collaborators)
              Demo_engine_accounts) as [HA HB].
  split; (split; [reflexivity |]).
  - edestruct (HA hour_context two_blocks None
                  Native.stars_scheduling_params_default None s2
                  (mkResult STARS_OK None) hour_schedule
                  (Native.stars_run_scheduler (Some hour_context)
                     (Some two_blocks) None
                     Native.stars_scheduling_params_default
                     (OutCell None) s2).2)
      as (H1 & H2 & _);
      [ reflexivity | reflexivity | vm_compute; reflexivity | ].
    split; [exact H1 | exact H2].
  - edestruct (HB hour_context' two_blocks' None
                  CoreNative.stars_scheduling_params_default None s2
                  (mkResult STARS_OK None) hour_schedule'
                  (CoreNative.stars_run_scheduler (Some hour_context')
                     (Some two_blocks') None
                     CoreNative.stars_scheduling_params_default
                     (OutCell None) s2).2)
      as (H1 & H2 & _);
      [ reflexivity | reflexivity | ].
    split; [exact H1 | exact H2].
Defined.

(** ** C8: the exported duration in days *)

Section DurationDays.
Context `{W : Collaborators}.

(** The native wrapper divides [Seconds()], the second-of-minute
    component of the duration, by 86400. *)
Lemma Native_duration_days c :
  field (Native.execution_period_document c) "duration_days"
  = Some (JFloat (inject_Z (Z.rem (total_seconds
                                     (Period_GetDuration
                                        (Native.executionPeriod c))) 60)
                  / 86400)).
Proof. reflexivity. Qed.

(** stars-core-native divides [TotalHours()] by 24: the span in days. *)
Lemma CoreNative_duration_days c :
  exists q,
    field (CoreNative.execution_period_document c) "duration_days"
    = Some (JFloat q) /\
    (q == days_of (Period_GetDuration (CoreNative.executionPeriod c)))%Q.
Proof.
  eexists. split; [reflexivity |].
  unfold TotalHours, days_of, Qdiv, Qeq. simpl. lia.
Qed.

End DurationDays.

(** C8.  For the execution period from 2025-01-01T00:00:00Z to
    2025-01-02T00:00:00Z, which lasts one day, the native
    [stars_context_get_execution_period] exports [duration_days] 0.0,
    where stars-core-native exports 1.0. *)
Theorem C8_native_one_day_period_reports_zero_days :
  let W := Demo.collaborators in
  (TimeUTC_of_string "2025-01-01T00:00:00Z" = Normal (BeginTime new_year_day) /\
   TimeUTC_of_string "2025-01-02T00:00:00Z" = Normal (EndTime new_year_day) /\
   (days_of (Period_GetDuration new_year_day) == 1)%Q) /\
  ((Native.stars_context_get_execution_period (Some new_year_context)
      (OutCell None) Demo.s0).1
   = (mkResult STARS_OK None,
      OutCell (Some (Demo.json_text
        "{'begin':'2025-01-01T00:00:00Z','duration_days':0.0,'end':'2025-01-02T00:00:00Z'}"))) /\
   field (Native.execution_period_document (deref new_year_context))
     "duration_days" = Some (JFloat (0 / 86400))) /\
  ((CoreNative.stars_context_get_execution_period (Some new_year_context')
      (OutCell None) Demo.s0).1
   = (mkResult STARS_OK None,
      OutCell (Some (Demo.json_text
        "{'begin':'2025-01-01T00:00:00Z','duration_days':1.0,'end':'2025-01-02T00:00:00Z'}"))) /\
   field (CoreNative.execution_period_document (deref new_year_context'))
     "duration_days" = Some (JFloat ((86400 # 3600) / 24))).
Proof.
  cbv zeta.
  repeat match goal with |- _ /\ _ => split end;
    try (vm_compute; reflexivity); reflexivity.
Qed.

(** ** C5: a configuration without an instrument *)

(** The claim fails in stars-core-native: the empty object is
    well-formed JSON without an [instrument] member, and
    [stars_context_create] answers it with [STARS_OK] and writes a
    context handle. *)
Lemma C5_counterexample :
  let W := Demo.collaborators in
  let call := CoreNative.stars_context_create (Some "{}") (OutCell None)
                Demo.s0 in
  json_parse "{}" = Normal (JObj []) /\
  contains (JObj []) "instrument" = false /\
  code call.1.1 = STARS_OK /\
  is_Some (cell_value call.1.2).
Proof.
  cbv zeta.
  split; [vm_compute; reflexivity |].
  split; [vm_compute; reflexivity |].
  split; [vm_compute; reflexivity |].
  eexists. reflexivity.
Qed.

Section NoInstrument.
Context `{W : Collaborators}.

Lemma CoreNative_context_create_no_instrument cfg j v s r out' s' :
  json_parse cfg = Normal j ->
  contains j "instrument" = false ->
  CoreNative.stars_context_create (Some cfg) (OutCell v) s = ((r, out'), s') ->
  (code r = STARS_OK /\
   live s' = {[fresh (live s)]} ∪ live s /\
   exists c, out' = OutCell (Some (Ptr (fresh (live s)) c)) /\
             CoreNative.instrument c = None) \/
  ((code r = STARS_ERROR_INVALID_JSON \/
    code r = STARS_ERROR_DESERIALIZATION) /\
   out' = OutCell v /\ live s' = live s).
Proof.
  intros Hp Hc. unfold CoreNative.stars_context_create.
  cbv [try_catch mbind M_bind MX_bind call CoreNative.clear_error_internal].
  rewrite Hp. cbv [unique_scope mbind MX_bind mret MX_ret call lift].
  rewrite Hc. intros H. run;
    first [ left; split; [reflexivity |]; split; [reflexivity |];
            eexists; split; reflexivity
          | right; rewrite ?fresh_union_difference; auto ].
Qed.

Lemma CoreNative_run_scheduler_no_instrument
    (c : ptr CoreNative.StarsContext) b pp params v s :
  CoreNative.instrument (deref c) = None ->
  CoreNative.stars_run_scheduler (Some c) (Some b) pp params (OutCell v) s
  = ((mkResult STARS_ERROR_INVALID_HANDLE
        (Some "Context has no instrument configured"), OutCell v),
     mkState "Context has no instrument configured" (live s)).
Proof.
  intros Hi. unfold CoreNative.stars_run_scheduler. run. reflexivity.
Qed.

Lemma CoreNative_blocks_load_json_codes txt v s r out' s' :
  CoreNative.stars_blocks_load_json (Some txt) (OutCell v) s
  = ((r, out'), s') ->
  code r = STARS_OK \/ code r = STARS_ERROR_INVALID_JSON \/
  code r = STARS_ERROR_DESERIALIZATION.
Proof. unfold CoreNative.stars_blocks_load_json. intros; run; auto. Qed.

Lemma CoreNative_pipeline_no_instrument cfg j params v s r out' s' :
  json_parse cfg = Normal j ->
  contains j "instrument" = false ->
  CoreNative.stars_run_full_pipeline (Some cfg) params (OutCell v) s
  = ((r, out'), s') ->
  (code r = STARS_ERROR_INVALID_JSON \/
   code r = STARS_ERROR_DESERIALIZATION \/
   code r = STARS_ERROR_INVALID_HANDLE) /\
  out' = OutCell v /\ live s' = live s.
Proof.
  intros Hp Hc H.
  pose proof (CoreNative_full_pipeline_spec _ _ _ _ _ _ _ H) as (HL & _ & Hr).
  assert (code r = STARS_ERROR_INVALID_JSON \/
          code r = STARS_ERROR_DESERIALIZATION \/
          code r = STARS_ERROR_INVALID_HANDLE) as Hcode.
  { revert H. unfold CoreNative.stars_run_full_pipeline.
    cbv [mbind mret M_bind M_ret CoreNative.clear_error_internal].
    destruct (CoreNative.stars_context_create _ _ _) as [[r1 c1] s1] eqn:E1.
    apply (CoreNative_context_create_no_instrument _ _ _ _ _ _ _ Hp Hc) in E1.
    destruct E1 as [(Hc1 & _ & c & -> & Hi) | (Hc1 & -> & _)].
    - apply is_ok_true in Hc1 as ->. cbn [negb].
      destruct (CoreNative.stars_blocks_load_json _ _ _)
        as [[r2 c2] s2] eqn:E2.
      pose proof (CoreNative_blocks_load_json_codes _ _ _ _ _ _ E2) as Hc2.
      apply CoreNative_blocks_load_json_spec in E2.
      destruct E2 as [(Hok & _ & _ & x & ->) | (Hne & -> & _)].
      + apply is_ok_true in Hok as ->. cbn [negb cell_value].
        unfold CoreNative.schedule_and_export.
        cbv [mbind mret M_bind M_ret].
        rewrite CoreNative_run_scheduler_no_instrument by exact Hi.
        rewrite (proj2 (is_ok_false _)) by (simpl; discriminate).
        cbn. intros; simplify_eq. auto.
      + apply is_ok_false in Hne as Hf. rewrite Hf. cbn [negb].
        intros. run. destruct Hc2 as [? | [? | ?]]; tauto.
    - assert (is_ok r1 = false) as ->
        by (apply is_ok_false; destruct Hc1; congruence).
      cbn [negb]. intros; simplify_eq. tauto. }
  split; [exact Hcode |].
  split; [| exact HL].
  apply Hr. destruct Hcode as [? | [? | ?]]; congruence.
Qed.

End NoInstrument.

(** C5, amended.  Let the configuration text be well-formed JSON
    without an [instrument] member.
    - In the native wrapper [stars_context_create] returns
      [STARS_ERROR_INVALID_JSON], writes no handle and leaves nothing
      allocated, and a pipeline call on that text returns the same
      error.
    - In stars-core-native the instrument is optional at creation:
      [stars_context_create] returns [STARS_OK] and writes a context
      without instrument, unless another part of the configuration
      fails to decode ([STARS_ERROR_INVALID_JSON] or
      [STARS_ERROR_DESERIALIZATION], no handle written, nothing
      allocated).  [stars_run_scheduler] rejects a context without
      instrument with [STARS_ERROR_INVALID_HANDLE], so a pipeline call
      on that text returns [STARS_ERROR_INVALID_JSON],
      [STARS_ERROR_DESERIALIZATION] or [STARS_ERROR_INVALID_HANDLE],
      writes no result and leaves nothing allocated. *)
Theorem C5_config_without_instrument `{W : Collaborators} cfg j :
  json_parse cfg = Normal j ->
  contains j "instrument" = false ->
  (forall v s,
     Native.stars_context_create (Some cfg) (OutCell v) s
     = ((mkResult STARS_ERROR_INVALID_JSON
           (Some "Missing 'instrument' in config"), OutCell v),
        mkState "Missing 'instrument' in config" (live s))) /\
  (forall params v s,
     Native.stars_run_full_pipeline (Some cfg) params (OutCell v) s
     = ((mkResult STARS_ERROR_INVALID_JSON
           (Some "Missing 'instrument' in config"), OutCell v),
        mkState "Missing 'instrument' in config" (live s))) /\
  (forall v s r out' s',
     CoreNative.stars_context_create (Some cfg) (OutCell v) s
     = ((r, out'), s') ->
     (code r = STARS_OK /\
      live s' = {[fresh (live s)]} ∪ live s /\
      exists c, out' = OutCell (Some (Ptr (fresh (live s)) c)) /\
                CoreNative.instrument c = None) \/
     ((code r = STARS_ERROR_INVALID_JSON \/
       code r = STARS_ERROR_DESERIALIZATION) /\
      out' = OutCell v /\ live s' = live s)) /\
  (forall (c : ptr CoreNative.StarsContext) b pp params v s,
     CoreNative.instrument (deref c) = None ->
     CoreNative.stars_run_scheduler (Some c) (Some b) pp params (OutCell v) s
     = ((mkResult STARS_ERROR_INVALID_HANDLE
           (Some "Context has no instrument configured"), OutCell v),
        mkState "Context has no instrument configured" (live s))) /\
  (forall params v s r out' s',
     CoreNative.stars_run_full_pipeline (Some cfg) params (OutCell v) s
     = ((r, out'), s') ->
     (code r = STARS_ERROR_INVALID_JSON \/
      code r = STARS_ERROR_DESERIALIZATION \/
      code r = STARS_ERROR_INVALID_HANDLE) /\
     out' = OutCell v /\ live s' = live s).
Proof.
  intros Hp Hc.
  assert (forall v s,
            Native.stars_context_create (Some cfg) (OutCell v) s
            = ((mkResult STARS_ERROR_INVALID_JSON
                  (Some "Missing 'instrument' in config"), OutCell v),
               mkState "Missing 'instrument' in config" (live s))) as HN.
  { intros v s. unfold Native.stars_context_create.
    cbv [try_catch mbind M_bind MX_bind call lift new_ delete_
         Native.fail_with Native.make_error Native.set_error mret M_ret].
    rewrite Hp, Hc. simpl. rewrite fresh_union_difference. reflexivity. }
  repeat match goal with |- _ /\ _ => split end.
  - exact HN.
  - intros. unfold Native.stars_run_full_pipeline.
    cbv [mbind M_bind mret M_ret]. rewrite HN. reflexivity.
  - intros *. eapply CoreNative_context_create_no_instrument; eassumption.
  - intros *. apply CoreNative_run_scheduler_no_instrument.
  - intros *. eapply CoreNative_pipeline_no_instrument; eassumption.
Qed.

Lemma C5_witness :
  let W := Demo.collaborators in
  (Native.stars_context_create (Some "{}") (OutCell None) Demo.s0).1
  = (mkResult STARS_ERROR_INVALID_JSON (Some "Missing 'instrument' in config"),
     OutCell None) /\
  (Native.stars_run_full_pipeline (Some "{}")
     Native.stars_scheduling_params_default (OutCell None) Demo.s0).1
  = (mkResult STARS_ERROR_INVALID_JSON (Some "Missing 'instrument' in config"),
     OutCell None).
Proof.
  cbv zeta.
  destruct (C5_config_without_instrument (W := Demo.collaborators)
              "{}" (JObj []) ltac:(vm_compute; reflexivity)
              ltac:(vm_compute; reflexivity)) as (H1 & H2 & _).
  split; [rewrite H1 | rewrite H2]; reflexivity.
Defined.

(** ** C4: load, export, load again *)

(** The claim fails in the native wrapper: a collection of one task is
    loaded and exported, and loading the exported text succeeds but
    yields a collection of no blocks. *)
Lemma C4_counterexample :
  let W := Demo.collaborators in
  let load1 := Native.stars_blocks_load_json (Some one_task) (OutCell None)
                 Demo.s0 in
  let first := cell_value load1.1.2 in
  let export := Native.stars_blocks_to_json first (OutCell None) load1.2 in
  let text := cell_value export.1.2 in
  let load2 := Native.stars_blocks_load_json text (OutCell None) export.2 in
  let second := cell_value load2.1.2 in
  (code load1.1.1 = STARS_OK /\ code export.1.1 = STARS_OK /\
   code load2.1.1 = STARS_OK) /\
  text = Some (Demo.json_text "[{'name':'M31','priority':2.0}]") /\
  (native_count first = Some 1 /\ native_count second = Some 0) /\
  (native_pairs first = Some [("M31", Some 2%Q)] /\
   native_pairs second = Some []).
Proof.
  cbv zeta.
  repeat match goal with |- _ /\ _ => split end; vm_compute; reflexivity.
Qed.

Section RoundTrip.
Context `{W : Collaborators}.

Lemma Native_block_summary_fields b :
  field (Native.block_summary b) "name" = Some (JStr (GetName b)) /\
  field (Native.block_summary b) "priority"
  = Some (JFloat (default 0%Q (Task_GetPriority b))).
Proof.
  unfold Native.block_summary.
  destruct (Task_GetPriority b); split; reflexivity.
Qed.

(** An exported block has no member the loader recognises. *)
Lemma Native_load_members_summary b acc :
  Native.load_members (items (Native.block_summary b)) acc = Normal acc.
Proof. reflexivity. Qed.

Lemma Native_load_elements_summaries bs acc :
  Native.load_elements (map Native.block_summary bs) acc = Normal acc.
Proof.
  induction bs as [| b bs IH]; [reflexivity |].
  cbn [map Native.load_elements]. rewrite Native_load_members_summary.
  exact IH.
Qed.

Lemma kept_blocks_all (bs : list Block) : kept_blocks (map Some bs) = bs.
Proof.
  unfold kept_blocks. induction bs as [| b bs IH]; [reflexivity |].
  simpl. f_equal. exact IH.
Qed.

End RoundTrip.

(** C4, amended.
    - In the native wrapper [stars_blocks_to_json] exports an array
      with one object per block, in order, holding the block's name and
      its priority (0.0 for a block that is not a task): the export has
      the count and the (name, priority) pairs of the collection.
      These objects carry no type discriminator, so loading the
      exported text again succeeds and yields an empty collection.
    - In stars-core-native, when the text codec reads back the document
      that [ScheduleJsonBuilder::Build] made of the collection and the
      deserializer turns each of its elements back into the block it
      came from, loading the exported text yields a collection of the
      same blocks, hence of the same count and (name, priority)
      pairs. *)
Theorem C4_export_and_reload `{W : Collaborators} :
  (forall (h : ptr Native.StarsBlocksCollection) v s text,
     json_dump (JArr (map Native.block_summary (Native.blocks (deref h))))
     = Normal text ->
     (Native.stars_blocks_to_json (Some h) (OutCell v) s).1
     = (mkResult STARS_OK None, OutCell (Some text))) /\
  (forall bs : list Block,
     length (map Native.block_summary bs) = length bs /\
     Forall2 (fun b j =>
                field j "name" = Some (JStr (GetName b)) /\
                field j "priority"
                = Some (JFloat (default 0%Q (Task_GetPriority b))))
       bs (map Native.block_summary bs)) /\
  (forall text (bs : list Block) v s,
     json_parse text = Normal (JArr (map Native.block_summary bs)) ->
     (Native.stars_blocks_load_json (Some text) (OutCell v) s).1
     = (mkResult STARS_OK None,
        OutCell (Some (Ptr (fresh (live s)) (Native.mkBlocks [] text))))) /\
  (forall (h : ptr CoreNative.StarsBlocksCollection) doc text elements
          v s v' s',
     ScheduleJsonBuilder_Build (CoreNative.blocks (deref h)) = Normal doc ->
     json_dump doc = Normal text ->
     json_parse text = Normal doc ->
     holds_blocks_array doc elements ->
     exn_map deserialize_block elements
     = Normal (map Some (CoreNative.blocks (deref h))) ->
     (CoreNative.stars_blocks_to_json (Some h) (OutCell v) s).1
     = (mkResult STARS_OK None, OutCell (Some text)) /\
     (CoreNative.stars_blocks_load_json (Some text) (OutCell v') s').1
     = (mkResult STARS_OK None,
        OutCell (Some (Ptr (fresh (live s'))
                         (CoreNative.mkBlocks (CoreNative.blocks (deref h))))))).
Proof.
  repeat match goal with |- _ /\ _ => split end.
  - intros * Hd. unfold Native.stars_blocks_to_json.
    cbv [try_catch mbind MX_bind call]. rewrite Hd. reflexivity.
  - intros bs. split; [apply length_map |].
    induction bs as [| b bs IH]; constructor;
      [apply Native_block_summary_fields | exact IH].
  - intros * Hp. unfold Native.stars_blocks_load_json.
    cbv [try_catch mbind mret MX_bind MX_ret lift call new_]. rewrite Hp.
    simpl. rewrite Native_load_elements_summaries. reflexivity.
  - intros * Hb Hd Hp Hj He. split.
    + unfold CoreNative.stars_blocks_to_json.
      cbv [try_catch mbind M_bind MX_bind call
           CoreNative.clear_error_internal].
      rewrite Hb, Hd. reflexivity.
    + rewrite (CoreNative_blocks_load_json_decoded
                 text doc elements (map Some (CoreNative.blocks (deref h)))
                 v' s' Hp Hj He).
      rewrite kept_blocks_all. reflexivity.
Qed.

Lemma C4_witness :
  let W := Demo.collaborators in
  let text :=
    Demo.json_text
      "[{'name':'M31','priority':2.0},{'name':'M42','priority':1.0}]" in
  ((Native.stars_blocks_to_json (Some two_blocks) (OutCell None) Demo.s0).1
   = (mkResult STARS_OK None, OutCell (Some text)) /\
   (Native.stars_blocks_load_json (Some text) (OutCell None) Demo.s0).1
   = (mkResult STARS_OK None,
      OutCell (Some (Ptr 1%positive (Native.mkBlocks [] text))))) /\
  ((CoreNative.stars_blocks_to_json (Some two_blocks') (OutCell None)
      Demo.s0).1
   = (mkResult STARS_OK None, OutCell (Some core_export)) /\
   (CoreNative.stars_blocks_load_json (Some core_export) (OutCell None)
      Demo.s0).1
   = (mkResult STARS_OK None,
      OutCell (Some (Ptr 1%positive (CoreNative.mkBlocks two_tasks))))).
Proof.
  cbv zeta.
  destruct (C4_export_and_reload (W := Demo.collaborators))
    as (H1 & _ & H3 & H4).
  split; [split |].
  - apply H1. vm_compute. reflexivity.
  - etrans; [apply (H3 _ two_tasks); vm_compute; reflexivity | reflexivity].
  - edestruct (H4 two_blocks' (JArr (map Demo.task_json two_tasks))
                 core_export (map Demo.task_json two_tasks)
                 None Demo.s0 None Demo.s0) as [Hx Hy];
      [ reflexivity | reflexivity | vm_compute; reflexivity
      | left; reflexivity | vm_compute; reflexivity | ].
    split; [exact Hx | etrans; [exact Hy | reflexivity]].
Defined.

(** ** C7: the message of a failure and the last-error slot *)

Section Mirror.
Context `{W : Collaborators}.

Lemma mirrored_native r s' :
  mirrored r s' ->
  exists msg,
    error_message r = Some msg /\
    g_last_error s' = msg /\
    (Native.stars_get_last_error s').1
    = (if String.eqb msg "" then None else Some msg).
Proof.
  intros (msg & Hm & Hs). exists msg.
  split; [exact Hm |]. split; [exact Hs |].
  unfold Native.stars_get_last_error. simpl. rewrite Hs. reflexivity.
Qed.

Lemma mirrored_core r s' :
  mirrored r s' -> error_message r <> Some "" ->
  is_Some (error_message r) /\
  (CoreNative.stars_get_last_error s').1 = error_message r.
Proof.
  intros (msg & Hm & Hs) Hne. rewrite Hm in *. split; [eauto |].
  unfold CoreNative.stars_get_last_error. simpl. rewrite Hs.
  destruct (String.eqb_spec msg ""); [congruence | reflexivity].
Qed.

Lemma failed_leaky_mirrors {V : Type} (m : M (StarsResult * outparam V)) out :
  (forall s r out' s', m s = ((r, out'), s') ->
     (code r = STARS_OK) \/ failed_leaky out s r out' s') ->
  slot_mirrors_native m.
Proof.
  intros Hspec s r v s' H Hc. apply Hspec in H.
  destruct H as [? | (_ & _ & _ & Hm)]; [congruence |].
  apply mirrored_native; assumption.
Qed.

Lemma failed_clean_mirrors {V : Type} (m : M (StarsResult * outparam V)) out :
  (forall s r out' s', m s = ((r, out'), s') ->
     (code r = STARS_OK) \/ failed_clean out s r out' s') ->
  slot_mirrors_core m.
Proof.
  intros Hspec s r v s' H Hc. apply Hspec in H.
  destruct H as [? | (_ & _ & _ & Hm & Hne)]; [congruence |].
  apply mirrored_core; assumption.
Qed.

(** With a message that is not empty the native wrapper does what the
    claim says. *)
Lemma text_is_returned {V : Type} (m : M (StarsResult * V)) :
  slot_mirrors_native m -> failure_has_text m ->
  last_error_is_message_native m.
Proof.
  intros Hm Ht s r v s' H Hc.
  destruct (Hm _ _ _ _ H Hc) as (msg & Hr & _ & Hg).
  pose proof (Ht _ _ _ _ _ H Hc Hr) as Hne.
  rewrite Hr. split; [eauto |]. rewrite Hg.
  destruct (String.eqb_spec msg ""); [contradiction | reflexivity].
Qed.

End Mirror.

Ltac mirror_by spec :=
  first [ eapply failed_leaky_mirrors | eapply failed_clean_mirrors ];
  let H := fresh in
  intros ? ? ? ? H; apply spec in H;
  destruct H as [H | H]; [left; apply H | right; exact H].

(** *** The messages of the native wrapper *)

Lemma type_error_what {A : Type} msg j k w :
  @type_error A msg j = Throw k w -> w <> "".
Proof. unfold type_error. intros [= <- <-]. discriminate. Qed.

Lemma subscript_what j key k w : subscript j key = Throw k w -> w <> "".
Proof.
  destruct j; simpl; try discriminate; apply type_error_what.
Qed.

Lemma value_json_what j key d k w :
  value_json j key d = Throw k w -> w <> "".
Proof.
  destruct j; simpl; try discriminate; apply type_error_what.
Qed.

Lemma get_string_what j k w : get_string j = Throw k w -> w <> "".
Proof.
  destruct j; simpl; try discriminate; apply type_error_what.
Qed.

Lemma get_double_what j k w : get_double j = Throw k w -> w <> "".
Proof.
  destruct j; simpl; try discriminate; apply type_error_what.
Qed.

Lemma get_int_what j k w : get_int j = Throw k w -> w <> "".
Proof.
  destruct j; simpl; try discriminate; apply type_error_what.
Qed.

Lemma value_with_what {A : Type} (get : json -> exn A) j key d k w :
  (forall v k w, get v = Throw k w -> w <> "") ->
  value_with get j key d = Throw k w -> w <> "".
Proof.
  intros Hget. destruct j; simpl; try apply type_error_what.
  destruct (obj_lookup key m); [apply Hget | discriminate].
Qed.

Lemma value_string_what j key d k w :
  value_string j key d = Throw k w -> w <> "".
Proof. apply value_with_what. exact get_string_what. Qed.

Lemma value_double_what j key d k w :
  value_double j key d = Throw k w -> w <> "".
Proof. apply value_with_what. exact get_double_what. Qed.

Lemma value_int_what j key d k w :
  value_int j key d = Throw k w -> w <> "".
Proof. apply value_with_what. exact get_int_what. Qed.

Lemma exn_bind_throw {A B : Type} (m : exn A) (f : A -> exn B) k w :
  (m ≫= f) = Throw k w ->
  m = Throw k w \/ exists a, m = Normal a /\ f a = Throw k w.
Proof.
  destruct m as [a | k' w']; cbv [mbind exn_bind]; intros H;
    [right; eauto | left; congruence].
Qed.

(** The [what()] of an exception thrown by one of the accessors of the
    embedding. *)
Ltac what_of H :=
  first [ eapply subscript_what, H | eapply value_json_what, H
        | eapply value_string_what, H | eapply value_double_what, H
        | eapply value_int_what, H | eapply get_string_what, H
        | discriminate H ].

Ltac throw_in H :=
  repeat match type of H with
         | (_ ≫= _) = Throw _ _ =>
             apply exn_bind_throw in H;
             destruct H as [H | (? & _ & H)]; [try what_of H |]
         | (if ?c then _ else _) = Throw _ _ => destruct c
         | Normal _ = Throw _ _ => discriminate H
         end.

Section Text.
Context `{W : Collaborators}.
Hypothesis never_empty : what_is_never_empty.

Lemma load_observation_task_what value k w :
  Native.load_observation_task value = Throw k w -> w <> "".
Proof.
  destruct never_empty as (_ & _ & _ & _ & Htask & _).
  unfold Native.load_observation_task. intros H. throw_in H.
  match type of H with
  | context [match ?x with _ => _ end] => destruct x as [[? ?] ?]
  end.
  eapply Htask, H.
Qed.

Lemma load_members_what members acc k w :
  Native.load_members members acc = Throw k w -> w <> "".
Proof.
  revert acc. induction members as [| [key value] rest IH]; intros acc;
    simpl; [discriminate |].
  destruct (has_substring _ _); [| apply IH].
  intros H. apply exn_bind_throw in H.
  destruct H as [H | (? & _ & H)];
    [eapply load_observation_task_what, H | eapply IH, H].
Qed.

Lemma load_elements_what elements acc k w :
  Native.load_elements elements acc = Throw k w -> w <> "".
Proof.
  revert acc. induction elements as [| block_json rest IH]; intros acc;
    simpl; [discriminate |].
  intros H. apply exn_bind_throw in H.
  destruct H as [H | (? & _ & H)];
    [eapply load_members_what, H | eapply IH, H].
Qed.

(** The message of a failure: a literal of the wrapper, or the
    [what()] of the exception that was caught. *)
Ltac text :=
  first
    [ discriminate
    | match goal with
      | H : _ = Throw _ ?w |- ?w <> "" =>
          first [ what_of H
                | eapply load_elements_what, H
                | destruct never_empty
                    as (Hparse & Hdump & Htime & Hat & Htask & Hpre & Hsch);
                  first [ eapply Hparse, H | eapply Hdump, H
                        | eapply Htime, H | eapply Hat, H
                        | eapply Hpre, H | eapply Hsch, H ] ]
      end ].

Ltac has_text :=
  let H := fresh "H" in
  intros s r v s' msg H Hc Hm; run; text.

Lemma Native_context_create_text cfg out :
  failure_has_text (Native.stars_context_create cfg out).
Proof. unfold Native.stars_context_create. has_text. Qed.

Lemma Native_context_create_from_file_text path out :
  failure_has_text (Native.stars_context_create_from_file path out).
Proof. unfold Native.stars_context_create_from_file. has_text. Qed.

Lemma Native_context_get_execution_period_text h out :
  failure_has_text (Native.stars_context_get_execution_period h out).
Proof. unfold Native.stars_context_get_execution_period. has_text. Qed.

Lemma Native_blocks_load_json_text text out :
  failure_has_text (Native.stars_blocks_load_json text out).
Proof. unfold Native.stars_blocks_load_json. has_text. Qed.

Lemma Native_blocks_load_file_text path out :
  failure_has_text (Native.stars_blocks_load_file path out).
Proof. unfold Native.stars_blocks_load_file. has_text. Qed.

Lemma Native_blocks_to_json_text h out :
  failure_has_text (Native.stars_blocks_to_json h out).
Proof. unfold Native.stars_blocks_to_json. has_text. Qed.

Lemma Native_blocks_count_text h out :
  failure_has_text (Native.stars_blocks_count h out).
Proof. unfold Native.stars_blocks_count. has_text. Qed.

Lemma Native_blocks_get_at_text h index out :
  failure_has_text (Native.stars_blocks_get_at h index out).
Proof. unfold Native.stars_blocks_get_at. has_text. Qed.

Lemma Native_compute_possible_periods_text c b out :
  failure_has_text (Native.stars_compute_possible_periods c b out).
Proof. unfold Native.stars_compute_possible_periods. has_text. Qed.

Lemma Native_possible_periods_to_json_text h out :
  failure_has_text (Native.stars_possible_periods_to_json h out).
Proof. unfold Native.stars_possible_periods_to_json. has_text. Qed.

Lemma Native_run_scheduler_text c b pp params out :
  failure_has_text (Native.stars_run_scheduler c b pp params out).
Proof. unfold Native.stars_run_scheduler. has_text. Qed.

Lemma Native_schedule_to_json_text h out :
  failure_has_text (Native.stars_schedule_to_json h out).
Proof. unfold Native.stars_schedule_to_json. has_text. Qed.

Lemma Native_schedule_get_stats_text h out :
  failure_has_text (Native.stars_schedule_get_stats h out).
Proof. unfold Native.stars_schedule_get_stats. has_text. Qed.

Lemma Native_full_pipeline_text input params out :
  failure_has_text (Native.stars_run_full_pipeline input params out).
Proof.
  intros s r v s' msg. unfold Native.stars_run_full_pipeline.
  destruct input as [txt |]; [destruct out as [| v0] |];
    [ intros; run; discriminate | | intros; run; discriminate ].
  cbv [mbind mret M_bind M_ret].
  destruct (Native.stars_context_create _ _ _) as [[r1 c1] s1] eqn:E1.
  destruct (is_ok r1) eqn:Hok1; cbn [negb];
    [| intros; simplify_eq;
       eapply Native_context_create_text; eassumption ].
  destruct (Native.stars_blocks_load_json _ _ _) as [[r2 c2] s2] eqn:E2.
  destruct (is_ok r2) eqn:Hok2; cbn [negb];
    [| destruct (Native.stars_context_destroy _ _) as [[] ?];
       intros; simplify_eq;
       eapply Native_blocks_load_json_text; eassumption ].
  destruct (Native.stars_compute_possible_periods _ _ _ _)
    as [[r3 c3] s3] eqn:E3.
  destruct (is_ok r3) eqn:Hok3; cbn [negb];
    [| destruct (Native.stars_blocks_destroy _ _) as [[] ?];
       destruct (Native.stars_context_destroy _ _) as [[] ?];
       intros; simplify_eq;
       eapply Native_compute_possible_periods_text; eassumption ].
  destruct (Native.stars_run_scheduler _ _ _ _ _ _) as [[r4 c4] s4] eqn:E4.
  destruct (is_ok r4) eqn:Hok4; cbn [negb];
    [| destruct (Native.stars_possible_periods_destroy _ s4) as [[] ?];
       destruct (Native.stars_blocks_destroy _ _) as [[] ?];
       destruct (Native.stars_context_destroy _ _) as [[] ?];
       intros; simplify_eq;
       eapply Native_run_scheduler_text; eassumption ].
  destruct (Native.stars_schedule_to_json _ _ _) as [[r5 c5] s5] eqn:E5.
  destruct (Native.stars_schedule_destroy _ _) as [[] s6].
  destruct (Native.stars_possible_periods_destroy _ _) as [[] s7].
  destruct (Native.stars_blocks_destroy _ _) as [[] s8].
  destruct (Native.stars_context_destroy _ _) as [[] s9].
  intros; simplify_eq. eapply Native_schedule_to_json_text; eassumption.
Qed.

Lemma Native_pipeline_from_file_text path params out :
  failure_has_text (Native.stars_run_pipeline_from_file path params out).
Proof.
  intros s r v s' msg. unfold Native.stars_run_pipeline_from_file.
  destruct path as [p |]; [destruct out as [| v0] |];
    [ intros; run; discriminate | | intros; run; discriminate ].
  cbv [try_catch lift].
  destruct (read_file p) as [buffer |].
  - destruct (Native.stars_run_full_pipeline _ _ _ _) as [[r0 o0] s0] eqn:E.
    intros; simplify_eq. eapply Native_full_pipeline_text; eassumption.
  - intros; run. discriminate.
Qed.

End Text.

Lemma Demo_what_is_never_empty :
  what_is_never_empty (W := Demo.collaborators).
Proof.
  unfold what_is_never_empty.
  repeat match goal with |- _ /\ _ => split end; simpl; try discriminate.
  - intros text k w. unfold Demo.parse.
    intros H; repeat case_match; simplify_eq; discriminate.
  - intros t k w. unfold Demo.time_of_string.
    intros H; repeat case_match; simplify_eq; discriminate.
  - intros config bs ins p k w. unfold Demo.engine.
    destruct (Demo.place _ _ _ _ _); discriminate.
Qed.

Section EveryOperation.
Context `{W : Collaborators}.

Lemma Native_context_create_mirrors cfg out :
  slot_mirrors_native (Native.stars_context_create cfg out).
Proof. mirror_by Native_context_create_spec. Qed.

Lemma Native_context_create_from_file_mirrors path out :
  slot_mirrors_native (Native.stars_context_create_from_file path out).
Proof. mirror_by Native_context_create_from_file_spec. Qed.

Lemma Native_context_get_execution_period_mirrors h out :
  slot_mirrors_native (Native.stars_context_get_execution_period h out).
Proof. mirror_by Native_context_get_execution_period_spec. Qed.

Lemma Native_blocks_load_json_mirrors text out :
  slot_mirrors_native (Native.stars_blocks_load_json text out).
Proof. mirror_by Native_blocks_load_json_spec. Qed.

Lemma Native_blocks_load_file_mirrors path out :
  slot_mirrors_native (Native.stars_blocks_load_file path out).
Proof. mirror_by Native_blocks_load_file_spec. Qed.

Lemma Native_blocks_to_json_mirrors h out :
  slot_mirrors_native (Native.stars_blocks_to_json h out).
Proof. mirror_by Native_blocks_to_json_spec. Qed.

Lemma Native_blocks_count_mirrors h out :
  slot_mirrors_native (Native.stars_blocks_count h out).
Proof. mirror_by Native_blocks_count_spec. Qed.

Lemma Native_blocks_get_at_mirrors h index out :
  slot_mirrors_native (Native.stars_blocks_get_at h index out).
Proof. mirror_by Native_blocks_get_at_spec. Qed.

Lemma Native_compute_possible_periods_mirrors c b out :
  slot_mirrors_native (Native.stars_compute_possible_periods c b out).
Proof. mirror_by Native_compute_possible_periods_spec. Qed.

Lemma Native_possible_periods_to_json_mirrors h out :
  slot_mirrors_native (Native.stars_possible_periods_to_json h out).
Proof. mirror_by Native_possible_periods_to_json_spec. Qed.

Lemma Native_run_scheduler_mirrors c b pp params out :
  slot_mirrors_native (Native.stars_run_scheduler c b pp params out).
Proof. mirror_by Native_run_scheduler_spec. Qed.

Lemma Native_schedule_to_json_mirrors h out :
  slot_mirrors_native (Native.stars_schedule_to_json h out).
Proof. mirror_by Native_schedule_to_json_spec. Qed.

Lemma Native_schedule_get_stats_mirrors h out :
  slot_mirrors_native (Native.stars_schedule_get_stats h out).
Proof. mirror_by Native_schedule_get_stats_spec. Qed.

Lemma Native_full_pipeline_mirrors input params out :
  slot_mirrors_native (Native.stars_run_full_pipeline input params out).
Proof.
  intros s r v s' H Hc. apply Native_full_pipeline_spec in H.
  apply mirrored_native. apply H, Hc.
Qed.

Lemma Native_pipeline_from_file_mirrors path params out :
  slot_mirrors_native (Native.stars_run_pipeline_from_file path params out).
Proof.
  intros s r v s' H Hc. apply Native_pipeline_from_file_spec in H.
  apply mirrored_native. apply H, Hc.
Qed.

Lemma CoreNative_context_create_mirrors cfg out :
  slot_mirrors_core (CoreNative.stars_context_create cfg out).
Proof. mirror_by CoreNative_context_create_spec. Qed.

Lemma CoreNative_context_create_from_file_mirrors path out :
  slot_mirrors_core (CoreNative.stars_context_create_from_file path out).
Proof. mirror_by CoreNative_context_create_from_file_spec. Qed.

Lemma CoreNative_context_get_execution_period_mirrors h out :
  slot_mirrors_core (CoreNative.stars_context_get_execution_period h out).
Proof. mirror_by CoreNative_context_get_execution_period_spec. Qed.

Lemma CoreNative_blocks_load_json_mirrors text out :
  slot_mirrors_core (CoreNative.stars_blocks_load_json text out).
Proof. mirror_by CoreNative_blocks_load_json_spec. Qed.

Lemma CoreNative_blocks_load_file_mirrors path out :
  slot_mirrors_core (CoreNative.stars_blocks_load_file path out).
Proof. mirror_by CoreNative_blocks_load_file_spec. Qed.

Lemma CoreNative_blocks_to_json_mirrors h out :
  slot_mirrors_core (CoreNative.stars_blocks_to_json h out).
Proof. mirror_by CoreNative_blocks_to_json_spec. Qed.

Lemma CoreNative_blocks_count_mirrors h out :
  slot_mirrors_core (CoreNative.stars_blocks_count h out).
Proof. mirror_by CoreNative_blocks_count_spec. Qed.

Lemma CoreNative_blocks_get_at_mirrors h index out :
  slot_mirrors_core (CoreNative.stars_blocks_get_at h index out).
Proof. mirror_by CoreNative_blocks_get_at_spec. Qed.

Lemma CoreNative_compute_possible_periods_mirrors c b out :
  slot_mirrors_core (CoreNative.stars_compute_possible_periods c b out).
Proof. mirror_by CoreNative_compute_possible_periods_spec. Qed.

Lemma CoreNative_possible_periods_to_json_mirrors h out :
  slot_mirrors_core (CoreNative.stars_possible_periods_to_json h out).
Proof. mirror_by CoreNative_possible_periods_to_json_spec. Qed.

Lemma CoreNative_run_scheduler_mirrors c b pp params out :
  slot_mirrors_core (CoreNative.stars_run_scheduler c b pp params out).
Proof. mirror_by CoreNative_run_scheduler_spec. Qed.

Lemma CoreNative_schedule_to_json_mirrors h out :
  slot_mirrors_core (CoreNative.stars_schedule_to_json h out).
Proof. mirror_by CoreNative_schedule_to_json_spec. Qed.

Lemma CoreNative_schedule_get_stats_mirrors h out :
  slot_mirrors_core (CoreNative.stars_schedule_get_stats h out).
Proof. mirror_by CoreNative_schedule_get_stats_spec. Qed.

Lemma CoreNative_full_pipeline_mirrors input params out :
  slot_mirrors_core (CoreNative.stars_run_full_pipeline input params out).
Proof.
  intros s r v s' H Hc. apply CoreNative_full_pipeline_spec in H.
  destruct H as (_ & _ & H). destruct (H Hc) as (_ & Hm & Hne).
  apply mirrored_core; assumption.
Qed.

Lemma CoreNative_pipeline_from_file_mirrors path params out :
  slot_mirrors_core (CoreNative.stars_run_pipeline_from_file path params out).
Proof.
  intros s r v s' H Hc. apply CoreNative_pipeline_from_file_spec in H.
  destruct H as (_ & _ & H). destruct (H Hc) as (_ & Hm & Hne).
  apply mirrored_core; assumption.
Qed.

End EveryOperation.

Create HintDb mirrors.
#[local] Hint Resolve Native_context_create_mirrors
  Native_context_create_from_file_mirrors
  Native_context_get_execution_period_mirrors
  Native_blocks_load_json_mirrors Native_blocks_load_file_mirrors
  Native_blocks_to_json_mirrors Native_blocks_count_mirrors
  Native_blocks_get_at_mirrors Native_compute_possible_periods_mirrors
  Native_possible_periods_to_json_mirrors Native_run_scheduler_mirrors
  Native_schedule_to_json_mirrors Native_schedule_get_stats_mirrors
  Native_full_pipeline_mirrors Native_pipeline_from_file_mirrors
  CoreNative_context_create_mirrors
  CoreNative_context_create_from_file_mirrors
  CoreNative_context_get_execution_period_mirrors
  CoreNative_blocks_load_json_mirrors CoreNative_blocks_load_file_mirrors
  CoreNative_blocks_to_json_mirrors CoreNative_blocks_count_mirrors
  CoreNative_blocks_get_at_mirrors
  CoreNative_compute_possible_periods_mirrors
  CoreNative_possible_periods_to_json_mirrors
  CoreNative_run_scheduler_mirrors CoreNative_schedule_to_json_mirrors
  CoreNative_schedule_get_stats_mirrors CoreNative_full_pipeline_mirrors
  CoreNative_pipeline_from_file_mirrors Native_context_create_text
  Native_context_create_from_file_text
  Native_context_get_execution_period_text Native_blocks_load_json_text
  Native_blocks_load_file_text Native_blocks_to_json_text
  Native_blocks_count_text Native_blocks_get_at_text
  Native_compute_possible_periods_text Native_possible_periods_to_json_text
  Native_run_scheduler_text Native_schedule_to_json_text
  Native_schedule_get_stats_text Native_full_pipeline_text
  Native_pipeline_from_file_text : mirrors.

(** C7.  Whenever an operation of either wrapper returns a code other
    than [STARS_OK], the result carries a message and the per-thread
    slot holds the same text.  In stars-core-native that message is
    never empty and [stars_get_last_error], called next, returns it.
    In the native wrapper [stars_get_last_error] returns the text of
    the slot, and null when that text is empty.  Every message the
    native wrapper writes itself is a non-empty literal or starts with
    "Cannot open file: "; every other message is the [what()] of an
    exception it caught.  So, when no library behind it throws an
    exception whose [what()] is empty, [stars_get_last_error] returns
    the message of the result after every failure of every native
    operation as well.  After [stars_clear_error],
    [stars_get_last_error] returns null. *)
Theorem C7_failure_message_is_mirrored `{W : Collaborators} :
  ((forall cfg out,
      slot_mirrors_native (Native.stars_context_create cfg out)) /\
   (forall path out,
      slot_mirrors_native (Native.stars_context_create_from_file path out)) /\
   (forall h out,
      slot_mirrors_native
        (Native.stars_context_get_execution_period h out)) /\
   (forall text out,
      slot_mirrors_native (Native.stars_blocks_load_json text out)) /\
   (forall path out,
      slot_mirrors_native (Native.stars_blocks_load_file path out)) /\
   (forall h out, slot_mirrors_native (Native.stars_blocks_to_json h out)) /\
   (forall h out, slot_mirrors_native (Native.stars_blocks_count h out)) /\
   (forall h index out,
      slot_mirrors_native (Native.stars_blocks_get_at h index out)) /\
   (forall c b out,
      slot_mirrors_native (Native.stars_compute_possible_periods c b out)) /\
   (forall h out,
      slot_mirrors_native (Native.stars_possible_periods_to_json h out)) /\
   (forall c b pp params out,
      slot_mirrors_native (Native.stars_run_scheduler c b pp params out)) /\
   (forall h out,
      slot_mirrors_native (Native.stars_schedule_to_json h out)) /\
   (forall h out,
      slot_mirrors_native (Native.stars_schedule_get_stats h out)) /\
   (forall input params out,
      slot_mirrors_native
        (Native.stars_run_full_pipeline input params out)) /\
   (forall path params out,
      slot_mirrors_native
        (Native.stars_run_pipeline_from_file path params out)) /\
   (forall s,
      (Native.stars_get_last_error (Native.stars_clear_error s).2).1 = None)) /\
  (what_is_never_empty ->
   (forall cfg out,
      last_error_is_message_native (Native.stars_context_create cfg out)) /\
   (forall path out,
      last_error_is_message_native
        (Native.stars_context_create_from_file path out)) /\
   (forall h out,
      last_error_is_message_native
        (Native.stars_context_get_execution_period h out)) /\
   (forall text out,
      last_error_is_message_native
        (Native.stars_blocks_load_json text out)) /\
   (forall path out,
      last_error_is_message_native
        (Native.stars_blocks_load_file path out)) /\
   (forall h out,
      last_error_is_message_native (Native.stars_blocks_to_json h out)) /\
   (forall h out,
      last_error_is_message_native (Native.stars_blocks_count h out)) /\
   (forall h index out,
      last_error_is_message_native
        (Native.stars_blocks_get_at h index out)) /\
   (forall c b out,
      last_error_is_message_native
        (Native.stars_compute_possible_periods c b out)) /\
   (forall h out,
      last_error_is_message_native
        (Native.stars_possible_periods_to_json h out)) /\
   (forall c b pp params out,
      last_error_is_message_native
        (Native.stars_run_scheduler c b pp params out)) /\
   (forall h out,
      last_error_is_message_native (Native.stars_schedule_to_json h out)) /\
   (forall h out,
      last_error_is_message_native (Native.stars_schedule_get_stats h out)) /\
   (forall input params out,
      last_error_is_message_native
        (Native.stars_run_full_pipeline input params out)) /\
   (forall path params out,
      last_error_is_message_native
        (Native.stars_run_pipeline_from_file path params out))) /\
  ((forall cfg out,
      slot_mirrors_core (CoreNative.stars_context_create cfg out)) /\
   (forall path out,
      slot_mirrors_core
        (CoreNative.stars_context_create_from_file path out)) /\
   (forall h out,
      slot_mirrors_core
        (CoreNative.stars_context_get_execution_period h out)) /\
   (forall text out,
      slot_mirrors_core (CoreNative.stars_blocks_load_json text out)) /\
   (forall path out,
      slot_mirrors_core (CoreNative.stars_blocks_load_file path out)) /\
   (forall h out,
      slot_mirrors_core (CoreNative.stars_blocks_to_json h out)) /\
   (forall h out, slot_mirrors_core (CoreNative.stars_blocks_count h out)) /\
   (forall h index out,
      slot_mirrors_core (CoreNative.stars_blocks_get_at h index out)) /\
   (forall c b out,
      slot_mirrors_core
        (CoreNative.stars_compute_possible_periods c b out)) /\
   (forall h out,
      slot_mirrors_core (CoreNative.stars_possible_periods_to_json h out)) /\
   (forall c b pp params out,
      slot_mirrors_core (CoreNative.stars_run_scheduler c b pp params out)) /\
   (forall h out,
      slot_mirrors_core (CoreNative.stars_schedule_to_json h out)) /\
   (forall h out,
      slot_mirrors_core (CoreNative.stars_schedule_get_stats h out)) /\
   (forall input params out,
      slot_mirrors_core
        (CoreNative.stars_run_full_pipeline input params out)) /\
   (forall path params out,
      slot_mirrors_core
        (CoreNative.stars_run_pipeline_from_file path params out)) /\
   (forall s,
      (CoreNative.stars_get_last_error (CoreNative.stars_clear_error s).2).1
      = None)).
Proof.
  split; [| split].
  - repeat match goal with |- _ /\ _ => split end; intros;
      first [ reflexivity | solve [auto with mirrors] ].
  - intros never_empty.
    repeat match goal with |- _ /\ _ => split end; intros;
      apply text_is_returned; auto with mirrors.
  - repeat match goal with |- _ /\ _ => split end; intros;
      first [ reflexivity | solve [auto with mirrors] ].
Qed.

Lemma C7_witness :
  let W := Demo.collaborators in
  let call := Native.stars_context_create (Some "{}") (OutCell None)
                Demo.s0 in
  let call' := CoreNative.stars_blocks_load_json (Some "{}") (OutCell None)
                 Demo.s0 in
  what_is_never_empty /\
  (error_message call.1.1 = Some "Missing 'instrument' in config" /\
   (Native.stars_get_last_error call.2).1 = error_message call.1.1) /\
  (error_message call'.1.1
   = Some "Expected array or object with 'schedulingBlocks' key" /\
   (CoreNative.stars_get_last_error call'.2).1 = error_message call'.1.1).
Proof.
  cbv zeta.
  destruct (C7_failure_message_is_mirrored (W := Demo.collaborators))
    as (_ & HA & (_ & _ & _ & HB & _)).
  pose proof Demo_what_is_never_empty as Hne.
  destruct (HA Hne) as (HA' & _).
  split; [exact Hne |].
  split; (split; [vm_compute; reflexivity |]).
  - eapply HA'; [apply triple_eta | vm_compute; discriminate].
  - eapply HB; [apply triple_eta | vm_compute; discriminate].
Defined.

(** * Further properties of the wrappers *)

(** ** The last-error slot after a successful call *)

Section SlotOnSuccess.
Context `{W : Collaborators}.

Ltac slot_by_cases :=
  intros s r v s' H Hc; run;
  repeat match goal with |- _ /\ _ => split end; reflexivity.

Lemma CoreNative_context_create_clears cfg out :
  success_clears_slot (CoreNative.stars_context_create cfg out).
Proof. unfold CoreNative.stars_context_create. slot_by_cases. Qed.

Lemma CoreNative_context_create_from_file_clears path out :
  success_clears_slot (CoreNative.stars_context_create_from_file path out).
Proof. unfold CoreNative.stars_context_create_from_file. slot_by_cases. Qed.

Lemma CoreNative_blocks_load_json_clears text out :
  success_clears_slot (CoreNative.stars_blocks_load_json text out).
Proof. unfold CoreNative.stars_blocks_load_json. slot_by_cases. Qed.

Lemma CoreNative_blocks_load_file_clears path out :
  success_clears_slot (CoreNative.stars_blocks_load_file path out).
Proof. unfold CoreNative.stars_blocks_load_file. slot_by_cases. Qed.

Lemma CoreNative_run_scheduler_clears c b pp params out :
  success_clears_slot (CoreNative.stars_run_scheduler c b pp params out).
Proof. unfold CoreNative.stars_run_scheduler. slot_by_cases. Qed.

Lemma CoreNative_schedule_to_json_clears h out :
  success_clears_slot (CoreNative.stars_schedule_to_json h out).
Proof. unfold CoreNative.stars_schedule_to_json. slot_by_cases. Qed.

Lemma destroy_keeps_slot {T : Type} (h : handle T) s u s' :
  destroy h s = (u, s') -> g_last_error s' = g_last_error s.
Proof.
  destruct h; cbv [destroy delete_ mret M_ret]; intros; simplify_eq;
    reflexivity.
Qed.

Lemma CoreNative_schedule_and_export_clears ctx b params out :
  success_clears_slot (CoreNative.schedule_and_export ctx b params out).
Proof.
  intros s r v s'. unfold CoreNative.schedule_and_export.
  cbv [mbind mret M_bind M_ret].
  destruct (CoreNative.stars_run_scheduler _ _ _ _ _ _) as [[r3 c3] s3].
  destruct (is_ok r3) eqn:Hok; cbn [negb].
  - destruct (CoreNative.stars_schedule_to_json _ _ _)
      as [[r4 c4] s4] eqn:E4.
    intros H Hc.
    unfold CoreNative.stars_schedule_destroy, CoreNative.stars_blocks_destroy,
      CoreNative.stars_context_destroy in H.
    destruct (destroy (cell_value c3) s4) as [[] s5] eqn:E5.
    destruct (destroy b s5) as [[] s6] eqn:E6.
    destruct (destroy ctx s6) as [[] s7] eqn:E7.
    apply destroy_keeps_slot in E5, E6, E7.
    simplify_eq.
    destruct (CoreNative_schedule_to_json_clears _ _ _ _ _ _ E4 Hc)
      as (Hm & Hs & _).
    assert (g_last_error s' = "") as Hs' by congruence.
    split; [exact Hm |]. split; [exact Hs' |].
    unfold CoreNative.stars_get_last_error. rewrite Hs'. reflexivity.
  - intros H Hc. apply is_ok_false in Hok.
    destruct (CoreNative.stars_context_destroy ctx s3) as [[] s5].
    destruct (CoreNative.stars_blocks_destroy b s5) as [[] s6].
    simplify_eq; contradiction.
Qed.

Lemma CoreNative_full_pipeline_clears input params out :
  success_clears_slot (CoreNative.stars_run_full_pipeline input params out).
Proof.
  intros s r v s'. unfold CoreNative.stars_run_full_pipeline.
  destruct input as [txt |]; [destruct out as [| v0] |];
    [ intros; run | | intros; run ].
  cbv [mbind mret M_bind M_ret CoreNative.clear_error_internal].
  destruct (CoreNative.stars_context_create _ _ _) as [[r1 c1] s1].
  destruct (is_ok r1) eqn:Hok1; cbn [negb];
    [| apply is_ok_false in Hok1; intros; simplify_eq; contradiction ].
  destruct (CoreNative.stars_blocks_load_json _ _ _) as [[r2 c2] s2].
  destruct (is_ok r2) eqn:Hok2; cbn [negb].
  - apply CoreNative_schedule_and_export_clears.
  - apply is_ok_false in Hok2.
    destruct (CoreNative.stars_context_destroy _ s2) as [[] s3].
    intros; simplify_eq; contradiction.
Qed.

Lemma CoreNative_pipeline_from_file_clears path params out :
  success_clears_slot
    (CoreNative.stars_run_pipeline_from_file path params out).
Proof.
  intros s r v s'. unfold CoreNative.stars_run_pipeline_from_file.
  destruct path as [p |]; [destruct out as [| v0] |];
    [ intros; run | | intros; run ].
  cbv [mbind mret M_bind M_ret CoreNative.clear_error_internal].
  destruct (CoreNative.stars_context_create_from_file _ _ _)
    as [[r1 c1] s1].
  destruct (is_ok r1) eqn:Hok1; cbn [negb];
    [| apply is_ok_false in Hok1; intros; simplify_eq; contradiction ].
  destruct (CoreNative.stars_blocks_load_file _ _ _) as [[r2 c2] s2].
  destruct (is_ok r2) eqn:Hok2; cbn [negb].
  - apply CoreNative_schedule_and_export_clears.
  - apply is_ok_false in Hok2.
    destruct (CoreNative.stars_context_destroy _ s2) as [[] s3].
    intros; simplify_eq; contradiction.
Qed.

(** *** native *)

Lemma Native_context_create_keeps cfg out :
  success_keeps_slot (Native.stars_context_create cfg out).
Proof. unfold Native.stars_context_create. slot_by_cases. Qed.

Lemma Native_blocks_load_json_keeps text out :
  success_keeps_slot (Native.stars_blocks_load_json text out).
Proof. unfold Native.stars_blocks_load_json. slot_by_cases. Qed.

Lemma Native_compute_possible_periods_keeps c b out :
  success_keeps_slot (Native.stars_compute_possible_periods c b out).
Proof. unfold Native.stars_compute_possible_periods. slot_by_cases. Qed.

Lemma Native_run_scheduler_keeps c b pp params out :
  success_keeps_slot (Native.stars_run_scheduler c b pp params out).
Proof. unfold Native.stars_run_scheduler. slot_by_cases. Qed.

Lemma Native_schedule_to_json_keeps h out :
  success_keeps_slot (Native.stars_schedule_to_json h out).
Proof. unfold Native.stars_schedule_to_json. slot_by_cases. Qed.

Lemma get_last_error_of_slot s s' :
  g_last_error s' = g_last_error s ->
  (Native.stars_get_last_error s').1 = (Native.stars_get_last_error s).1.
Proof. unfold Native.stars_get_last_error. intros ->. reflexivity. Qed.

Lemma Native_full_pipeline_keeps input params out :
  success_keeps_slot (Native.stars_run_full_pipeline input params out).
Proof.
  intros s r v s'. unfold Native.stars_run_full_pipeline.
  destruct input as [txt |]; [destruct out as [| v0] |];
    [ intros; run | | intros; run ].
  cbv [mbind mret M_bind M_ret].
  destruct (Native.stars_context_create _ _ _) as [[r1 c1] s1] eqn:E1.
  destruct (is_ok r1) eqn:Hok1; cbn [negb];
    [| apply is_ok_false in Hok1; intros; simplify_eq; contradiction ].
  apply is_ok_true in Hok1.
  destruct (Native_context_create_keeps _ _ _ _ _ _ E1 Hok1) as (_ & K1 & _).
  destruct (Native.stars_blocks_load_json _ _ _) as [[r2 c2] s2] eqn:E2.
  destruct (is_ok r2) eqn:Hok2; cbn [negb];
    [| apply is_ok_false in Hok2;
       destruct (Native.stars_context_destroy _ s2) as [[] ?];
       intros; simplify_eq; contradiction ].
  apply is_ok_true in Hok2.
  destruct (Native_blocks_load_json_keeps _ _ _ _ _ _ E2 Hok2) as (_ & K2 & _).
  destruct (Native.stars_compute_possible_periods _ _ _ _)
    as [[r3 c3] s3] eqn:E3.
  destruct (is_ok r3) eqn:Hok3; cbn [negb];
    [| apply is_ok_false in Hok3;
       destruct (Native.stars_blocks_destroy _ s3) as [[] ?];
       destruct (Native.stars_context_destroy _ _) as [[] ?];
       intros; simplify_eq; contradiction ].
  apply is_ok_true in Hok3.
  destruct (Native_compute_possible_periods_keeps _ _ _ _ _ _ _ E3 Hok3)
    as (_ & K3 & _).
  destruct (Native.stars_run_scheduler _ _ _ _ _ _) as [[r4 c4] s4] eqn:E4.
  destruct (is_ok r4) eqn:Hok4; cbn [negb];
    [| apply is_ok_false in Hok4;
       destruct (Native.stars_possible_periods_destroy _ s4) as [[] ?];
       destruct (Native.stars_blocks_destroy _ _) as [[] ?];
       destruct (Native.stars_context_destroy _ _) as [[] ?];
       intros; simplify_eq; contradiction ].
  apply is_ok_true in Hok4.
  destruct (Native_run_scheduler_keeps _ _ _ _ _ _ _ _ _ E4 Hok4)
    as (_ & K4 & _).
  destruct (Native.stars_schedule_to_json _ _ _) as [[r5 c5] s5] eqn:E5.
  unfold Native.stars_schedule_destroy, Native.stars_possible_periods_destroy,
    Native.stars_blocks_destroy, Native.stars_context_destroy.
  destruct (destroy (cell_value c4) s5) as [[] s6] eqn:D1.
  destruct (destroy (cell_value c3) s6) as [[] s7] eqn:D2.
  destruct (destroy (cell_value c2) s7) as [[] s8] eqn:D3.
  destruct (destroy (cell_value c1) s8) as [[] s9] eqn:D4.
  apply destroy_keeps_slot in D1, D2, D3, D4.
  intros H Hc. simplify_eq.
  destruct (Native_schedule_to_json_keeps _ _ _ _ _ _ E5 Hc) as (Hm & K5 & _).
  assert (g_last_error s' = g_last_error s) as K by congruence.
  split; [exact Hm |]. split; [exact K |].
  apply get_last_error_of_slot, K.
Qed.

Lemma Native_pipeline_from_file_keeps path params out :
  success_keeps_slot (Native.stars_run_pipeline_from_file path params out).
Proof.
  intros s r v s'. unfold Native.stars_run_pipeline_from_file.
  destruct path as [p |]; [destruct out as [| v0] |];
    [ intros; run | | intros; run ].
  cbv [try_catch lift].
  destruct (read_file p) as [buffer |].
  - destruct (Native.stars_run_full_pipeline _ _ _ _) as [[r0 o0] s0] eqn:E.
    intros; simplify_eq. eapply Native_full_pipeline_keeps; eassumption.
  - intros; run.
Qed.

End SlotOnSuccess.

(** X1.  In stars-core-native every operation starts by clearing the
    last-error slot, so a call that returns [STARS_OK] carries no
    message and leaves the slot empty whatever an earlier call had put
    there: [stars_get_last_error], called next, returns null. *)
Theorem X1_core_success_clears_last_error `{W : Collaborators} :
  (forall cfg out,
     success_clears_slot (CoreNative.stars_context_create cfg out)) /\
  (forall path out,
     success_clears_slot (CoreNative.stars_context_create_from_file path out)) /\
  (forall h out,
     success_clears_slot (CoreNative.stars_context_get_execution_period h out)) /\
  (forall text out,
     success_clears_slot (CoreNative.stars_blocks_load_json text out)) /\
  (forall path out,
     success_clears_slot (CoreNative.stars_blocks_load_file path out)) /\
  (forall h out, success_clears_slot (CoreNative.stars_blocks_to_json h out)) /\
  (forall h out, success_clears_slot (CoreNative.stars_blocks_count h out)) /\
  (forall h index out,
     success_clears_slot (CoreNative.stars_blocks_get_at h index out)) /\
  (forall c b out,
     success_clears_slot (CoreNative.stars_compute_possible_periods c b out)) /\
  (forall h out,
     success_clears_slot (CoreNative.stars_possible_periods_to_json h out)) /\
  (forall c b pp params out,
     success_clears_slot (CoreNative.stars_run_scheduler c b pp params out)) /\
  (forall h out,
     success_clears_slot (CoreNative.stars_schedule_to_json h out)) /\
  (forall h out,
     success_clears_slot (CoreNative.stars_schedule_get_stats h out)) /\
  (forall input params out,
     success_clears_slot
       (CoreNative.stars_run_full_pipeline input params out)) /\
  (forall path params out,
     success_clears_slot
       (CoreNative.stars_run_pipeline_from_file path params out)).
Proof.
  repeat match goal with |- _ /\ _ => split end; intros.
  - apply CoreNative_context_create_clears.
  - apply CoreNative_context_create_from_file_clears.
  - unfold CoreNative.stars_context_get_execution_period.
    intros s r v s' H Hc; run; repeat split.
  - apply CoreNative_blocks_load_json_clears.
  - apply CoreNative_blocks_load_file_clears.
  - unfold CoreNative.stars_blocks_to_json.
    intros s r v s' H Hc; run; repeat split.
  - unfold CoreNative.stars_blocks_count.
    intros s r v s' H Hc; run; repeat split.
  - unfold CoreNative.stars_blocks_get_at.
    intros s r v s' H Hc; run; repeat split.
  - unfold CoreNative.stars_compute_possible_periods.
    intros s r v s' H Hc; run; repeat split.
  - unfold CoreNative.stars_possible_periods_to_json.
    intros s r v s' H Hc; run; repeat split.
  - apply CoreNative_run_scheduler_clears.
  - apply CoreNative_schedule_to_json_clears.
  - unfold CoreNative.stars_schedule_get_stats.
    intros s r v s' H Hc; run; repeat split.
  - apply CoreNative_full_pipeline_clears.
  - apply CoreNative_pipeline_from_file_clears.
Qed.

Lemma X1_witness :
  let W := Demo.collaborators in
  let call := CoreNative.stars_blocks_count (Some two_blocks') (OutCell 0)
                after_failure in
  (CoreNative.stars_get_last_error after_failure).1
  = Some "Index out of bounds" /\
  code call.1.1 = STARS_OK /\
  error_message call.1.1 = None /\
  g_last_error call.2 = "" /\
  (CoreNative.stars_get_last_error call.2).1 = None.
Proof.
  cbv zeta.
  split; [reflexivity |]. split; [reflexivity |].
  destruct (X1_core_success_clears_last_error (W := Demo.collaborators))
    as (_ & _ & _ & _ & _ & _ & H & _).
  eapply H; [apply triple_eta | reflexivity].
Defined.

(** X2.  In the native wrapper a call that returns [STARS_OK] carries
    no message and does not touch the last-error slot: the message of an
    earlier failure stays there, and [stars_get_last_error] keeps
    returning it, until [stars_clear_error] or the next failure. *)
Theorem X2_native_success_keeps_last_error `{W : Collaborators} :
  (forall cfg out,
     success_keeps_slot (Native.stars_context_create cfg out)) /\
  (forall path out,
     success_keeps_slot (Native.stars_context_create_from_file path out)) /\
  (forall h out,
     success_keeps_slot (Native.stars_context_get_execution_period h out)) /\
  (forall text out,
     success_keeps_slot (Native.stars_blocks_load_json text out)) /\
  (forall path out,
     success_keeps_slot (Native.stars_blocks_load_file path out)) /\
  (forall h out, success_keeps_slot (Native.stars_blocks_to_json h out)) /\
  (forall h out, success_keeps_slot (Native.stars_blocks_count h out)) /\
  (forall h index out,
     success_keeps_slot (Native.stars_blocks_get_at h index out)) /\
  (forall c b out,
     success_keeps_slot (Native.stars_compute_possible_periods c b out)) /\
  (forall h out,
     success_keeps_slot (Native.stars_possible_periods_to_json h out)) /\
  (forall c b pp params out,
     success_keeps_slot (Native.stars_run_scheduler c b pp params out)) /\
  (forall h out,
     success_keeps_slot (Native.stars_schedule_to_json h out)) /\
  (forall h out,
     success_keeps_slot (Native.stars_schedule_get_stats h out)) /\
  (forall input params out,
     success_keeps_slot (Native.stars_run_full_pipeline input params out)) /\
  (forall path params out,
     success_keeps_slot
       (Native.stars_run_pipeline_from_file path params out)).
Proof.
  repeat match goal with |- _ /\ _ => split end; intros.
  - apply Native_context_create_keeps.
  - unfold Native.stars_context_create_from_file.
    intros s r v s' H Hc.
    destruct path as [p |]; [destruct out as [| v0] |]; [run | | run].
    cbv [try_catch lift] in H. destruct (read_file p) as [buffer |]; [| run].
    destruct (Native.stars_context_create _ _ _) as [[r0 o0] s0] eqn:E.
    simplify_eq. eapply Native_context_create_keeps; eassumption.
  - unfold Native.stars_context_get_execution_period.
    intros s r v s' H Hc; run; repeat split.
  - apply Native_blocks_load_json_keeps.
  - unfold Native.stars_blocks_load_file.
    intros s r v s' H Hc.
    destruct path as [p |]; [destruct out as [| v0] |]; [run | | run].
    cbv [try_catch lift] in H. destruct (read_file p) as [buffer |]; [| run].
    destruct (Native.stars_blocks_load_json _ _ _) as [[r0 o0] s0] eqn:E.
    simplify_eq. eapply Native_blocks_load_json_keeps; eassumption.
  - unfold Native.stars_blocks_to_json.
    intros s r v s' H Hc; run; repeat split.
  - unfold Native.stars_blocks_count.
    intros s r v s' H Hc; run; repeat split.
  - unfold Native.stars_blocks_get_at.
    intros s r v s' H Hc; run; repeat split.
  - apply Native_compute_possible_periods_keeps.
  - unfold Native.stars_possible_periods_to_json.
    intros s r v s' H Hc; run; repeat split.
  - apply Native_run_scheduler_keeps.
  - apply Native_schedule_to_json_keeps.
  - unfold Native.stars_schedule_get_stats.
    intros s r v s' H Hc; run; repeat split.
  - apply Native_full_pipeline_keeps.
  - apply Native_pipeline_from_file_keeps.
Qed.

Lemma X2_witness :
  let W := Demo.collaborators in
  let call := Native.stars_blocks_count (Some two_blocks) (OutCell 0)
                after_failure in
  code call.1.1 = STARS_OK /\
  error_message call.1.1 = None /\
  g_last_error call.2 = g_last_error after_failure /\
  (Native.stars_get_last_error call.2).1 = Some "Index out of bounds".
Proof.
  cbv zeta.
  split; [reflexivity |].
  destruct (X2_native_success_keeps_last_error (W := Demo.collaborators))
    as (_ & _ & _ & _ & _ & _ & H & _).
  eapply (H (Some two_blocks) (OutCell 0) after_failure);
    [apply triple_eta | reflexivity].
Defined.

(** ** Out-parameters and the heap, operation by operation *)

(** An operation whose body is unfolded: the failure half by running
    the body, the success half by running it again on a cell with
    another content. *)
Ltac written :=
  let H := fresh "H" in
  let Hc := fresh "Hc" in
  intros out s r out' s' H; split; intros Hc;
  [ run; done
  | run; try done;
    (eexists; split; [reflexivity | intros; run; reflexivity]) ].

Section Discipline.
Context `{W : Collaborators}.

Lemma CoreNative_schedule_to_json_writes h :
  writes_only_on_success (CoreNative.stars_schedule_to_json h).
Proof. unfold CoreNative.stars_schedule_to_json. written. Qed.

Lemma Native_schedule_to_json_writes h :
  writes_only_on_success (Native.stars_schedule_to_json h).
Proof. unfold Native.stars_schedule_to_json. written. Qed.

(** What a successful export of a schedule wrote. *)
Lemma CoreNative_schedule_to_json_ok h out s r out' s' :
  CoreNative.stars_schedule_to_json h out s = ((r, out'), s') ->
  code r = STARS_OK ->
  exists p text,
    h = Some p /\
    json_dump (CoreNative.schedule_document (deref p)) = Normal text /\
    out' = store out (Some text) /\ live s' = live s.
Proof.
  unfold CoreNative.stars_schedule_to_json. intros H Hc. run.
  eexists _, _. repeat split; eassumption.
Qed.

Lemma Native_schedule_to_json_ok h out s r out' s' :
  Native.stars_schedule_to_json h out s = ((r, out'), s') ->
  code r = STARS_OK ->
  exists p text,
    h = Some p /\
    json_dump (Native.schedule_document (deref p)) = Normal text /\
    out' = store out (Some text) /\ live s' = live s.
Proof.
  unfold Native.stars_schedule_to_json. intros H Hc. run.
  eexists _, _. repeat split; eassumption.
Qed.

End Discipline.
(** ** A pipeline call that succeeds *)

Section PipelineSuccess.
Context `{W : Collaborators}.

Lemma CoreNative_schedule_and_export_ok ctx b params out s r out' s' :
  CoreNative.schedule_and_export ctx b params out s = ((r, out'), s') ->
  code r = STARS_OK ->
  exists r3 c3 s3 s4,
    CoreNative.stars_run_scheduler ctx b None params (OutCell None) s
    = ((r3, c3), s3) /\
    code r3 = STARS_OK /\
    CoreNative.stars_schedule_to_json (cell_value c3) out s3
    = ((r, out'), s4).
Proof.
  unfold CoreNative.schedule_and_export. cbv [mbind mret M_bind M_ret].
  destruct (CoreNative.stars_run_scheduler _ _ _ _ _ _)
    as [[r3 c3] s3] eqn:E3.
  destruct (is_ok r3) eqn:Hok; cbn [negb].
  - destruct (CoreNative.stars_schedule_to_json _ _ _)
      as [[r4 c4] s4] eqn:E4.
    destruct (CoreNative.stars_schedule_destroy _ _) as [[] s5].
    destruct (CoreNative.stars_blocks_destroy _ _) as [[] s6].
    destruct (CoreNative.stars_context_destroy _ _) as [[] s7].
    intros H Hc. simplify_eq. apply is_ok_true in Hok.
    eexists _, _, _, _.
    split; [reflexivity |]. split; [exact Hok | exact E4].
  - apply is_ok_false in Hok.
    destruct (CoreNative.stars_context_destroy _ _) as [[] s5].
    destruct (CoreNative.stars_blocks_destroy _ _) as [[] s6].
    intros; simplify_eq; contradiction.
Qed.

Lemma CoreNative_full_pipeline_ok input params out s r out' s' :
  CoreNative.stars_run_full_pipeline input params out s = ((r, out'), s') ->
  code r = STARS_OK ->
  exists r1 c1 s1 r2 c2 s2 r3 c3 s3 s4,
    CoreNative.stars_context_create input (OutCell None)
      (mkState "" (live s)) = ((r1, c1), s1) /\
    code r1 = STARS_OK /\
    CoreNative.stars_blocks_load_json input (OutCell None) s1
    = ((r2, c2), s2) /\
    code r2 = STARS_OK /\
    CoreNative.stars_run_scheduler (cell_value c1) (cell_value c2) None
      params (OutCell None) s2 = ((r3, c3), s3) /\
    code r3 = STARS_OK /\
    CoreNative.stars_schedule_to_json (cell_value c3) out s3
    = ((r, out'), s4).
Proof.
  unfold CoreNative.stars_run_full_pipeline.
  destruct input as [txt |]; [destruct out as [| v0] |];
    [ intros; run | | intros; run ].
  cbv [mbind mret M_bind M_ret CoreNative.clear_error_internal].
  destruct (CoreNative.stars_context_create _ _ _) as [[r1 c1] s1] eqn:E1.
  destruct (is_ok r1) eqn:Hok1; cbn [negb];
    [| apply is_ok_false in Hok1; intros; simplify_eq; contradiction ].
  destruct (CoreNative.stars_blocks_load_json _ _ _) as [[r2 c2] s2] eqn:E2.
  destruct (is_ok r2) eqn:Hok2; cbn [negb].
  - intros H Hc.
    destruct (CoreNative_schedule_and_export_ok _ _ _ _ _ _ _ _ H Hc)
      as (r3 & c3 & s3 & s4 & E3 & Hc3 & E4).
    apply is_ok_true in Hok1, Hok2.
    eexists _, _, _, _, _, _, _, _, _, _.
    repeat match goal with |- _ /\ _ => split end;
      try reflexivity; eassumption.
  - apply is_ok_false in Hok2.
    destruct (CoreNative.stars_context_destroy _ s2) as [[] s3].
    intros; simplify_eq; contradiction.
Qed.

Lemma CoreNative_pipeline_from_file_ok path params out s r out' s' :
  CoreNative.stars_run_pipeline_from_file path params out s
  = ((r, out'), s') ->
  code r = STARS_OK ->
  exists r1 c1 s1 r2 c2 s2 r3 c3 s3 s4,
    CoreNative.stars_context_create_from_file path (OutCell None)
      (mkState "" (live s)) = ((r1, c1), s1) /\
    code r1 = STARS_OK /\
    CoreNative.stars_blocks_load_file path (OutCell None) s1
    = ((r2, c2), s2) /\
    code r2 = STARS_OK /\
    CoreNative.stars_run_scheduler (cell_value c1) (cell_value c2) None
      params (OutCell None) s2 = ((r3, c3), s3) /\
    code r3 = STARS_OK /\
    CoreNative.stars_schedule_to_json (cell_value c3) out s3
    = ((r, out'), s4).
Proof.
  unfold CoreNative.stars_run_pipeline_from_file.
  destruct path as [p |]; [destruct out as [| v0] |];
    [ intros; run | | intros; run ].
  cbv [mbind mret M_bind M_ret CoreNative.clear_error_internal].
  destruct (CoreNative.stars_context_create_from_file _ _ _)
    as [[r1 c1] s1] eqn:E1.
  destruct (is_ok r1) eqn:Hok1; cbn [negb];
    [| apply is_ok_false in Hok1; intros; simplify_eq; contradiction ].
  destruct (CoreNative.stars_blocks_load_file _ _ _) as [[r2 c2] s2] eqn:E2.
  destruct (is_ok r2) eqn:Hok2; cbn [negb].
  - intros H Hc.
    destruct (CoreNative_schedule_and_export_ok _ _ _ _ _ _ _ _ H Hc)
      as (r3 & c3 & s3 & s4 & E3 & Hc3 & E4).
    apply is_ok_true in Hok1, Hok2.
    eexists _, _, _, _, _, _, _, _, _, _.
    repeat match goal with |- _ /\ _ => split end;
      try reflexivity; eassumption.
  - apply is_ok_false in Hok2.
    destruct (CoreNative.stars_context_destroy _ s2) as [[] s3].
    intros; simplify_eq; contradiction.
Qed.

Lemma Native_full_pipeline_ok input params out s r out' s' :
  Native.stars_run_full_pipeline input params out s = ((r, out'), s') ->
  code r = STARS_OK ->
  exists r1 c1 s1 r2 c2 s2 r3 c3 s3 r4 c4 s4 s5,
    Native.stars_context_create input (OutCell None) s = ((r1, c1), s1) /\
    code r1 = STARS_OK /\
    Native.stars_blocks_load_json input (OutCell None) s1
    = ((r2, c2), s2) /\
    code r2 = STARS_OK /\
    Native.stars_compute_possible_periods (cell_value c1) (cell_value c2)
      (OutCell None) s2 = ((r3, c3), s3) /\
    code r3 = STARS_OK /\
    Native.stars_run_scheduler (cell_value c1) (cell_value c2)
      (cell_value c3) params (OutCell None) s3 = ((r4, c4), s4) /\
    code r4 = STARS_OK /\
    Native.stars_schedule_to_json (cell_value c4) out s4
    = ((r, out'), s5).
Proof.
  unfold Native.stars_run_full_pipeline.
  destruct input as [txt |]; [destruct out as [| v0] |];
    [ intros; run | | intros; run ].
  cbv [mbind mret M_bind M_ret].
  destruct (Native.stars_context_create _ _ _) as [[r1 c1] s1] eqn:E1.
  destruct (is_ok r1) eqn:Hok1; cbn [negb];
    [| apply is_ok_false in Hok1; intros; simplify_eq; contradiction ].
  destruct (Native.stars_blocks_load_json _ _ _) as [[r2 c2] s2] eqn:E2.
  destruct (is_ok r2) eqn:Hok2; cbn [negb];
    [| apply is_ok_false in Hok2;
       destruct (Native.stars_context_destroy _ s2) as [[] ?];
       intros; simplify_eq; contradiction ].
  destruct (Native.stars_compute_possible_periods _ _ _ _)
    as [[r3 c3] s3] eqn:E3.
  destruct (is_ok r3) eqn:Hok3; cbn [negb];
    [| apply is_ok_false in Hok3;
       destruct (Native.stars_blocks_destroy _ s3) as [[] ?];
       destruct (Native.stars_context_destroy _ _) as [[] ?];
       intros; simplify_eq; contradiction ].
  destruct (Native.stars_run_scheduler _ _ _ _ _ _) as [[r4 c4] s4] eqn:E4.
  destruct (is_ok r4) eqn:Hok4; cbn [negb];
    [| apply is_ok_false in Hok4;
       destruct (Native.stars_possible_periods_destroy _ s4) as [[] ?];
       destruct (Native.stars_blocks_destroy _ _) as [[] ?];
       destruct (Native.stars_context_destroy _ _) as [[] ?];
       intros; simplify_eq; contradiction ].
  destruct (Native.stars_schedule_to_json _ _ _) as [[r5 c5] s5] eqn:E5.
  destruct (Native.stars_schedule_destroy _ _) as [[] s6].
  destruct (Native.stars_possible_periods_destroy _ _) as [[] s7].
  destruct (Native.stars_blocks_destroy _ _) as [[] s8].
  destruct (Native.stars_context_destroy _ _) as [[] s9].
  intros H Hc. simplify_eq.
  apply is_ok_true in Hok1, Hok2, Hok3, Hok4.
  eexists _, _, _, _, _, _, _, _, _, _, _, _, _.
  repeat match goal with |- _ /\ _ => split end;
    try reflexivity; eassumption.
Qed.

(** The pipelines hand the caller's out-pointer to
    [stars_schedule_to_json] only, after every other stage. *)
Lemma CoreNative_schedule_and_export_writes ctx b params :
  writes_only_on_success (CoreNative.schedule_and_export ctx b params).
Proof.
  intros out s r out' s' H. split.
  - intros Hc. apply CoreNative_schedule_and_export_spec in H.
    destruct H as (_ & _ & H). apply H, Hc.
  - intros Hc. revert H. unfold CoreNative.schedule_and_export.
    cbv [mbind mret M_bind M_ret].
    destruct (CoreNative.stars_run_scheduler _ _ _ _ _ _)
      as [[r3 c3] s3] eqn:E3.
    destruct (is_ok r3) eqn:Hok; cbn [negb].
    + destruct (CoreNative.stars_schedule_to_json _ _ _)
        as [[r4 c4] s4] eqn:E4.
      destruct (CoreNative_schedule_to_json_writes _ _ _ _ _ _ E4)
        as [_ Hw].
      intros H.
      assert (r4 = r /\ c4 = out') as [-> ->].
      { revert H.
        destruct (CoreNative.stars_schedule_destroy _ _) as [[] s5].
        destruct (CoreNative.stars_blocks_destroy _ _) as [[] s6].
        destruct (CoreNative.stars_context_destroy _ _) as [[] s7].
        intros; simplify_eq; split; reflexivity. }
      destruct (Hw Hc) as (v & -> & Hb).
      exists v. split; [reflexivity |].
      intros before. rewrite (Hb before). exact H.
    + apply is_ok_false in Hok.
      destruct (CoreNative.stars_context_destroy _ _) as [[] s5].
      destruct (CoreNative.stars_blocks_destroy _ _) as [[] s6].
      intros; simplify_eq; contradiction.
Qed.

Lemma CoreNative_full_pipeline_writes input params :
  writes_only_on_success
    (CoreNative.stars_run_full_pipeline input params).
Proof.
  intros out s r out' s' H. split.
  - intros Hc. apply CoreNative_full_pipeline_spec in H.
    destruct H as (_ & _ & H). apply H, Hc.
  - intros Hc. revert H. unfold CoreNative.stars_run_full_pipeline.
    destruct input as [txt |]; [destruct out as [| v0] |];
      [ intros; run | | intros; run ].
    cbv [mbind mret M_bind M_ret CoreNative.clear_error_internal].
    destruct (CoreNative.stars_context_create _ _ _) as [[r1 c1] s1] eqn:E1.
    destruct (is_ok r1) eqn:Hok1; cbn [negb];
      [| apply is_ok_false in Hok1; intros; simplify_eq; contradiction ].
    destruct (CoreNative.stars_blocks_load_json _ _ _)
      as [[r2 c2] s2] eqn:E2.
    destruct (is_ok r2) eqn:Hok2; cbn [negb].
    + intros H. apply CoreNative_schedule_and_export_writes in H.
      destruct H as [_ H]. exact (H Hc).
    + apply is_ok_false in Hok2.
      destruct (CoreNative.stars_context_destroy _ _) as [[] s3].
      intros; simplify_eq; contradiction.
Qed.

Lemma CoreNative_pipeline_from_file_writes path params :
  writes_only_on_success
    (CoreNative.stars_run_pipeline_from_file path params).
Proof.
  intros out s r out' s' H. split.
  - intros Hc. apply CoreNative_pipeline_from_file_spec in H.
    destruct H as (_ & _ & H). apply H, Hc.
  - intros Hc. revert H. unfold CoreNative.stars_run_pipeline_from_file.
    destruct path as [p |]; [destruct out as [| v0] |];
      [ intros; run | | intros; run ].
    cbv [mbind mret M_bind M_ret CoreNative.clear_error_internal].
    destruct (CoreNative.stars_context_create_from_file _ _ _)
      as [[r1 c1] s1] eqn:E1.
    destruct (is_ok r1) eqn:Hok1; cbn [negb];
      [| apply is_ok_false in Hok1; intros; simplify_eq; contradiction ].
    destruct (CoreNative.stars_blocks_load_file _ _ _)
      as [[r2 c2] s2] eqn:E2.
    destruct (is_ok r2) eqn:Hok2; cbn [negb].
    + intros H. apply CoreNative_schedule_and_export_writes in H.
      destruct H as [_ H]. exact (H Hc).
    + apply is_ok_false in Hok2.
      destruct (CoreNative.stars_context_destroy _ _) as [[] s3].
      intros; simplify_eq; contradiction.
Qed.

Lemma Native_full_pipeline_writes input params :
  writes_only_on_success (Native.stars_run_full_pipeline input params).
Proof.
  intros out s r out' s' H. split.
  - intros Hc. apply Native_full_pipeline_spec in H.
    destruct H as (_ & H). apply H, Hc.
  - intros Hc. revert H. unfold Native.stars_run_full_pipeline.
    destruct input as [txt |]; [destruct out as [| v0] |];
      [ intros; run | | intros; run ].
    cbv [mbind mret M_bind M_ret].
    destruct (Native.stars_context_create _ _ _) as [[r1 c1] s1] eqn:E1.
    destruct (is_ok r1) eqn:Hok1; cbn [negb];
      [| apply is_ok_false in Hok1; intros; simplify_eq; contradiction ].
    destruct (Native.stars_blocks_load_json _ _ _) as [[r2 c2] s2] eqn:E2.
    destruct (is_ok r2) eqn:Hok2; cbn [negb];
      [| apply is_ok_false in Hok2;
         destruct (Native.stars_context_destroy _ _) as [[] ?];
         intros; simplify_eq; contradiction ].
    destruct (Native.stars_compute_possible_periods _ _ _ _)
      as [[r3 c3] s3] eqn:E3.
    destruct (is_ok r3) eqn:Hok3; cbn [negb];
      [| apply is_ok_false in Hok3;
         destruct (Native.stars_blocks_destroy _ _) as [[] ?];
         destruct (Native.stars_context_destroy _ _) as [[] ?];
         intros; simplify_eq; contradiction ].
    destruct (Native.stars_run_scheduler _ _ _ _ _ _)
      as [[r4 c4] s4] eqn:E4.
    destruct (is_ok r4) eqn:Hok4; cbn [negb];
      [| apply is_ok_false in Hok4;
         destruct (Native.stars_possible_periods_destroy _ s4) as [[] ?];
         destruct (Native.stars_blocks_destroy _ _) as [[] ?];
         destruct (Native.stars_context_destroy _ _) as [[] ?];
         intros; simplify_eq; contradiction ].
    destruct (Native.stars_schedule_to_json _ _ _) as [[r5 c5] s5] eqn:E5.
    destruct (Native_schedule_to_json_writes _ _ _ _ _ _ E5) as [_ Hw].
    intros H.
    assert (r5 = r /\ c5 = out') as [-> ->].
    { revert H.
      destruct (Native.stars_schedule_destroy _ _) as [[] s6].
      destruct (Native.stars_possible_periods_destroy _ _) as [[] s7].
      destruct (Native.stars_blocks_destroy _ _) as [[] s8].
      destruct (Native.stars_context_destroy _ _) as [[] s9].
      intros; simplify_eq; split; reflexivity. }
    destruct (Hw Hc) as (v & -> & Hb).
    exists v. split; [reflexivity |].
    intros before. rewrite (Hb before). exact H.
Qed.

Lemma Native_pipeline_from_file_writes path params :
  writes_only_on_success (Native.stars_run_pipeline_from_file path params).
Proof.
  intros out s r out' s'. unfold Native.stars_run_pipeline_from_file.
  destruct path as [p |]; [destruct out as [| v0] |];
    [ intros; run; split; intros; done | | intros; run; split; intros; done ].
  cbv [try_catch lift].
  destruct (read_file p) as [buffer |].
  - destruct (Native.stars_run_full_pipeline _ _ _ _) as [[r0 o0] s0] eqn:E.
    intros; simplify_eq.
    destruct (Native_full_pipeline_writes _ _ _ _ _ _ _ E) as [Hf Hw].
    split; [exact Hf |]. intros Hc.
    destruct (Hw Hc) as (v & -> & Hb).
    exists v. split; [reflexivity |].
    intros before. rewrite (Hb before). reflexivity.
  - intros; run. split; intros; done.
Qed.

End PipelineSuccess.
(** X3.  Every operation of either wrapper writes through its
    out-pointer exactly when it returns [STARS_OK].  After a failure
    the caller's cell holds what it held before the call.  After a
    success the cell holds the value the operation produced, whatever
    it held before: the same call on a cell with any other content
    returns the same result, leaves the same state and leaves the same
    value in the cell. *)
Theorem X3_out_parameter_written_only_on_success `{W : Collaborators} :
  ((forall cfg, writes_only_on_success (Native.stars_context_create cfg)) /\
   (forall path,
      writes_only_on_success (Native.stars_context_create_from_file path)) /\
   (forall h,
      writes_only_on_success (Native.stars_context_get_execution_period h)) /\
   (forall text, writes_only_on_success (Native.stars_blocks_load_json text)) /\
   (forall path, writes_only_on_success (Native.stars_blocks_load_file path)) /\
   (forall h, writes_only_on_success (Native.stars_blocks_to_json h)) /\
   (forall h, writes_only_on_success (Native.stars_blocks_count h)) /\
   (forall h index,
      writes_only_on_success (Native.stars_blocks_get_at h index)) /\
   (forall c b,
      writes_only_on_success (Native.stars_compute_possible_periods c b)) /\
   (forall h,
      writes_only_on_success (Native.stars_possible_periods_to_json h)) /\
   (forall c b pp params,
      writes_only_on_success (Native.stars_run_scheduler c b pp params)) /\
   (forall h, writes_only_on_success (Native.stars_schedule_to_json h)) /\
   (forall h, writes_only_on_success (Native.stars_schedule_get_stats h)) /\
   (forall input params,
      writes_only_on_success (Native.stars_run_full_pipeline input params)) /\
   (forall path params,
      writes_only_on_success
        (Native.stars_run_pipeline_from_file path params))) /\
  ((forall cfg, writes_only_on_success (CoreNative.stars_context_create cfg)) /\
   (forall path,
      writes_only_on_success
        (CoreNative.stars_context_create_from_file path)) /\
   (forall h,
      writes_only_on_success
        (CoreNative.stars_context_get_execution_period h)) /\
   (forall text,
      writes_only_on_success (CoreNative.stars_blocks_load_json text)) /\
   (forall path,
      writes_only_on_success (CoreNative.stars_blocks_load_file path)) /\
   (forall h, writes_only_on_success (CoreNative.stars_blocks_to_json h)) /\
   (forall h, writes_only_on_success (CoreNative.stars_blocks_count h)) /\
   (forall h index,
      writes_only_on_success (CoreNative.stars_blocks_get_at h index)) /\
   (forall c b,
      writes_only_on_success
        (CoreNative.stars_compute_possible_periods c b)) /\
   (forall h,
      writes_only_on_success (CoreNative.stars_possible_periods_to_json h)) /\
   (forall c b pp params,
      writes_only_on_success (CoreNative.stars_run_scheduler c b pp params)) /\
   (forall h, writes_only_on_success (CoreNative.stars_schedule_to_json h)) /\
   (forall h, writes_only_on_success (CoreNative.stars_schedule_get_stats h)) /\
   (forall input params,
      writes_only_on_success
        (CoreNative.stars_run_full_pipeline input params)) /\
   (forall path params,
      writes_only_on_success
        (CoreNative.stars_run_pipeline_from_file path params))).
Proof.
  split; repeat match goal with |- _ /\ _ => split end; intros;
    try apply Native_full_pipeline_writes;
    try apply Native_pipeline_from_file_writes;
    try apply CoreNative_full_pipeline_writes;
    try apply CoreNative_pipeline_from_file_writes;
    try apply Native_schedule_to_json_writes;
    try apply CoreNative_schedule_to_json_writes.
  - unfold Native.stars_context_create. written.
  - unfold Native.stars_context_create_from_file. written.
  - unfold Native.stars_context_get_execution_period. written.
  - unfold Native.stars_blocks_load_json. written.
  - unfold Native.stars_blocks_load_file. written.
  - unfold Native.stars_blocks_to_json. written.
  - unfold Native.stars_blocks_count. written.
  - unfold Native.stars_blocks_get_at. written.
  - unfold Native.stars_compute_possible_periods. written.
  - unfold Native.stars_possible_periods_to_json. written.
  - unfold Native.stars_run_scheduler. written.
  - unfold Native.stars_schedule_get_stats. written.
  - unfold CoreNative.stars_context_create. written.
  - unfold CoreNative.stars_context_create_from_file. written.
  - unfold CoreNative.stars_context_get_execution_period. written.
  - unfold CoreNative.stars_blocks_load_json. written.
  - unfold CoreNative.stars_blocks_load_file. written.
  - unfold CoreNative.stars_blocks_to_json. written.
  - unfold CoreNative.stars_blocks_count. written.
  - unfold CoreNative.stars_blocks_get_at. written.
  - unfold CoreNative.stars_compute_possible_periods. written.
  - unfold CoreNative.stars_possible_periods_to_json. written.
  - unfold CoreNative.stars_run_scheduler. written.
  - unfold CoreNative.stars_schedule_get_stats. written.
Qed.

Lemma X3_witness :
  let W := Demo.collaborators in
  let failing := Native.stars_blocks_get_at (Some two_blocks) 2%N
                   (OutCell (Some "kept")) Demo.s0 in
  let passing := CoreNative.stars_blocks_count (Some two_blocks')
                   (OutCell 7) Demo.s0 in
  (code failing.1.1 <> STARS_OK /\ failing.1.2 = OutCell (Some "kept")) /\
  (code passing.1.1 = STARS_OK /\
   exists v, passing.1.2 = OutCell v /\
     forall before,
       CoreNative.stars_blocks_count (Some two_blocks') (OutCell before)
         Demo.s0 = ((passing.1.1, OutCell v), passing.2)).
Proof.
  cbv zeta.
  destruct (X3_out_parameter_written_only_on_success
              (W := Demo.collaborators))
    as ((_ & _ & _ & _ & _ & _ & _ & Hn & _)
        & (_ & _ & _ & _ & _ & _ & Hc & _)).
  split.
  - match goal with
    | |- ?A /\ _ => assert A as Hf by (vm_compute; discriminate)
    end.
    split; [exact Hf |].
    eapply (Hn (Some two_blocks) 2%N (OutCell (Some "kept")) Demo.s0);
      [apply triple_eta | exact Hf].
  - split; [reflexivity |].
    eapply (Hc (Some two_blocks') (OutCell 7) Demo.s0);
      [apply triple_eta | reflexivity].
Defined.

Section HeapDiscipline.
Context `{W : Collaborators}.

Lemma allocates_of_created {T : Type} (out : outparam (handle T))
    s r out' s' :
  created s r out' s' \/ failed_clean out s r out' s' ->
  (code r = STARS_OK ->
   live s' = {[fresh (live s)]} ∪ live s /\
   exists x, out' = OutCell (Some (Ptr (fresh (live s)) x))) /\
  (code r <> STARS_OK -> live s' = live s).
Proof.
  intros [(Hc & _ & HL & Hx) | (Hc & _ & HL & _)]; split; intros; try done.
Qed.

Lemma neutral_of_exported {V : Type} (m : M (StarsResult * outparam V))
    (out : outparam V) :
  (forall s r out' s', m s = ((r, out'), s') ->
     exported s r out' s' \/ failed_clean out s r out' s') ->
  heap_neutral m.
Proof.
  intros H s. destruct (H s _ _ _ (triple_eta (m s)))
    as [(_ & _ & HL & _) | (_ & _ & HL & _)]; exact HL.
Qed.

End HeapDiscipline.

(** X4.  stars-core-native never leaks and never frees behind the
    caller's back.  A creating operation allocates exactly one object,
    at a fresh address and behind the handle it writes, when it returns
    [STARS_OK], and leaves the set of live objects unchanged when it
    fails; the exporting and counting operations and both pipeline
    functions leave that set unchanged whatever they return. *)
Theorem X4_core_heap_discipline `{W : Collaborators} :
  ((forall cfg out,
      allocates_on_success_only (CoreNative.stars_context_create cfg out)) /\
   (forall path out,
      allocates_on_success_only
        (CoreNative.stars_context_create_from_file path out)) /\
   (forall text out,
      allocates_on_success_only (CoreNative.stars_blocks_load_json text out)) /\
   (forall path out,
      allocates_on_success_only (CoreNative.stars_blocks_load_file path out)) /\
   (forall c b out,
      allocates_on_success_only
        (CoreNative.stars_compute_possible_periods c b out)) /\
   (forall c b pp params out,
      allocates_on_success_only
        (CoreNative.stars_run_scheduler c b pp params out))) /\
  ((forall h out,
      heap_neutral (CoreNative.stars_context_get_execution_period h out)) /\
   (forall h out, heap_neutral (CoreNative.stars_blocks_to_json h out)) /\
   (forall h out, heap_neutral (CoreNative.stars_blocks_count h out)) /\
   (forall h index out,
      heap_neutral (CoreNative.stars_blocks_get_at h index out)) /\
   (forall h out,
      heap_neutral (CoreNative.stars_possible_periods_to_json h out)) /\
   (forall h out, heap_neutral (CoreNative.stars_schedule_to_json h out)) /\
   (forall h out, heap_neutral (CoreNative.stars_schedule_get_stats h out)) /\
   (forall input params out,
      heap_neutral (CoreNative.stars_run_full_pipeline input params out)) /\
   (forall path params out,
      heap_neutral
        (CoreNative.stars_run_pipeline_from_file path params out))).
Proof.
  split; repeat match goal with |- _ /\ _ => split end; intros.
  - intros s r out' s' H. apply CoreNative_context_create_spec in H.
    eapply allocates_of_created, H.
  - intros s r out' s' H.
    apply CoreNative_context_create_from_file_spec in H.
    eapply allocates_of_created, H.
  - intros s r out' s' H. apply CoreNative_blocks_load_json_spec in H.
    eapply allocates_of_created, H.
  - intros s r out' s' H. apply CoreNative_blocks_load_file_spec in H.
    eapply allocates_of_created, H.
  - intros s r out' s' H.
    apply CoreNative_compute_possible_periods_spec in H.
    eapply allocates_of_created, H.
  - intros s r out' s' H. apply CoreNative_run_scheduler_spec in H.
    eapply allocates_of_created, H.
  - eapply neutral_of_exported.
    apply CoreNative_context_get_execution_period_spec.
  - eapply neutral_of_exported. apply CoreNative_blocks_to_json_spec.
  - eapply neutral_of_exported. apply CoreNative_blocks_count_spec.
  - eapply neutral_of_exported. apply CoreNative_blocks_get_at_spec.
  - eapply neutral_of_exported.
    apply CoreNative_possible_periods_to_json_spec.
  - eapply neutral_of_exported. apply CoreNative_schedule_to_json_spec.
  - eapply neutral_of_exported. apply CoreNative_schedule_get_stats_spec.
  - intros s.
    apply (CoreNative_full_pipeline_spec input params out s _ _ _
             (triple_eta _)).
  - intros s.
    apply (CoreNative_pipeline_from_file_spec path params out s _ _ _
             (triple_eta _)).
Qed.

Lemma X4_witness :
  let W := Demo.collaborators in
  let failing := CoreNative.stars_context_create (Some not_json)
                   (OutCell None) s2 in
  let passing := CoreNative.stars_context_create (Some "{}")
                   (OutCell None) s2 in
  (code failing.1.1 <> STARS_OK /\ live failing.2 = live s2) /\
  (code passing.1.1 = STARS_OK /\
   live passing.2 = {[fresh (live s2)]} ∪ live s2).
Proof.
  cbv zeta.
  destruct (X4_core_heap_discipline (W := Demo.collaborators))
    as ((H & _) & _).
  split.
  - match goal with
    | |- ?A /\ _ => assert A as Hf by (vm_compute; discriminate)
    end.
    split; [exact Hf |].
    eapply (H (Some not_json) (OutCell None) s2);
      [apply triple_eta | exact Hf].
  - match goal with
    | |- ?A /\ _ => assert A as Hp by (vm_compute; reflexivity)
    end.
    split; [exact Hp |].
    eapply (H (Some "{}") (OutCell None) s2);
      [apply triple_eta | exact Hp].
Defined.

Section NativeHeap.
Context `{W : Collaborators}.

Ltac neutral_by_cases :=
  intros s; match goal with |- live (?m s).2 = _ => destruct (m s) as [[r o] s'] eqn:H end;
  run; reflexivity.

Lemma Native_context_get_execution_period_neutral h out :
  heap_neutral (Native.stars_context_get_execution_period h out).
Proof.
  unfold Native.stars_context_get_execution_period. neutral_by_cases.
Qed.

Lemma Native_blocks_to_json_neutral h out :
  heap_neutral (Native.stars_blocks_to_json h out).
Proof. unfold Native.stars_blocks_to_json. neutral_by_cases. Qed.

Lemma Native_blocks_count_neutral h out :
  heap_neutral (Native.stars_blocks_count h out).
Proof. unfold Native.stars_blocks_count. neutral_by_cases. Qed.

Lemma Native_blocks_get_at_neutral h index out :
  heap_neutral (Native.stars_blocks_get_at h index out).
Proof. unfold Native.stars_blocks_get_at. neutral_by_cases. Qed.

Lemma Native_possible_periods_to_json_neutral h out :
  heap_neutral (Native.stars_possible_periods_to_json h out).
Proof. unfold Native.stars_possible_periods_to_json. neutral_by_cases. Qed.

Lemma Native_schedule_to_json_neutral h out :
  heap_neutral (Native.stars_schedule_to_json h out).
Proof. unfold Native.stars_schedule_to_json. neutral_by_cases. Qed.

Lemma Native_schedule_get_stats_neutral h out :
  heap_neutral (Native.stars_schedule_get_stats h out).
Proof. unfold Native.stars_schedule_get_stats. neutral_by_cases. Qed.

Lemma Native_compute_possible_periods_allocates c b out :
  allocates_on_success_only (Native.stars_compute_possible_periods c b out).
Proof.
  unfold Native.stars_compute_possible_periods.
  intros s r out' s' H; run; split; intros; try done.
  split; [reflexivity | eexists; reflexivity].
Qed.

Lemma Native_run_scheduler_allocates c b pp params out :
  allocates_on_success_only (Native.stars_run_scheduler c b pp params out).
Proof.
  unfold Native.stars_run_scheduler.
  intros s r out' s' H; run; split; intros; try done;
    (split; [reflexivity | eexists; reflexivity]).
Qed.

End NativeHeap.

(** X5.  In the native wrapper the exporting and counting operations
    leave the set of live objects unchanged whatever they return, and
    [stars_compute_possible_periods] and [stars_run_scheduler], which
    allocate their result only after the engine has returned, allocate
    exactly one object when they return [STARS_OK] and none when they
    fail. *)
Theorem X5_native_heap_discipline `{W : Collaborators} :
  ((forall c b out,
      allocates_on_success_only
        (Native.stars_compute_possible_periods c b out)) /\
   (forall c b pp params out,
      allocates_on_success_only
        (Native.stars_run_scheduler c b pp params out))) /\
  ((forall h out,
      heap_neutral (Native.stars_context_get_execution_period h out)) /\
   (forall h out, heap_neutral (Native.stars_blocks_to_json h out)) /\
   (forall h out, heap_neutral (Native.stars_blocks_count h out)) /\
   (forall h index out,
      heap_neutral (Native.stars_blocks_get_at h index out)) /\
   (forall h out,
      heap_neutral (Native.stars_possible_periods_to_json h out)) /\
   (forall h out, heap_neutral (Native.stars_schedule_to_json h out)) /\
   (forall h out, heap_neutral (Native.stars_schedule_get_stats h out))).
Proof.
  split; repeat match goal with |- _ /\ _ => split end; intros.
  - apply Native_compute_possible_periods_allocates.
  - apply Native_run_scheduler_allocates.
  - apply Native_context_get_execution_period_neutral.
  - apply Native_blocks_to_json_neutral.
  - apply Native_blocks_count_neutral.
  - apply Native_blocks_get_at_neutral.
  - apply Native_possible_periods_to_json_neutral.
  - apply Native_schedule_to_json_neutral.
  - apply Native_schedule_get_stats_neutral.
Qed.

Lemma X5_witness :
  let W := Demo.collaborators in
  let call := Native.stars_run_scheduler (Some hour_context)
                (Some two_blocks) None
                Native.stars_scheduling_params_default (OutCell None) s2 in
  code call.1.1 = STARS_OK /\
  live call.2 = {[fresh (live s2)]} ∪ live s2.
Proof.
  cbv zeta.
  destruct (X5_native_heap_discipline (W := Demo.collaborators))
    as ((_ & H) & _).
  match goal with
  | |- ?A /\ _ => assert A as Hp by (vm_compute; reflexivity)
  end.
  split; [exact Hp |].
  eapply (H (Some hour_context) (Some two_blocks) None
            Native.stars_scheduling_params_default (OutCell None) s2);
    [apply triple_eta | exact Hp].
Defined.

(** X6.  Malformed text.  When [nlohmann::json::parse] throws a
    [parse_error] on the text,
    - the native [stars_context_create] and [stars_blocks_load_json]
      return [STARS_ERROR_INVALID_JSON] with the parser's message and
      write no handle, but the object they had allocated before parsing
      stays allocated: their handlers do not delete it; and so does
      [stars_run_full_pipeline], which fails in its first stage;
    - the stars-core-native functions, which parse before they
      allocate, return [STARS_ERROR_INVALID_JSON] with the message
      prefixed by "JSON parse error: " and leave nothing allocated. *)
Theorem X6_malformed_text `{W : Collaborators} cfg what :
  json_parse cfg = Throw parse_error what ->
  (forall v s,
     Native.stars_context_create (Some cfg) (OutCell v) s
     = ((mkResult STARS_ERROR_INVALID_JSON (Some what), OutCell v),
        mkState what ({[fresh (live s)]} ∪ live s))) /\
  (forall v s,
     Native.stars_blocks_load_json (Some cfg) (OutCell v) s
     = ((mkResult STARS_ERROR_INVALID_JSON (Some what), OutCell v),
        mkState what ({[fresh (live s)]} ∪ live s))) /\
  (forall params v s,
     Native.stars_run_full_pipeline (Some cfg) params (OutCell v) s
     = ((mkResult STARS_ERROR_INVALID_JSON (Some what), OutCell v),
        mkState what ({[fresh (live s)]} ∪ live s))) /\
  (forall v s,
     CoreNative.stars_context_create (Some cfg) (OutCell v) s
     = ((mkResult STARS_ERROR_INVALID_JSON
           (Some ("JSON parse error: " ++ what)), OutCell v),
        mkState ("JSON parse error: " ++ what) (live s))) /\
  (forall v s,
     CoreNative.stars_blocks_load_json (Some cfg) (OutCell v) s
     = ((mkResult STARS_ERROR_INVALID_JSON
           (Some ("JSON parse error: " ++ what)), OutCell v),
        mkState ("JSON parse error: " ++ what) (live s))) /\
  (forall params v s,
     CoreNative.stars_run_full_pipeline (Some cfg) params (OutCell v) s
     = ((mkResult STARS_ERROR_INVALID_JSON
           (Some ("JSON parse error: " ++ what)), OutCell v),
        mkState ("JSON parse error: " ++ what) (live s))).
Proof.
  intros Hp.
  assert (forall v s,
            Native.stars_context_create (Some cfg) (OutCell v) s
            = ((mkResult STARS_ERROR_INVALID_JSON (Some what), OutCell v),
               mkState what ({[fresh (live s)]} ∪ live s))) as HN.
  { intros. unfold Native.stars_context_create.
    cbv [try_catch mbind M_bind MX_bind call lift new_]. rewrite Hp.
    reflexivity. }
  assert (forall v s,
            CoreNative.stars_context_create (Some cfg) (OutCell v) s
            = ((mkResult STARS_ERROR_INVALID_JSON
                  (Some ("JSON parse error: " ++ what)), OutCell v),
               mkState ("JSON parse error: " ++ what) (live s))) as HC.
  { intros. unfold CoreNative.stars_context_create.
    cbv [try_catch mbind M_bind MX_bind call lift
         CoreNative.clear_error_internal]. rewrite Hp.
    reflexivity. }
  repeat match goal with |- _ /\ _ => split end; intros.
  - apply HN.
  - unfold Native.stars_blocks_load_json.
    cbv [try_catch mbind M_bind MX_bind call lift new_]. rewrite Hp.
    reflexivity.
  - unfold Native.stars_run_full_pipeline.
    cbv [mbind M_bind mret M_ret]. rewrite HN. reflexivity.
  - apply HC.
  - unfold CoreNative.stars_blocks_load_json.
    cbv [try_catch mbind M_bind MX_bind call lift
         CoreNative.clear_error_internal]. rewrite Hp.
    reflexivity.
  - unfold CoreNative.stars_run_full_pipeline.
    cbv [mbind M_bind mret M_ret CoreNative.clear_error_internal].
    cbn [live]. rewrite HC. reflexivity.
Qed.

Lemma X6_witness :
  let W := Demo.collaborators in
  let what := "[json.exception.parse_error.101] syntax error" in
  json_parse not_json = Throw parse_error what /\
  (Native.stars_run_full_pipeline (Some not_json)
     Native.stars_scheduling_params_default (OutCell None) Demo.s0
   = ((mkResult STARS_ERROR_INVALID_JSON (Some what), OutCell None),
      mkState what ({[fresh (live Demo.s0)]} ∪ live Demo.s0))) /\
  (CoreNative.stars_run_full_pipeline (Some not_json)
     CoreNative.stars_scheduling_params_default (OutCell None) Demo.s0
   = ((mkResult STARS_ERROR_INVALID_JSON
         (Some ("JSON parse error: " ++ what)), OutCell None),
      mkState ("JSON parse error: " ++ what) (live Demo.s0))).
Proof.
  cbv zeta.
  assert (@json_parse Demo.collaborators not_json
          = Throw parse_error "[json.exception.parse_error.101] syntax error")
    as Hp by (vm_compute; reflexivity).
  destruct (X6_malformed_text (W := Demo.collaborators) not_json _ Hp)
    as (_ & _ & HN & _ & _ & HC).
  split; [exact Hp |]. split; [apply HN | apply HC].
Defined.

Section RoundTripOfHandles.
Context `{W : Collaborators}.

Lemma released_of_created {T : Type} (out : outparam (handle T))
    (create : M (StarsResult * outparam (handle T))) :
  (forall s r out' s', create s = ((r, out'), s') ->
     created s r out' s' \/ code r <> STARS_OK) ->
  released_by create destroy.
Proof.
  intros Hspec s r out' s' H Hc.
  destruct (Hspec _ _ _ _ H) as [(_ & _ & HL & x & ->) | Hn];
    [| contradiction].
  cbv [destroy delete_ cell_value]. simpl. rewrite HL.
  apply fresh_union_difference.
Qed.

End RoundTripOfHandles.

(** X7.  Creation and destruction are inverse on the heap.  When a
    creating operation of either wrapper returns [STARS_OK], calling
    the matching [..._destroy] on the handle it wrote gives back exactly
    the set of live objects from before the creation; and destroying a
    null handle changes nothing. *)
Theorem X7_destroy_releases_what_create_allocated `{W : Collaborators} :
  ((forall cfg v,
      released_by (Native.stars_context_create cfg (OutCell v))
        Native.stars_context_destroy) /\
   (forall path v,
      released_by (Native.stars_context_create_from_file path (OutCell v))
        Native.stars_context_destroy) /\
   (forall text v,
      released_by (Native.stars_blocks_load_json text (OutCell v))
        Native.stars_blocks_destroy) /\
   (forall path v,
      released_by (Native.stars_blocks_load_file path (OutCell v))
        Native.stars_blocks_destroy) /\
   (forall c b v,
      released_by (Native.stars_compute_possible_periods c b (OutCell v))
        Native.stars_possible_periods_destroy) /\
   (forall c b pp params v,
      released_by (Native.stars_run_scheduler c b pp params (OutCell v))
        Native.stars_schedule_destroy) /\
   (forall s,
      Native.stars_context_destroy None s = (tt, s) /\
      Native.stars_blocks_destroy None s = (tt, s) /\
      Native.stars_possible_periods_destroy None s = (tt, s) /\
      Native.stars_schedule_destroy None s = (tt, s))) /\
  ((forall cfg v,
      released_by (CoreNative.stars_context_create cfg (OutCell v))
        CoreNative.stars_context_destroy) /\
   (forall path v,
      released_by (CoreNative.stars_context_create_from_file path (OutCell v))
        CoreNative.stars_context_destroy) /\
   (forall text v,
      released_by (CoreNative.stars_blocks_load_json text (OutCell v))
        CoreNative.stars_blocks_destroy) /\
   (forall path v,
      released_by (CoreNative.stars_blocks_load_file path (OutCell v))
        CoreNative.stars_blocks_destroy) /\
   (forall c b v,
      released_by (CoreNative.stars_compute_possible_periods c b (OutCell v))
        CoreNative.stars_possible_periods_destroy) /\
   (forall c b pp params v,
      released_by (CoreNative.stars_run_scheduler c b pp params (OutCell v))
        CoreNative.stars_schedule_destroy) /\
   (forall s,
      CoreNative.stars_context_destroy None s = (tt, s) /\
      CoreNative.stars_blocks_destroy None s = (tt, s) /\
      CoreNative.stars_possible_periods_destroy None s = (tt, s) /\
      CoreNative.stars_schedule_destroy None s = (tt, s))).
Proof.
  split; repeat match goal with |- _ /\ _ => split end; intros;
    repeat match goal with |- _ /\ _ => split end;
    try reflexivity;
    (eapply released_of_created; [exact (OutCell v) |]);
    intros s r out' s' H.
  - apply Native_context_create_spec in H.
    destruct H as [H | (H & _)]; auto.
  - apply Native_context_create_from_file_spec in H.
    destruct H as [H | (H & _)]; auto.
  - apply Native_blocks_load_json_spec in H.
    destruct H as [H | (H & _)]; auto.
  - apply Native_blocks_load_file_spec in H.
    destruct H as [H | (H & _)]; auto.
  - apply Native_compute_possible_periods_spec in H.
    destruct H as [H | (H & _)]; auto.
  - apply Native_run_scheduler_spec in H.
    destruct H as [H | (H & _)]; auto.
  - apply CoreNative_context_create_spec in H.
    destruct H as [H | (H & _)]; auto.
  - apply CoreNative_context_create_from_file_spec in H.
    destruct H as [H | (H & _)]; auto.
  - apply CoreNative_blocks_load_json_spec in H.
    destruct H as [H | (H & _)]; auto.
  - apply CoreNative_blocks_load_file_spec in H.
    destruct H as [H | (H & _)]; auto.
  - apply CoreNative_compute_possible_periods_spec in H.
    destruct H as [H | (H & _)]; auto.
  - apply CoreNative_run_scheduler_spec in H.
    destruct H as [H | (H & _)]; auto.
Qed.

Lemma X7_witness :
  let W := Demo.collaborators in
  let call := Native.stars_compute_possible_periods (Some hour_context)
                (Some two_blocks) (OutCell None) s2 in
  code call.1.1 = STARS_OK /\
  live (Native.stars_possible_periods_destroy (cell_value call.1.2)
          call.2).2 = live s2.
Proof.
  cbv zeta.
  destruct (X7_destroy_releases_what_create_allocated
              (W := Demo.collaborators))
    as ((_ & _ & _ & _ & H & _) & _).
  match goal with
  | |- ?A /\ _ => assert A as Hp by (vm_compute; reflexivity)
  end.
  split; [exact Hp |].
  eapply (H (Some hour_context) (Some two_blocks) None s2);
    [apply triple_eta | exact Hp].
Defined.

(** ** What [stars_run_scheduler] reads of its arguments *)

(** X8.  The native [stars_run_scheduler] reads nothing of its
    parameters but whether [algorithm] is
    [STARS_SCHEDULER_HYBRID_ACCUMULATIVE]: [max_iterations],
    [time_limit_seconds] and [seed] are ignored, and every other value
    of [algorithm], defined in the header or not, runs the accumulative
    algorithm with its default configuration. *)
Theorem X8_native_scheduler_reads_only_the_algorithm `{W : Collaborators} :
  forall c b pp params params' out s,
    (algorithm params = STARS_SCHEDULER_HYBRID_ACCUMULATIVE <->
     algorithm params' = STARS_SCHEDULER_HYBRID_ACCUMULATIVE) ->
    Native.stars_run_scheduler c b pp params out s
    = Native.stars_run_scheduler c b pp params' out s.
Proof.
  intros * H. unfold Native.stars_run_scheduler.
  rewrite (bool_decide_ext _ _ H). reflexivity.
Qed.

Lemma X8_witness :
  let W := Demo.collaborators in
  Native.stars_run_scheduler (Some hour_context) (Some two_blocks) None
    odd_params (OutCell None) s2
  = Native.stars_run_scheduler (Some hour_context) (Some two_blocks) None
      Native.stars_scheduling_params_default (OutCell None) s2.
Proof.
  cbv zeta.
  apply (X8_native_scheduler_reads_only_the_algorithm
           (W := Demo.collaborators)).
  split; intros H; vm_compute in H; discriminate H.
Defined.

Section SchedulerArguments.
Context `{W : Collaborators}.

Lemma CoreNative_run_scheduler_by_configuration c b pp params params' out s :
  CoreNative.algorithm_configuration params
  = CoreNative.algorithm_configuration params' ->
  CoreNative.stars_run_scheduler c b pp params out s
  = CoreNative.stars_run_scheduler c b pp params' out s.
Proof.
  intros H. unfold CoreNative.stars_run_scheduler. rewrite H. reflexivity.
Qed.

End SchedulerArguments.

(** X9.  What the stars-core-native [stars_run_scheduler] makes of its
    parameters: [time_limit_seconds] is never read; [max_iterations] 0
    stands for 50; for the accumulative algorithm all negative seeds
    are the same (no seed), and for the hybrid algorithm the seed is
    not read at all; and a value of [algorithm] that is neither of the
    two defined ones is answered, for a context with an instrument,
    with [STARS_ERROR_SCHEDULING_FAILED] ("Unknown algorithm type")
    without writing a handle or allocating anything. *)
Theorem X9_core_scheduler_parameters `{W : Collaborators} :
  (forall c b pp a m t t' sd out s,
     CoreNative.stars_run_scheduler c b pp (mkParams a m t sd) out s
     = CoreNative.stars_run_scheduler c b pp (mkParams a m t' sd) out s) /\
  (forall c b pp a t sd out s,
     CoreNative.stars_run_scheduler c b pp (mkParams a 0 t sd) out s
     = CoreNative.stars_run_scheduler c b pp (mkParams a 50 t sd) out s) /\
  (forall c b pp m t sd sd' out s,
     sd < 0 -> sd' < 0 ->
     CoreNative.stars_run_scheduler c b pp
       (mkParams STARS_SCHEDULER_ACCUMULATIVE m t sd) out s
     = CoreNative.stars_run_scheduler c b pp
         (mkParams STARS_SCHEDULER_ACCUMULATIVE m t sd') out s) /\
  (forall c b pp m t sd sd' out s,
     CoreNative.stars_run_scheduler c b pp
       (mkParams STARS_SCHEDULER_HYBRID_ACCUMULATIVE m t sd) out s
     = CoreNative.stars_run_scheduler c b pp
         (mkParams STARS_SCHEDULER_HYBRID_ACCUMULATIVE m t sd') out s) /\
  (forall (c : ptr CoreNative.StarsContext) b pp params v s,
     is_Some (CoreNative.instrument (deref c)) ->
     algorithm params <> STARS_SCHEDULER_ACCUMULATIVE ->
     algorithm params <> STARS_SCHEDULER_HYBRID_ACCUMULATIVE ->
     CoreNative.stars_run_scheduler (Some c) (Some b) pp params (OutCell v) s
     = ((mkResult STARS_ERROR_SCHEDULING_FAILED
           (Some "Unknown algorithm type"), OutCell v),
        mkState "Unknown algorithm type" (live s))).
Proof.
  repeat match goal with |- _ /\ _ => split end; intros.
  - apply CoreNative_run_scheduler_by_configuration. reflexivity.
  - apply CoreNative_run_scheduler_by_configuration. reflexivity.
  - apply CoreNative_run_scheduler_by_configuration.
    unfold CoreNative.algorithm_configuration. simpl.
    rewrite !(bool_decide_eq_false_2 (0 <= _)) by lia. reflexivity.
  - apply CoreNative_run_scheduler_by_configuration. reflexivity.
  - destruct H as [ins Hi]. unfold CoreNative.stars_run_scheduler.
    cbv [mbind M_bind CoreNative.clear_error_internal]. rewrite Hi.
    unfold CoreNative.algorithm_configuration.
    rewrite !bool_decide_eq_false_2 by assumption.
    reflexivity.
Qed.

Lemma X9_witness :
  let W := Demo.collaborators in
  (CoreNative.stars_run_scheduler (Some hour_context') (Some two_blocks')
     None (mkParams STARS_SCHEDULER_ACCUMULATIVE 0 0 (-1)) (OutCell None) s2
   = CoreNative.stars_run_scheduler (Some hour_context') (Some two_blocks')
       None (mkParams STARS_SCHEDULER_ACCUMULATIVE 0 0 (-5)) (OutCell None)
       s2) /\
  (CoreNative.stars_run_scheduler (Some hour_context') (Some two_blocks')
     None odd_params (OutCell None) s2
   = ((mkResult STARS_ERROR_SCHEDULING_FAILED
         (Some "Unknown algorithm type"), OutCell None),
      mkState "Unknown algorithm type" (live s2))).
Proof.
  cbv zeta.
  destruct (X9_core_scheduler_parameters (W := Demo.collaborators))
    as (_ & _ & H3 & _ & H5).
  split.
  - apply H3; reflexivity.
  - apply H5; [eexists; reflexivity | |];
      intros H; vm_compute in H; discriminate H.
Defined.

(** X10.  The prescheduler inside [stars_run_scheduler].  When no
    possible-periods handle is passed, both wrappers run
    [ComputePeriods] themselves, inside the [try] block of the
    scheduler: if it throws, the call fails with
    [STARS_ERROR_SCHEDULING_FAILED], not with
    [STARS_ERROR_PRESCHEDULER_FAILED], writes no handle and allocates
    nothing.  When a handle is passed (in the native wrapper: one whose
    [computed] flag is set, as [stars_compute_possible_periods] sets
    it), [ComputePeriods] is not consulted: the call succeeds as soon
    as the engine returns a schedule.  An exception of the engine
    itself is [STARS_ERROR_SCHEDULING_FAILED] too. *)
Theorem X10_prescheduler_inside_run_scheduler `{W : Collaborators} :
  (forall (c : ptr Native.StarsContext) (b : ptr Native.StarsBlocksCollection)
          pp params v s k what,
     (pp = None \/ exists p, pp = Some p /\ Native.computed (deref p) = false) ->
     ComputePeriods (Native.instrument (deref c)) (Native.blocks (deref b))
       (Native.executionPeriod (deref c)) = Throw k what ->
     Native.stars_run_scheduler (Some c) (Some b) pp params (OutCell v) s
     = ((mkResult STARS_ERROR_SCHEDULING_FAILED (Some what), OutCell v),
        mkState what (live s))) /\
  (forall (c : ptr Native.StarsContext) (b : ptr Native.StarsBlocksCollection)
          (p : ptr Native.StarsPossiblePeriods) params v s outcome,
     Native.computed (deref p) = true ->
     Schedule
       (if bool_decide (algorithm params
                        = STARS_SCHEDULER_HYBRID_ACCUMULATIVE)
        then Hybrid (mkHybrid 4 50 false None [])
        else AccumulativeDefault)
       (Native.blocks (deref b)) (Native.instrument (deref c))
       (Native.executionPeriod (deref c)) = Normal outcome ->
     code (Native.stars_run_scheduler (Some c) (Some b) (Some p) params
             (OutCell v) s).1.1 = STARS_OK) /\
  (forall (c : ptr CoreNative.StarsContext)
          (b : ptr CoreNative.StarsBlocksCollection) params v s ins k what,
     CoreNative.instrument (deref c) = Some ins ->
     is_Some (CoreNative.algorithm_configuration params) ->
     ComputePeriods ins (CoreNative.blocks (deref b))
       (CoreNative.executionPeriod (deref c)) = Throw k what ->
     CoreNative.stars_run_scheduler (Some c) (Some b) None params
       (OutCell v) s
     = ((mkResult STARS_ERROR_SCHEDULING_FAILED
           (Some ("Scheduling failed: " ++ what)), OutCell v),
        mkState ("Scheduling failed: " ++ what) (live s))) /\
  (forall (c : ptr CoreNative.StarsContext)
          (b : ptr CoreNative.StarsBlocksCollection)
          (p : ptr CoreNative.StarsPossiblePeriods) params v s ins config
          outcome,
     CoreNative.instrument (deref c) = Some ins ->
     CoreNative.algorithm_configuration params = Some config ->
     Schedule config (CoreNative.blocks (deref b)) ins
       (CoreNative.executionPeriod (deref c)) = Normal outcome ->
     code (CoreNative.stars_run_scheduler (Some c) (Some b) (Some p) params
             (OutCell v) s).1.1 = STARS_OK) /\
  (forall (c : ptr CoreNative.StarsContext)
          (b : ptr CoreNative.StarsBlocksCollection)
          (p : ptr CoreNative.StarsPossiblePeriods) params v s ins config
          k what,
     CoreNative.instrument (deref c) = Some ins ->
     CoreNative.algorithm_configuration params = Some config ->
     Schedule config (CoreNative.blocks (deref b)) ins
       (CoreNative.executionPeriod (deref c)) = Throw k what ->
     CoreNative.stars_run_scheduler (Some c) (Some b) (Some p) params
       (OutCell v) s
     = ((mkResult STARS_ERROR_SCHEDULING_FAILED
           (Some ("Scheduling failed: " ++ what)), OutCell v),
        mkState ("Scheduling failed: " ++ what) (live s))).
Proof.
  repeat match goal with |- _ /\ _ => split end.
  - intros * Hpp Hc. unfold Native.stars_run_scheduler.
    cbv [try_catch mbind M_bind MX_bind call].
    destruct Hpp as [-> | (p & -> & Hp)]; [| rewrite Hp]; simpl;
      rewrite Hc; reflexivity.
  - intros * Hp Hs. unfold Native.stars_run_scheduler.
    cbv [try_catch mbind mret M_bind MX_bind MX_ret call lift]. rewrite Hp.
    simpl. rewrite Hs. destruct outcome as [[sch un] fl]. reflexivity.
  - intros * Hi [config Ha] Hc. unfold CoreNative.stars_run_scheduler.
    cbv [try_catch mbind M_bind MX_bind call
         CoreNative.clear_error_internal].
    rewrite Hi, Ha, Hc. reflexivity.
  - intros * Hi Ha Hs. unfold CoreNative.stars_run_scheduler.
    cbv [try_catch mbind mret M_bind MX_bind MX_ret call lift unique_scope
         CoreNative.clear_error_internal].
    rewrite Hi, Ha. simpl. rewrite Hs. destruct outcome as [[sch un] fl].
    reflexivity.
  - intros * Hi Ha Hs. unfold CoreNative.stars_run_scheduler.
    cbv [try_catch mbind mret M_bind MX_bind MX_ret call lift
         CoreNative.clear_error_internal].
    rewrite Hi, Ha. simpl. rewrite Hs. reflexivity.
Qed.

Lemma X10_witness :
  let W := no_ephemeris in
  let nctx := Ptr 1%positive
                (Native.mkContext (0%Q, 0%Q, 0%Q) (mkPeriod 0 86400) "") in
  let ctx := Ptr 1%positive
               (CoreNative.mkContext (Some (0%Q, 0%Q, 0%Q)) (mkPeriod 0 86400)
                  "" (JObj [])) in
  (Native.stars_run_scheduler (Some nctx)
     (Some (Ptr 2%positive (Native.mkBlocks [] ""))) None
     Native.stars_scheduling_params_default (OutCell None) Demo.s0
   = ((mkResult STARS_ERROR_SCHEDULING_FAILED (Some "no ephemeris"),
       OutCell None),
      mkState "no ephemeris" (live Demo.s0))) /\
  (CoreNative.stars_run_scheduler (Some ctx)
     (Some (Ptr 2%positive (CoreNative.mkBlocks []))) None
     CoreNative.stars_scheduling_params_default (OutCell None) Demo.s0
   = ((mkResult STARS_ERROR_SCHEDULING_FAILED
         (Some "Scheduling failed: no ephemeris"), OutCell None),
      mkState "Scheduling failed: no ephemeris" (live Demo.s0))) /\
  code (CoreNative.stars_run_scheduler (Some ctx)
          (Some (Ptr 2%positive (CoreNative.mkBlocks [])))
          (Some (Ptr 3%positive (CoreNative.mkPeriods [] ∅)))
          CoreNative.stars_scheduling_params_default (OutCell None)
          Demo.s0).1.1 = STARS_OK.
Proof.
  cbv zeta.
  destruct (X10_prescheduler_inside_run_scheduler (W := no_ephemeris))
    as (H1 & _ & H3 & H4 & _).
  repeat match goal with |- _ /\ _ => split end.
  - eapply H1; [left; reflexivity | reflexivity].
  - eapply H3; [reflexivity | eexists; reflexivity | reflexivity].
  - eapply H4; reflexivity.
Defined.

(** ** Fitness and scheduling rate *)

Section Rates.
Context `{W : Collaborators}.

Lemma rate_bounds (k n : Z) :
  0 <= k <= n -> 0 < n ->
  (0 <= inject_Z k / inject_Z n <= 1)%Q.
Proof.
  intros Hk Hn. destruct n as [| p | p]; try lia.
  unfold Qdiv, Qmult, Qinv, inject_Z, Qle. simpl. lia.
Qed.

Lemma rate_times_total (k n : Z) :
  0 < n -> (inject_Z k / inject_Z n * inject_Z n == inject_Z k)%Q.
Proof.
  intros Hn. destruct n as [| p | p]; try lia.
  unfold Qdiv, Qmult, Qinv, inject_Z, Qeq. simpl. lia.
Qed.

End Rates.

(** X11.  In the native wrapper the fitness of a schedule is its
    scheduling rate.  Behind a handle that [stars_run_scheduler] wrote,
    [fitness] is (blocks - unscheduled) / blocks, and 0.0 for an empty
    collection; [stars_schedule_get_stats] reports this one number as
    [scheduling_rate] and as [fitness], and [stars_schedule_to_json]
    reports it as [fitness].  It lies between 0 and 1 as long as the
    engine returns no more unscheduled blocks than it was given. *)
Theorem X11_native_fitness_is_the_scheduling_rate `{W : Collaborators} :
  forall (ctx : ptr Native.StarsContext) (b : ptr Native.StarsBlocksCollection)
         pp params v s r h s',
    Native.stars_run_scheduler (Some ctx) (Some b) pp params (OutCell v) s
    = ((r, OutCell (Some h)), s') ->
    code r = STARS_OK ->
    let n := size (Native.blocks (deref b)) in
    let u := size (Native.unscheduled (deref h)) in
    Native.fitness (deref h)
    = (if bool_decide (0 < n)
       then (inject_Z (size_sub n u) / inject_Z n)%Q else 0%Q) /\
    field (Native.stats_document (deref h)) "scheduling_rate"
    = Some (JFloat (Native.fitness (deref h))) /\
    field (Native.stats_document (deref h)) "fitness"
    = Some (JFloat (Native.fitness (deref h))) /\
    field (Native.schedule_document (deref h)) "fitness"
    = Some (JFloat (Native.fitness (deref h))) /\
    (u <= n < 2^64 -> (0 <= Native.fitness (deref h) <= 1)%Q).
Proof.
  intros * H Hc. cbv zeta.
  assert (exists sch un fl,
            deref h
            = Native.mkSchedule sch un fl (size (Native.blocks (deref b)))
                (if bool_decide (0 < size (Native.blocks (deref b)))
                 then (inject_Z (size_sub (size (Native.blocks (deref b)))
                                   (size un))
                       / inject_Z (size (Native.blocks (deref b))))%Q
                 else 0%Q)) as (sch & un & fl & Hh).
  { unfold Native.stars_run_scheduler in H. run; eexists _, _, _; reflexivity. }
  rewrite Hh. cbn [Native.fitness Native.unscheduled].
  split; [reflexivity |]. split; [reflexivity |]. split; [reflexivity |].
  split; [reflexivity |].
  intros [Hu Hn]. case_bool_decide as Hpos.
  - apply rate_bounds; [| exact Hpos].
    unfold size_sub. pose proof (size_nonneg un).
    rewrite Z.mod_small; lia.
  - split; apply Qle_bool_imp_le; reflexivity.
Qed.

Lemma X11_witness :
  let W := Demo.collaborators in
  let call := Native.stars_run_scheduler (Some hour_context)
                (Some two_blocks) None
                Native.stars_scheduling_params_default (OutCell None) s2 in
  call.1 = (mkResult STARS_OK None, OutCell (Some hour_schedule)) /\
  Native.fitness (deref hour_schedule) = (1 # 2)%Q /\
  field (Native.stats_document (deref hour_schedule)) "scheduling_rate"
  = Some (JFloat (1 # 2)).
Proof.
  cbv zeta.
  assert (Native.stars_run_scheduler (Some hour_context) (Some two_blocks)
            None Native.stars_scheduling_params_default (OutCell None) s2
          = ((mkResult STARS_OK None, OutCell (Some hour_schedule)),
             (Native.stars_run_scheduler (Some hour_context)
                (Some two_blocks) None
                Native.stars_scheduling_params_default (OutCell None)
                s2).2)) as E by reflexivity.
  split; [reflexivity |]. split; [reflexivity |].
  apply (X11_native_fitness_is_the_scheduling_rate
           (W := Demo.collaborators) _ _ _ _ _ _ _ _ _ E eq_refl).
Defined.

(** X12.  The statistics of stars-core-native are computed from the
    schedule alone and are consistent with one another whatever the
    engine returned: [total_blocks] is the sum of [scheduled_count] (the
    number of units, 0 for a null schedule) and [unscheduled_count];
    [scheduling_rate] is [scheduled_count / total_blocks], lies between
    0 and 1, and is 0.0 when there are no blocks at all. *)
Theorem X12_core_statistics_are_consistent `{W : Collaborators} :
  forall h : CoreNative.StarsSchedule,
    let sc := size (default [] (CoreNative.schedule h)) in
    let un := size (CoreNative.unscheduled h) in
    sc + un < 2^64 ->
    field (CoreNative.stats_document h) "scheduled_count" = Some (JInt sc) /\
    field (CoreNative.stats_document h) "unscheduled_count"
    = Some (JInt un) /\
    field (CoreNative.stats_document h) "total_blocks"
    = Some (JInt (sc + un)) /\
    exists rate,
      field (CoreNative.stats_document h) "scheduling_rate"
      = Some (JFloat rate) /\
      (0 <= rate <= 1)%Q /\
      (sc + un = 0 -> rate = 0%Q) /\
      (0 < sc + un -> (rate * inject_Z (sc + un) == inject_Z sc)%Q).
Proof.
  intros h sc un Hlt.
  pose proof (size_nonneg (default [] (CoreNative.schedule h))) as Hsc.
  pose proof (size_nonneg (CoreNative.unscheduled h)) as Hun.
  fold sc in Hsc. fold un in Hun.
  assert (field (CoreNative.stats_document h) "scheduled_count"
          = Some (JInt sc)) as H1
    by (subst sc; unfold CoreNative.stats_document;
        destruct (CoreNative.schedule h); reflexivity).
  assert (field (CoreNative.stats_document h) "total_blocks"
          = Some (JInt ((sc + un) mod 2^64))) as H3
    by (subst sc un; unfold CoreNative.stats_document;
        destruct (CoreNative.schedule h); reflexivity).
  assert (field (CoreNative.stats_document h) "scheduling_rate"
          = Some (JFloat (if bool_decide (0 < (sc + un) mod 2^64)
                          then (inject_Z sc
                                / inject_Z ((sc + un) mod 2^64))%Q
                          else 0%Q))) as H4
    by (subst sc un; unfold CoreNative.stats_document;
        destruct (CoreNative.schedule h); reflexivity).
  rewrite Z.mod_small in H3, H4 by lia.
  split; [exact H1 |]. split; [reflexivity |]. split; [exact H3 |].
  eexists. split; [exact H4 |].
  case_bool_decide as Hpos.
  - split; [apply rate_bounds; lia |].
    split; [lia |]. intros _. apply rate_times_total, Hpos.
  - split; [split; apply Qle_bool_imp_le; reflexivity |].
    split; [reflexivity | lia].
Qed.

Lemma X12_witness :
  let W := Demo.collaborators in
  field (CoreNative.stats_document (deref hour_schedule')) "total_blocks"
  = Some (JInt (1 + 1)) /\
  exists rate,
    field (CoreNative.stats_document (deref hour_schedule')) "scheduling_rate"
    = Some (JFloat rate) /\
    (0 <= rate <= 1)%Q.
Proof.
  cbv zeta.
  destruct (X12_core_statistics_are_consistent (W := Demo.collaborators)
              (deref hour_schedule'))
    as (_ & _ & H3 & rate & H4 & Hb & _).
  - vm_compute. reflexivity.
  - split; [exact H3 |]. exists rate. split; [exact H4 | exact Hb].
Defined.

(** ** The names in the export of possible periods *)

Section BlockNames.
Context `{W : Collaborators}.

Lemma first_with_id_cons id (b : Block) bs :
  first_with_id id (b :: bs)
  = if decide (GetId b = id) then Some b else first_with_id id bs.
Proof.
  unfold first_with_id. cbn [list_find].
  destruct (decide (GetId b = id)); [reflexivity |].
  destruct (list_find _ bs) as [[i x] |]; reflexivity.
Qed.

Lemma emplace_lookup (m : gmap string string) k v id :
  CoreNative.emplace m k v !! id
  = match m !! id with
    | Some n => Some n
    | None => if decide (k = id) then Some v else None
    end.
Proof.
  unfold CoreNative.emplace.
  destruct (m !! k) as [n |] eqn:Hk.
  - destruct (m !! id) as [n' |] eqn:Hid; [reflexivity |].
    destruct (decide (k = id)) as [-> |]; [congruence | reflexivity].
  - destruct (decide (k = id)) as [-> |].
    + rewrite lookup_insert_eq, Hk. reflexivity.
    + rewrite lookup_insert_ne by assumption.
      destruct (m !! id); reflexivity.
Qed.

Lemma names_lookup (bs : list Block) (m : gmap string string) id :
  fold_left (fun m block => CoreNative.emplace m (GetId block) (GetName block))
    bs m !! id
  = match m !! id with
    | Some n => Some n
    | None => GetName <$> first_with_id id bs
    end.
Proof.
  revert m. induction bs as [| b bs IH]; intros m.
  - simpl. destruct (m !! id); reflexivity.
  - cbn [fold_left]. rewrite IH, emplace_lookup, first_with_id_cons.
    destruct (m !! id); [reflexivity |].
    destruct (decide (GetId b = id)); reflexivity.
Qed.

End BlockNames.

(** X13.  The handle that the stars-core-native
    [stars_compute_possible_periods] writes holds the map that
    [ComputePeriods] returned, and [stars_possible_periods_to_json]
    exports one entry per entry of that map, in its order.  An entry
    carries the block identifier as [block_id]; its [block_name] is the
    name of the first block of the collection with that identifier
    (later blocks with the same identifier do not replace it), and the
    identifier itself when no block of the collection carries it. *)
Theorem X13_core_possible_periods_name_blocks_by_id `{W : Collaborators} :
  forall (c : ptr CoreNative.StarsContext)
         (b : ptr CoreNative.StarsBlocksCollection) v s r h s',
    CoreNative.stars_compute_possible_periods (Some c) (Some b) (OutCell v) s
    = ((r, OutCell (Some h)), s') ->
    code r = STARS_OK ->
    (exists ins,
       CoreNative.instrument (deref c) = Some ins /\
       ComputePeriods ins (CoreNative.blocks (deref b))
         (CoreNative.executionPeriod (deref c))
       = Normal (CoreNative.periods (deref h))) /\
    (forall id ps,
       let entry :=
         CoreNative.periods_entry (CoreNative.blockNamesById (deref h))
           (id, ps) in
       field entry "block_id" = Some (JStr id) /\
       field entry "block_name"
       = Some (JStr (match first_with_id id (CoreNative.blocks (deref b)) with
                     | Some blk => GetName blk
                     | None => id
                     end)) /\
       field entry "periods" = Some (JArr (map CoreNative.period_json ps))) /\
    (forall v s text,
       json_dump (JArr (map (CoreNative.periods_entry
                               (CoreNative.blockNamesById (deref h)))
                          (CoreNative.periods (deref h)))) = Normal text ->
       (CoreNative.stars_possible_periods_to_json (Some h) (OutCell v) s).1
       = (mkResult STARS_OK None, OutCell (Some text))).
Proof.
  intros * H Hc.
  assert (exists ins,
            CoreNative.instrument (deref c) = Some ins /\
            ComputePeriods ins (CoreNative.blocks (deref b))
              (CoreNative.executionPeriod (deref c))
            = Normal (CoreNative.periods (deref h)) /\
            CoreNative.blockNamesById (deref h)
            = fold_left (fun m block =>
                           CoreNative.emplace m (GetId block) (GetName block))
                (CoreNative.blocks (deref b)) ∅) as (ins & Hi & Hp & Hn).
  { unfold CoreNative.stars_compute_possible_periods in H. run.
    eexists. repeat split; eassumption. }
  split; [exists ins; split; assumption |]. split.
  - intros id ps. cbv zeta. unfold CoreNative.periods_entry.
    split; [reflexivity |]. split; [| reflexivity].
    rewrite Hn, names_lookup, lookup_empty.
    destruct (first_with_id id (CoreNative.blocks (deref b))); reflexivity.
  - intros v0 s0 text Hd. unfold CoreNative.stars_possible_periods_to_json.
    cbv [try_catch mbind M_bind MX_bind call
         CoreNative.clear_error_internal].
    rewrite Hd. reflexivity.
Qed.

Lemma X13_witness :
  let W := Demo.collaborators in
  let call := CoreNative.stars_compute_possible_periods (Some hour_context')
                (Some two_blocks') (OutCell None) s2 in
  call.1 = (mkResult STARS_OK None, OutCell (Some hour_periods')) /\
  field (CoreNative.periods_entry
           (CoreNative.blockNamesById (deref hour_periods'))
           ("M42", [])) "block_name" = Some (JStr "M42") /\
  field (CoreNative.periods_entry
           (CoreNative.blockNamesById (deref hour_periods'))
           ("NGC 7000", [])) "block_name" = Some (JStr "NGC 7000").
Proof.
  cbv zeta.
  assert (CoreNative.stars_compute_possible_periods (Some hour_context')
            (Some two_blocks') (OutCell None) s2
          = ((mkResult STARS_OK None, OutCell (Some hour_periods')),
             (CoreNative.stars_compute_possible_periods (Some hour_context')
                (Some two_blocks') (OutCell None) s2).2)) as E
    by reflexivity.
  split; [rewrite E; reflexivity |].
  destruct (X13_core_possible_periods_name_blocks_by_id
              (W := Demo.collaborators) _ _ _ _ _ _ _ E eq_refl)
    as (_ & H & _).
  split; [apply (H "M42" []) | apply (H "NGC 7000" [])].
Defined.

(** ** The layout of [format_datetime] *)

Section IsoLayout.

Lemma below_forallb (P : Z -> bool) (bound : Z) :
  forallb (fun k => P (Z.of_nat k)) (seq 0 (Z.to_nat bound)) = true ->
  forall n, 0 <= n < bound -> P n = true.
Proof.
  intros H n Hn. rewrite forallb_forall in H.
  specialize (H (Z.to_nat n)). rewrite Z2Nat.id in H by lia.
  apply H, in_seq. lia.
Qed.

Lemma setw_2_digits n : 0 <= n < 100 -> digits_of_width 2 (setw 2 n) = true.
Proof.
  apply (below_forallb (fun n => digits_of_width 2 (setw 2 n)) 100).
  vm_compute. reflexivity.
Qed.

Lemma setw_4_digits n :
  0 <= n < 10000 -> digits_of_width 4 (setw 4 n) = true.
Proof.
  apply (below_forallb (fun n => digits_of_width 4 (setw 4 n)) 10000).
  vm_compute. reflexivity.
Qed.

Lemma digits_of_width_length w s :
  digits_of_width w s = true -> String.length s = w.
Proof.
  unfold digits_of_width. intros H. apply andb_true_iff in H as [H _].
  apply Nat.eqb_eq, H.
Qed.

Lemma length_append (a b : string) :
  String.length (a ++ b) = (String.length a + String.length b)%nat.
Proof. induction a as [| c a IH]; simpl; [reflexivity | rewrite IH; reflexivity]. Qed.

Lemma time_of_day_fields (d : Duration) :
  0 <= total_seconds d < 86400 ->
  0 <= Hours d < 24 /\ 0 <= Minutes d < 60 /\ 0 <= Seconds d < 60.
Proof.
  unfold Hours, Minutes, Seconds. intros H.
  rewrite !Z.quot_div_nonneg, !Z.rem_mod_nonneg by
    (try apply Z.div_pos; lia).
  pose proof (Z.mod_pos_bound (total_seconds d) 60).
  pose proof (Z.mod_pos_bound (total_seconds d / 60) 60).
  assert (0 <= total_seconds d / 3600) by (apply Z.div_pos; lia).
  assert (total_seconds d / 3600 < 24) by (apply Z.div_lt_upper_bound; lia).
  lia.
Qed.

End IsoLayout.

(** X14.  [format_datetime] of the native wrapper prints an instant in
    the fixed-width layout [YYYY-MM-DDThh:mm:ssZ], 20 characters with
    zero-padded fields, whenever its year is between 0 and 9999, its
    month and day are calendar values and its time of day is below 24
    hours. *)
Theorem X14_format_datetime_is_fixed_width `{W : Collaborators} :
  forall (time : TimeUTC) year month day,
    GetDate time = (year, month, day) ->
    0 <= year <= 9999 -> 1 <= month <= 12 -> 1 <= day <= 31 ->
    0 <= total_seconds (GetDuration time) < 86400 ->
    iso_layout (Native.format_datetime time) /\
    String.length (Native.format_datetime time) = 20%nat.
Proof.
  intros * Hd Hy Hm Hday Ht.
  destruct (time_of_day_fields _ Ht) as (Hh & Hmi & Hs).
  pose proof (setw_4_digits year ltac:(lia)) as D1.
  pose proof (setw_2_digits month ltac:(lia)) as D2.
  pose proof (setw_2_digits day ltac:(lia)) as D3.
  pose proof (setw_2_digits (Hours (GetDuration time)) ltac:(lia)) as D4.
  pose proof (setw_2_digits (Minutes (GetDuration time)) ltac:(lia)) as D5.
  pose proof (setw_2_digits (Seconds (GetDuration time)) ltac:(lia)) as D6.
  unfold Native.format_datetime. rewrite Hd. split.
  - eexists _, _, _, _, _, _. split; [reflexivity |].
    repeat split; assumption.
  - rewrite !length_append.
    rewrite (digits_of_width_length _ _ D1), (digits_of_width_length _ _ D2),
      (digits_of_width_length _ _ D3), (digits_of_width_length _ _ D4),
      (digits_of_width_length _ _ D5), (digits_of_width_length _ _ D6).
    reflexivity.
Qed.

Lemma X14_witness :
  let W := Demo.collaborators in
  Native.format_datetime (BeginTime new_year_day) = "2025-01-01T00:00:00Z" /\
  iso_layout (Native.format_datetime (BeginTime new_year_day)) /\
  String.length (Native.format_datetime (BeginTime new_year_day)) = 20%nat.
Proof.
  cbv zeta. split; [vm_compute; reflexivity |].
  apply (X14_format_datetime_is_fixed_width (W := Demo.collaborators)
           (BeginTime new_year_day) 2025 1 1);
    [vm_compute; reflexivity | lia | lia | lia | vm_compute; split; [discriminate | reflexivity]].
Defined.

(** ** Text that holds no usable block array *)

(** X15.  Text that parses but is not a block collection.
    - Native: an object without a [schedulingBlocks] member (and any
      value that is neither an object with that member nor an array) is
      rejected with "No scheduling blocks found in JSON", a
      [schedulingBlocks] member that is not an array with
      "schedulingBlocks must be an array"; both are
      [STARS_ERROR_INVALID_JSON], and the collection object is deleted
      before the error is returned.
    - stars-core-native rejects a value that is neither an array nor an
      object with a [schedulingBlocks] member with
      [STARS_ERROR_INVALID_JSON], but it does not ask the member to be
      an array: it decodes whatever iterating over it yields, so a null
      member loads as an empty collection. *)
Theorem X15_text_without_block_array `{W : Collaborators} :
  (forall txt j v s,
     json_parse txt = Normal j ->
     contains j "schedulingBlocks" = false -> is_array j = false ->
     Native.stars_blocks_load_json (Some txt) (OutCell v) s
     = ((mkResult STARS_ERROR_INVALID_JSON
           (Some "No scheduling blocks found in JSON"), OutCell v),
        mkState "No scheduling blocks found in JSON" (live s))) /\
  (forall txt m x v s,
     json_parse txt = Normal (JObj m) ->
     obj_lookup "schedulingBlocks" m = Some x -> is_array x = false ->
     Native.stars_blocks_load_json (Some txt) (OutCell v) s
     = ((mkResult STARS_ERROR_INVALID_JSON
           (Some "schedulingBlocks must be an array"), OutCell v),
        mkState "schedulingBlocks must be an array" (live s))) /\
  (forall txt j v s,
     json_parse txt = Normal j ->
     contains j "schedulingBlocks" = false -> is_array j = false ->
     CoreNative.stars_blocks_load_json (Some txt) (OutCell v) s
     = ((mkResult STARS_ERROR_INVALID_JSON
           (Some "Expected array or object with 'schedulingBlocks' key"),
         OutCell v),
        mkState "Expected array or object with 'schedulingBlocks' key"
          (live s))) /\
  (forall txt m x decoded v s,
     json_parse txt = Normal (JObj m) ->
     obj_lookup "schedulingBlocks" m = Some x ->
     exn_map deserialize_block (elements_of x) = Normal decoded ->
     (CoreNative.stars_blocks_load_json (Some txt) (OutCell v) s).1
     = (mkResult STARS_OK None,
        OutCell (Some (Ptr (fresh (live s))
                         (CoreNative.mkBlocks (kept_blocks decoded)))))) /\
  (forall txt m v s,
     json_parse txt = Normal (JObj m) ->
     obj_lookup "schedulingBlocks" m = Some JNull ->
     (CoreNative.stars_blocks_load_json (Some txt) (OutCell v) s).1
     = (mkResult STARS_OK None,
        OutCell (Some (Ptr (fresh (live s)) (CoreNative.mkBlocks []))))).
Proof.
  assert (forall txt m x decoded v s,
            json_parse txt = Normal (JObj m) ->
            obj_lookup "schedulingBlocks" m = Some x ->
            exn_map deserialize_block (elements_of x) = Normal decoded ->
            (CoreNative.stars_blocks_load_json (Some txt) (OutCell v) s).1
            = (mkResult STARS_OK None,
               OutCell (Some (Ptr (fresh (live s))
                                (CoreNative.mkBlocks (kept_blocks decoded))))))
    as Hany.
  { intros * Hp Hm Hd. unfold CoreNative.stars_blocks_load_json.
    cbv [try_catch mbind mret M_bind MX_bind MX_ret lift call new_
         unique_scope CoreNative.clear_error_internal]. rewrite Hp.
    simpl. rewrite Hm. rewrite bool_decide_eq_true_2 by eauto. simpl.
    rewrite CoreNative_deserialize_elements_acc, Hd. reflexivity. }
  repeat match goal with |- _ /\ _ => split end.
  - intros * Hp Hc Ha. unfold Native.stars_blocks_load_json.
    cbv [try_catch mbind mret M_bind M_ret MX_bind MX_ret lift call new_
         delete_ Native.fail_with Native.make_error Native.set_error].
    rewrite Hp, Hc, Ha. simpl. rewrite fresh_union_difference. reflexivity.
  - intros * Hp Hm Ha. unfold Native.stars_blocks_load_json.
    cbv [try_catch mbind mret M_bind M_ret MX_bind MX_ret lift call new_
         delete_ Native.fail_with Native.make_error Native.set_error].
    rewrite Hp. simpl. rewrite Hm. rewrite bool_decide_eq_true_2 by eauto.
    simpl. destruct x; try discriminate; simpl;
      rewrite fresh_union_difference; reflexivity.
  - intros * Hp Hc Ha. unfold CoreNative.stars_blocks_load_json.
    cbv [try_catch mbind mret M_bind M_ret MX_bind MX_ret lift call new_
         delete_ unique_scope CoreNative.fail_with CoreNative.make_result
         CoreNative.set_error CoreNative.clear_error_internal].
    rewrite Hp, Hc, Ha. simpl. rewrite fresh_union_difference. reflexivity.
  - exact Hany.
  - intros * Hp Hm. apply (Hany txt m JNull [] v s Hp Hm). reflexivity.
Qed.

Lemma X15_witness :
  let W := Demo.collaborators in
  (Native.stars_blocks_load_json (Some null_blocks) (OutCell None) Demo.s0
   = ((mkResult STARS_ERROR_INVALID_JSON
         (Some "schedulingBlocks must be an array"), OutCell None),
      mkState "schedulingBlocks must be an array" (live Demo.s0))) /\
  ((CoreNative.stars_blocks_load_json (Some null_blocks) (OutCell None)
      Demo.s0).1
   = (mkResult STARS_OK None,
      OutCell (Some (Ptr (fresh (live Demo.s0)) (CoreNative.mkBlocks []))))) /\
  (CoreNative.stars_blocks_load_json (Some "{}") (OutCell None) Demo.s0
   = ((mkResult STARS_ERROR_INVALID_JSON
         (Some "Expected array or object with 'schedulingBlocks' key"),
       OutCell None),
      mkState "Expected array or object with 'schedulingBlocks' key"
        (live Demo.s0))).
Proof.
  cbv zeta.
  destruct (X15_text_without_block_array (W := Demo.collaborators))
    as (_ & H2 & H3 & _ & H5).
  repeat match goal with |- _ /\ _ => split end.
  - eapply H2; [vm_compute; reflexivity | reflexivity | reflexivity].
  - eapply H5; [vm_compute; reflexivity | reflexivity].
  - eapply H3; [vm_compute; reflexivity | reflexivity | reflexivity].
Defined.

(** X16.  One element that cannot be decoded aborts the whole load.
    When building a task from a recognised member throws, the native
    [stars_blocks_load_json] returns [STARS_ERROR_INVALID_JSON] with the
    exception's message and writes no handle; the blocks built so far
    are lost and the collection object stays allocated.  When the
    deserializer throws on an element, the stars-core-native function
    returns [STARS_ERROR_DESERIALIZATION] ("Failed to load blocks: ..."),
    or [STARS_ERROR_INVALID_JSON] when the exception is a
    [parse_error], writes no handle and leaves nothing allocated. *)
Theorem X16_undecodable_element_aborts_the_load `{W : Collaborators} :
  (forall txt j elements k what v s,
     json_parse txt = Normal j ->
     holds_blocks_array j elements ->
     exn_map Native.load_observation_task (recognized_values elements)
     = Throw k what ->
     Native.stars_blocks_load_json (Some txt) (OutCell v) s
     = ((mkResult STARS_ERROR_INVALID_JSON (Some what), OutCell v),
        mkState what ({[fresh (live s)]} ∪ live s))) /\
  (forall txt j elements what v s,
     json_parse txt = Normal j ->
     holds_blocks_array j elements ->
     exn_map deserialize_block elements = Throw std_exception what ->
     CoreNative.stars_blocks_load_json (Some txt) (OutCell v) s
     = ((mkResult STARS_ERROR_DESERIALIZATION
           (Some ("Failed to load blocks: " ++ what)), OutCell v),
        mkState ("Failed to load blocks: " ++ what) (live s))) /\
  (forall txt j elements what v s,
     json_parse txt = Normal j ->
     holds_blocks_array j elements ->
     exn_map deserialize_block elements = Throw parse_error what ->
     CoreNative.stars_blocks_load_json (Some txt) (OutCell v) s
     = ((mkResult STARS_ERROR_INVALID_JSON
           (Some ("JSON parse error: " ++ what)), OutCell v),
        mkState ("JSON parse error: " ++ what) (live s))).
Proof.
  repeat match goal with |- _ /\ _ => split end.
  - intros * Hp Hj Hb. unfold Native.stars_blocks_load_json.
    cbv [try_catch mbind mret M_bind M_ret MX_bind MX_ret lift call new_
         Native.fail_with Native.make_error Native.set_error].
    rewrite Hp.
    destruct Hj as [-> | (m & -> & Hm)]; simpl;
      [| rewrite Hm; rewrite bool_decide_eq_true_2 by eauto; simpl];
      rewrite Native_load_elements_recognized, Hb; reflexivity.
  - intros * Hp Hj Hb. unfold CoreNative.stars_blocks_load_json.
    cbv [try_catch mbind mret M_bind M_ret MX_bind MX_ret lift call new_
         delete_ unique_scope CoreNative.fail_with CoreNative.make_result
         CoreNative.set_error CoreNative.clear_error_internal].
    rewrite Hp.
    destruct Hj as [-> | (m & -> & Hm)]; simpl;
      [| rewrite Hm; rewrite bool_decide_eq_true_2 by eauto; simpl];
      rewrite CoreNative_deserialize_elements_acc, Hb; simpl;
      rewrite fresh_union_difference; reflexivity.
  - intros * Hp Hj Hb. unfold CoreNative.stars_blocks_load_json.
    cbv [try_catch mbind mret M_bind M_ret MX_bind MX_ret lift call new_
         delete_ unique_scope CoreNative.fail_with CoreNative.make_result
         CoreNative.set_error CoreNative.clear_error_internal].
    rewrite Hp.
    destruct Hj as [-> | (m & -> & Hm)]; simpl;
      [| rewrite Hm; rewrite bool_decide_eq_true_2 by eauto; simpl];
      rewrite CoreNative_deserialize_elements_acc, Hb; simpl;
      rewrite fresh_union_difference; reflexivity.
Qed.

Lemma X16_witness :
  let W := Demo.collaborators in
  let call := Native.stars_blocks_load_json (Some ill_typed_blocks)
                (OutCell None) Demo.s0 in
  code call.1.1 = STARS_ERROR_INVALID_JSON /\
  call.1.2 = OutCell None /\
  live call.2 = {[fresh (live Demo.s0)]} ∪ live Demo.s0.
Proof.
  cbv zeta.
  destruct (X16_undecodable_element_aborts_the_load
              (W := Demo.collaborators)) as (H & _).
  erewrite H;
    [ repeat split
    | vm_compute; reflexivity
    | left; reflexivity
    | vm_compute; reflexivity ].
Defined.

(** ** How the native loader reads one ObservationTask *)

(** X17.  The value under an [ObservationTask] key is read by the
    native loader member by member.  A missing [name] is "unnamed", a
    missing [priority] 1.0, a missing [duration] zero and missing
    [targetCoordinates] the origin; members that are present are passed
    to [ObservationTask::Create] as they are, the three integers of the
    duration converted to [int].  A [name] that is present but not a
    string makes the loader throw, which aborts the load. *)
Theorem X17_native_task_members_and_defaults `{W : Collaborators} :
  (forall m,
     obj_lookup "name" m = None -> obj_lookup "priority" m = None ->
     obj_lookup "duration" m = None ->
     obj_lookup "targetCoordinates" m = None ->
     Native.load_observation_task (JObj m)
     = ObservationTask_Create "unnamed" 1 (Duration_hms 0 0 0) (0%Q, 0%Q)) /\
  (forall m name priority dm hours minutes seconds tm ra dec,
     obj_lookup "name" m = Some (JStr name) ->
     obj_lookup "priority" m = Some (JFloat priority) ->
     obj_lookup "duration" m = Some (JObj dm) ->
     obj_lookup "hours" dm = Some (JInt hours) ->
     obj_lookup "minutes" dm = Some (JInt minutes) ->
     obj_lookup "seconds" dm = Some (JInt seconds) ->
     obj_lookup "targetCoordinates" m = Some (JObj tm) ->
     obj_lookup "ra" tm = Some (JFloat ra) ->
     obj_lookup "dec" tm = Some (JFloat dec) ->
     Native.load_observation_task (JObj m)
     = ObservationTask_Create name priority
         (Duration_hms (to_int32 hours) (to_int32 minutes) (to_int32 seconds))
         (ra, dec)) /\
  (forall m v,
     obj_lookup "name" m = Some v ->
     (forall name, v <> JStr name) ->
     exists k what, Native.load_observation_task (JObj m) = Throw k what).
Proof.
  repeat match goal with |- _ /\ _ => split end.
  - intros m Hn Hp Hd Ht. unfold Native.load_observation_task.
    cbv [value_string value_double value_with contains mbind exn_bind].
    rewrite Hn, Hp, Hd, Ht.
    rewrite !bool_decide_eq_false_2 by (intros [? ?]; discriminate).
    reflexivity.
  - intros * Hn Hp Hd Hh Hmi Hs Ht Hra Hdec.
    unfold Native.load_observation_task.
    cbv [value_string value_double value_int value_with contains subscript
         mbind exn_bind get_string get_double get_int].
    rewrite Hn, Hp, Hd, Ht.
    rewrite !bool_decide_eq_true_2 by eauto. simpl.
    rewrite Hh, Hmi, Hs, Hra, Hdec. reflexivity.
  - intros m v Hn Hv. unfold Native.load_observation_task.
    cbv [value_string value_with mbind exn_bind get_string type_error].
    rewrite Hn. destruct v; try (eexists _, _; reflexivity).
    exfalso. eapply Hv. reflexivity.
Qed.

Lemma X17_witness :
  let W := Demo.collaborators in
  Native.load_observation_task (JObj [])
  = Normal (Demo.mkTask "unnamed" 1 (Duration_hms 0 0 0) (0%Q, 0%Q)) /\
  exists k what,
    Native.load_observation_task (JObj [("name", JInt 5)]) = Throw k what.
Proof.
  cbv zeta.
  destruct (X17_native_task_members_and_defaults (W := Demo.collaborators))
    as (H1 & _ & H3).
  split.
  - rewrite H1; reflexivity.
  - apply (H3 [("name", JInt 5)] (JInt 5)); [reflexivity | discriminate].
Defined.

(** ** The execution period of a configuration *)

(** X18.  The native [stars_context_create], once the instrument of a
    configuration has been built, validates the execution period: a
    configuration without [executionPeriod] is rejected with "Missing
    'executionPeriod' in config", one whose [begin] or [end] is absent
    or empty with "Invalid executionPeriod: missing begin or end"; both
    are [STARS_ERROR_INVALID_JSON], write no handle and delete the
    context object first.  When both instants can be constructed the
    call succeeds, and the context holds the instrument, the period
    from [begin] to [end] and the configuration text.  When the
    constructor of an instant throws, the call fails with
    [STARS_ERROR_INVALID_JSON] and the exception's message, and the
    context object stays allocated. *)
Theorem X18_native_execution_period_is_validated `{W : Collaborators} :
  forall cfg j ins,
    json_parse cfg = Normal j ->
    contains j "instrument" = true ->
    native_instrument j = Normal ins ->
    (contains j "executionPeriod" = false ->
     forall v s,
       Native.stars_context_create (Some cfg) (OutCell v) s
       = ((mkResult STARS_ERROR_INVALID_JSON
             (Some "Missing 'executionPeriod' in config"), OutCell v),
          mkState "Missing 'executionPeriod' in config" (live s))) /\
    (forall pj begin_str end_str,
       contains j "executionPeriod" = true ->
       subscript j "executionPeriod" = Normal pj ->
       value_string pj "begin" "" = Normal begin_str ->
       value_string pj "end" "" = Normal end_str ->
       (begin_str = "" \/ end_str = "" ->
        forall v s,
          Native.stars_context_create (Some cfg) (OutCell v) s
          = ((mkResult STARS_ERROR_INVALID_JSON
                (Some "Invalid executionPeriod: missing begin or end"),
              OutCell v),
             mkState "Invalid executionPeriod: missing begin or end"
               (live s))) /\
       (forall begin_ end_,
          begin_str <> "" -> end_str <> "" ->
          TimeUTC_of_string begin_str = Normal begin_ ->
          TimeUTC_of_string end_str = Normal end_ ->
          forall v s,
            Native.stars_context_create (Some cfg) (OutCell v) s
            = ((mkResult STARS_OK None,
                OutCell (Some (Ptr (fresh (live s))
                                 (Native.mkContext ins
                                    (mkPeriod begin_ end_) cfg)))),
               mkState (g_last_error s) ({[fresh (live s)]} ∪ live s))) /\
       (forall k what,
          begin_str <> "" -> end_str <> "" ->
          TimeUTC_of_string begin_str = Throw k what ->
          forall v s,
            Native.stars_context_create (Some cfg) (OutCell v) s
            = ((mkResult STARS_ERROR_INVALID_JSON (Some what), OutCell v),
               mkState what ({[fresh (live s)]} ∪ live s)))).
Proof.
  intros cfg j ins Hp Hc Hi.
  assert (forall (v : Native.StarsContextHandle) s,
            Native.stars_context_create (Some cfg) (OutCell v) s
            = try_catch
                (ctx ← lift new_;
                 if negb (contains j "executionPeriod") then
                   lift (delete_ ctx;;
                         Native.fail_with STARS_ERROR_INVALID_JSON
                           "Missing 'executionPeriod' in config" (OutCell v))
                 else
                   period_json ← call (subscript j "executionPeriod");
                   begin_str ← call (value_string period_json "begin" "");
                   end_str ← call (value_string period_json "end" "");
                   if String.eqb begin_str "" || String.eqb end_str "" then
                     lift (delete_ ctx;;
                           Native.fail_with STARS_ERROR_INVALID_JSON
                             "Invalid executionPeriod: missing begin or end"
                             (OutCell v))
                   else
                     begin_ ← call (TimeUTC_of_string begin_str);
                     end_ ← call (TimeUTC_of_string end_str);
                     lift (Native.succeed (OutCell v)
                             (Some (Ptr ctx (Native.mkContext ins
                                               (mkPeriod begin_ end_) cfg)))))
                (fun _ what =>
                   Native.fail_with STARS_ERROR_INVALID_JSON what (OutCell v))
                s) as Hbody.
  { intros v s. unfold Native.stars_context_create.
    unfold native_instrument in Hi.
    cbv [try_catch mbind M_bind MX_bind call lift new_ exn_bind] in *.
    rewrite Hp, Hc. cbn [negb].
    destruct (subscript j "instrument") as [ij |]; [| discriminate].
    destruct (value_json ij "location" (JObj [])) as [loc |];
      [| discriminate].
    destruct (value_double loc "latitude" 0) as [lat |]; [| discriminate].
    destruct (value_double loc "longitude" 0) as [lon |]; [| discriminate].
    destruct (value_double loc "altitude" 0) as [alt |]; [| discriminate].
    rewrite Hi. reflexivity. }
  split; [| intros pj begin_str end_str Hcp Hs Hb He; split; [| split]].
  - intros Hcp v s. rewrite Hbody.
    cbv [try_catch mbind mret M_bind M_ret MX_bind MX_ret call lift new_
         delete_ Native.fail_with Native.make_error Native.set_error].
    rewrite Hcp. simpl. rewrite fresh_union_difference. reflexivity.
  - intros Hempty v s. rewrite Hbody.
    cbv [try_catch mbind mret M_bind M_ret MX_bind MX_ret call lift new_
         delete_ Native.fail_with Native.make_error Native.set_error].
    rewrite Hcp, Hs, Hb, He. simpl.
    assert (String.eqb begin_str "" || String.eqb end_str "" = true) as ->.
    { destruct Hempty as [-> | ->]; [reflexivity |].
      rewrite orb_true_iff. right. reflexivity. }
    simpl. rewrite fresh_union_difference. reflexivity.
  - intros begin_ end_ Hnb Hne Htb Hte v s. rewrite Hbody.
    cbv [try_catch mbind mret M_bind M_ret MX_bind MX_ret call lift new_
         Native.succeed Native.make_ok].
    rewrite Hcp, Hs, Hb, He. simpl.
    apply String.eqb_neq in Hnb, Hne. rewrite Hnb, Hne. simpl.
    rewrite Htb, Hte. reflexivity.
  - intros k what Hnb Hne Htb v s. rewrite Hbody.
    cbv [try_catch mbind mret M_bind M_ret MX_bind MX_ret call lift new_
         Native.fail_with Native.make_error Native.set_error].
    rewrite Hcp, Hs, Hb, He. simpl.
    apply String.eqb_neq in Hnb, Hne. rewrite Hnb, Hne. simpl.
    rewrite Htb. reflexivity.
Qed.

Lemma X18_witness :
  let W := Demo.collaborators in
  (Native.stars_context_create (Some no_period) (OutCell None) Demo.s0
   = ((mkResult STARS_ERROR_INVALID_JSON
         (Some "Missing 'executionPeriod' in config"), OutCell None),
      mkState "Missing 'executionPeriod' in config" (live Demo.s0))) /\
  (Native.stars_context_create (Some no_begin) (OutCell None) Demo.s0
   = ((mkResult STARS_ERROR_INVALID_JSON
         (Some "Invalid executionPeriod: missing begin or end"),
       OutCell None),
      mkState "Invalid executionPeriod: missing begin or end"
        (live Demo.s0))) /\
  (Native.stars_context_create (Some one_day_config) (OutCell None) Demo.s0
   = ((mkResult STARS_OK None,
       OutCell (Some (Ptr (fresh (live Demo.s0))
                        (Native.mkContext (0%Q, 0%Q, 0%Q) new_year_day
                           one_day_config)))),
      mkState (g_last_error Demo.s0)
        ({[fresh (live Demo.s0)]} ∪ live Demo.s0))).
Proof.
  cbv zeta. repeat match goal with |- _ /\ _ => split end.
  - eapply (X18_native_execution_period_is_validated
              (W := Demo.collaborators) no_period);
      vm_compute; reflexivity.
  - eapply (X18_native_execution_period_is_validated
              (W := Demo.collaborators) no_begin);
      [ vm_compute; reflexivity | vm_compute; reflexivity
      | vm_compute; reflexivity | vm_compute; reflexivity
      | vm_compute; reflexivity | vm_compute; reflexivity
      | vm_compute; reflexivity | left; reflexivity ].
  - eapply (X18_native_execution_period_is_validated
              (W := Demo.collaborators) one_day_config);
      [ vm_compute; reflexivity | vm_compute; reflexivity
      | vm_compute; reflexivity | vm_compute; reflexivity
      | vm_compute; reflexivity | vm_compute; reflexivity
      | vm_compute; reflexivity | discriminate | discriminate
      | vm_compute; reflexivity | vm_compute; reflexivity ].
Defined.

(** X19.  In stars-core-native the execution period of a configuration
    is optional, but when present it must be complete.  Once the
    instrument part has been handled, a configuration without
    [executionPeriod] (and without [observatory]) yields a context with
    the default period and an empty observatory name; a configuration
    whose [executionPeriod] has no [begin] member fails with
    [STARS_ERROR_DESERIALIZATION] ("Failed to create context: ..."),
    writes no handle and leaves nothing allocated. *)
Theorem X19_core_execution_period_is_optional `{W : Collaborators} :
  forall cfg j ins,
    json_parse cfg = Normal j ->
    core_instrument j = Normal ins ->
    (contains j "executionPeriod" = false ->
     contains j "observatory" = false ->
     forall v s,
       CoreNative.stars_context_create (Some cfg) (OutCell v) s
       = ((mkResult STARS_OK None,
           OutCell (Some (Ptr (fresh (live s))
                            (CoreNative.mkContext ins Period_default "" j)))),
          mkState "" ({[fresh (live s)]} ∪ live s))) /\
    (forall m pm,
       j = JObj m ->
       obj_lookup "executionPeriod" m = Some (JObj pm) ->
       obj_lookup "begin" pm = None ->
       forall v s,
       exists what,
         CoreNative.stars_context_create (Some cfg) (OutCell v) s
         = ((mkResult STARS_ERROR_DESERIALIZATION
               (Some ("Failed to create context: " ++ what)), OutCell v),
            mkState ("Failed to create context: " ++ what) (live s))).
Proof.
  intros cfg j ins Hp Hi.
  assert (forall (v : CoreNative.StarsContextHandle) s,
            CoreNative.stars_context_create (Some cfg) (OutCell v) s
            = try_catch
                (unique_scope (fun ctx =>
                   ep_ ← (if contains j "executionPeriod" then
                            ep ← call (subscript j "executionPeriod");
                            bj ← call (subscript ep "begin");
                            beginStr ← call (get_string bj);
                            ej ← call (subscript ep "end");
                            endStr ← call (get_string ej);
                            begin_ ← call (TimeUTC_of_string beginStr);
                            end_ ← call (TimeUTC_of_string endStr);
                            mret (mkPeriod begin_ end_)
                          else mret Period_default);
                   obs ← (if contains j "observatory" then
                            oj ← call (subscript j "observatory");
                            call (get_string oj)
                          else mret "");
                   r ← lift (CoreNative.succeed (OutCell v)
                               (Some (Ptr ctx
                                        (CoreNative.mkContext ins ep_ obs j))));
                   mret (r, true)))
                (fun k what =>
                   match k with
                   | parse_error =>
                       CoreNative.fail_with STARS_ERROR_INVALID_JSON
                         ("JSON parse error: " ++ what) (OutCell v)
                   | std_exception =>
                       CoreNative.fail_with STARS_ERROR_DESERIALIZATION
                         ("Failed to create context: " ++ what) (OutCell v)
                   end)
                (mkState "" (live s))) as Hbody.
  { intros v s. unfold CoreNative.stars_context_create.
    unfold core_instrument in Hi.
    cbv [try_catch unique_scope mbind mret M_bind MX_bind MX_ret call lift
         new_ exn_bind CoreNative.clear_error_internal] in *.
    rewrite Hp. cbn [live g_last_error].
    destruct (contains j "instrument").
    - destruct (subscript j "instrument") as [ij |]; [| discriminate].
      destruct (Instrument_Load ij) as [i |]; [| discriminate].
      simplify_eq. reflexivity.
    - simplify_eq. reflexivity. }
  split.
  - intros Hce Hco v s. rewrite Hbody.
    cbv [try_catch unique_scope mbind mret M_bind M_ret MX_bind MX_ret call
         lift new_ CoreNative.succeed CoreNative.make_ok
         CoreNative.make_result].
    rewrite Hce, Hco. reflexivity.
  - intros m pm -> Hm Hb v s. eexists. rewrite Hbody.
    cbv [try_catch unique_scope mbind mret M_bind M_ret MX_bind MX_ret call
         lift new_ delete_ subscript contains get_string type_error
         CoreNative.fail_with CoreNative.make_result CoreNative.set_error].
    rewrite Hm. rewrite bool_decide_eq_true_2 by eauto. simpl.
    rewrite Hb. simpl. rewrite fresh_union_difference. reflexivity.
Qed.

Lemma X19_witness :
  let W := Demo.collaborators in
  (CoreNative.stars_context_create (Some no_period) (OutCell None) Demo.s0
   = ((mkResult STARS_OK None,
       OutCell (Some (Ptr (fresh (live Demo.s0))
                        (CoreNative.mkContext (Some (0%Q, 0%Q, 0%Q))
                           (mkPeriod 0 0) ""
                           (JObj [("instrument", JObj [])]))))),
      mkState "" ({[fresh (live Demo.s0)]} ∪ live Demo.s0))) /\
  exists what,
    CoreNative.stars_context_create (Some no_begin) (OutCell None) Demo.s0
    = ((mkResult STARS_ERROR_DESERIALIZATION
          (Some ("Failed to create context: " ++ what)), OutCell None),
       mkState ("Failed to create context: " ++ what) (live Demo.s0)).
Proof.
  cbv zeta. split.
  - eapply (X19_core_execution_period_is_optional
              (W := Demo.collaborators) no_period);
      vm_compute; reflexivity.
  - eapply (X19_core_execution_period_is_optional
              (W := Demo.collaborators) no_begin);
      [ vm_compute; reflexivity | vm_compute; reflexivity
      | vm_compute; reflexivity | reflexivity | reflexivity ].
Defined.

(** ** The functions that read a file *)

(** X20.  The three from-file functions of the native wrapper read the
    whole file and hand its content to their text counterpart: for a
    file that can be opened they return exactly what
    [stars_context_create], [stars_blocks_load_json] and
    [stars_run_full_pipeline] return on the content.  For a file that
    cannot be opened they return [STARS_ERROR_IO] with "Cannot open
    file: " followed by the path, write nothing and allocate nothing. *)
Theorem X20_native_file_functions `{W : Collaborators} :
  (forall path buffer,
     read_file path = Some buffer ->
     (forall v s,
        Native.stars_context_create_from_file (Some path) (OutCell v) s
        = Native.stars_context_create (Some buffer) (OutCell v) s) /\
     (forall v s,
        Native.stars_blocks_load_file (Some path) (OutCell v) s
        = Native.stars_blocks_load_json (Some buffer) (OutCell v) s) /\
     (forall params v s,
        Native.stars_run_pipeline_from_file (Some path) params (OutCell v) s
        = Native.stars_run_full_pipeline (Some buffer) params (OutCell v) s)) /\
  (forall path,
     read_file path = None ->
     (forall v s,
        Native.stars_context_create_from_file (Some path) (OutCell v) s
        = ((mkResult STARS_ERROR_IO (Some ("Cannot open file: " ++ path)),
            OutCell v),
           mkState ("Cannot open file: " ++ path) (live s))) /\
     (forall v s,
        Native.stars_blocks_load_file (Some path) (OutCell v) s
        = ((mkResult STARS_ERROR_IO (Some ("Cannot open file: " ++ path)),
            OutCell v),
           mkState ("Cannot open file: " ++ path) (live s))) /\
     (forall params v s,
        Native.stars_run_pipeline_from_file (Some path) params (OutCell v) s
        = ((mkResult STARS_ERROR_IO (Some ("Cannot open file: " ++ path)),
            OutCell v),
           mkState ("Cannot open file: " ++ path) (live s)))).
Proof.
  split; intros * Hr; repeat match goal with |- _ /\ _ => split end; intros.
  - unfold Native.stars_context_create_from_file. cbv [try_catch lift].
    rewrite Hr.
    destruct (Native.stars_context_create _ _ _) as [[? ?] ?]; reflexivity.
  - unfold Native.stars_blocks_load_file. cbv [try_catch lift].
    rewrite Hr.
    destruct (Native.stars_blocks_load_json _ _ _) as [[? ?] ?]; reflexivity.
  - unfold Native.stars_run_pipeline_from_file. cbv [try_catch lift].
    rewrite Hr.
    destruct (Native.stars_run_full_pipeline _ _ _ _) as [[? ?] ?];
      reflexivity.
  - unfold Native.stars_context_create_from_file. cbv [try_catch lift].
    rewrite Hr. reflexivity.
  - unfold Native.stars_blocks_load_file. cbv [try_catch lift].
    rewrite Hr. reflexivity.
  - unfold Native.stars_run_pipeline_from_file. cbv [try_catch lift].
    rewrite Hr. reflexivity.
Qed.

Lemma X20_witness :
  let W := Demo.collaborators in
  (Native.stars_run_pipeline_from_file (Some Demo.demo_path)
     Native.stars_scheduling_params_default (OutCell None) Demo.s0
   = Native.stars_run_full_pipeline (Some Demo.demo_file)
       Native.stars_scheduling_params_default (OutCell None) Demo.s0) /\
  (Native.stars_blocks_load_file (Some "missing.json") (OutCell None) Demo.s0
   = ((mkResult STARS_ERROR_IO (Some "Cannot open file: missing.json"),
       OutCell None),
      mkState "Cannot open file: missing.json" (live Demo.s0))).
Proof.
  cbv zeta.
  destruct (X20_native_file_functions (W := Demo.collaborators))
    as (H1 & H2).
  split.
  - apply (H1 Demo.demo_path Demo.demo_file). reflexivity.
  - apply (H2 "missing.json"). reflexivity.
Defined.

(** X21.  The from-file functions of stars-core-native leave reading
    and decoding to [ScheduleJsonLoader] and report every exception of
    it as [STARS_ERROR_IO] ("Failed to load file: ..."): a file that
    cannot be loaded, and equally an instrument, an execution period or
    blocks that the loader cannot build from a file it did load.  In
    each case no handle is written and nothing stays allocated; the
    pipeline function fails in the same way when its first stage
    does. *)
Theorem X21_core_file_functions_report_io `{W : Collaborators} :
  (forall path k what,
     ScheduleJsonLoader path = Throw k what ->
     (forall v s,
        CoreNative.stars_context_create_from_file (Some path) (OutCell v) s
        = ((mkResult STARS_ERROR_IO (Some ("Failed to load file: " ++ what)),
            OutCell v),
           mkState ("Failed to load file: " ++ what) (live s))) /\
     (forall v s,
        CoreNative.stars_blocks_load_file (Some path) (OutCell v) s
        = ((mkResult STARS_ERROR_IO (Some ("Failed to load file: " ++ what)),
            OutCell v),
           mkState ("Failed to load file: " ++ what) (live s))) /\
     (forall params v s,
        CoreNative.stars_run_pipeline_from_file (Some path) params
          (OutCell v) s
        = ((mkResult STARS_ERROR_IO (Some ("Failed to load file: " ++ what)),
            OutCell v),
           mkState ("Failed to load file: " ++ what) (live s)))) /\
  (forall path loader k what,
     ScheduleJsonLoader path = Normal loader ->
     (LoadInstrument loader = Throw k what ->
      forall v s,
        CoreNative.stars_context_create_from_file (Some path) (OutCell v) s
        = ((mkResult STARS_ERROR_IO (Some ("Failed to load file: " ++ what)),
            OutCell v),
           mkState ("Failed to load file: " ++ what) (live s))) /\
     (forall ins,
        LoadInstrument loader = Normal ins ->
        LoadExecutionPeriod loader = Throw k what ->
        forall v s,
          CoreNative.stars_context_create_from_file (Some path) (OutCell v) s
          = ((mkResult STARS_ERROR_IO
                (Some ("Failed to load file: " ++ what)), OutCell v),
             mkState ("Failed to load file: " ++ what) (live s))) /\
     (LoadBlocks loader = Throw k what ->
      forall v s,
        CoreNative.stars_blocks_load_file (Some path) (OutCell v) s
        = ((mkResult STARS_ERROR_IO (Some ("Failed to load file: " ++ what)),
            OutCell v),
           mkState ("Failed to load file: " ++ what) (live s)))).
Proof.
  split.
  - intros * Hl.
    assert (forall v s,
              CoreNative.stars_context_create_from_file (Some path)
                (OutCell v) s
              = ((mkResult STARS_ERROR_IO
                    (Some ("Failed to load file: " ++ what)), OutCell v),
                 mkState ("Failed to load file: " ++ what) (live s))) as HC.
    { intros. unfold CoreNative.stars_context_create_from_file.
      cbv [try_catch mbind M_bind MX_bind call
           CoreNative.clear_error_internal].
      rewrite Hl. reflexivity. }
    split; [exact HC |]. split; intros.
    + unfold CoreNative.stars_blocks_load_file.
      cbv [try_catch mbind M_bind MX_bind call
           CoreNative.clear_error_internal].
      rewrite Hl. reflexivity.
    + unfold CoreNative.stars_run_pipeline_from_file.
      cbv [mbind M_bind mret M_ret CoreNative.clear_error_internal].
      cbn [live]. rewrite HC. reflexivity.
  - intros * Hl. repeat match goal with |- _ /\ _ => split end; intros.
    + unfold CoreNative.stars_context_create_from_file.
      cbv [try_catch unique_scope mbind M_bind MX_bind call new_ delete_
           CoreNative.clear_error_internal].
      rewrite Hl. simpl. rewrite H. simpl.
      rewrite fresh_union_difference. reflexivity.
    + unfold CoreNative.stars_context_create_from_file.
      cbv [try_catch unique_scope mbind M_bind MX_bind call new_ delete_
           CoreNative.clear_error_internal].
      rewrite Hl. simpl. rewrite H. simpl. rewrite H0. simpl.
      rewrite fresh_union_difference. reflexivity.
    + unfold CoreNative.stars_blocks_load_file.
      cbv [try_catch unique_scope mbind M_bind MX_bind call new_ delete_
           CoreNative.clear_error_internal].
      rewrite Hl. simpl. rewrite H. simpl.
      rewrite fresh_union_difference. reflexivity.
Qed.

Lemma X21_witness :
  let W := Demo.collaborators in
  exists what,
    CoreNative.stars_run_pipeline_from_file (Some "missing.json")
      CoreNative.stars_scheduling_params_default (OutCell None) Demo.s0
    = ((mkResult STARS_ERROR_IO (Some ("Failed to load file: " ++ what)),
        OutCell None),
       mkState ("Failed to load file: " ++ what) (live Demo.s0)).
Proof.
  cbv zeta. eexists.
  eapply (X21_core_file_functions_report_io (W := Demo.collaborators)).
  vm_compute. reflexivity.
Defined.

(** ** A pipeline call from end to end *)

Section EndToEnd.
Context `{W : Collaborators}.

Lemma created_handle {T : Type} s (r : StarsResult)
    (out' : outparam (handle T)) s' (out : outparam (handle T)) :
  created s r out' s' \/ failed_clean out s r out' s' ->
  code r = STARS_OK -> exists p, out' = OutCell (Some p).
Proof.
  intros [(_ & _ & _ & x & ->) | (Hn & _)] Hc; [| contradiction].
  eexists; reflexivity.
Qed.

Lemma created_handle_leaky {T : Type} s (r : StarsResult)
    (out' : outparam (handle T)) s' (out : outparam (handle T)) :
  created s r out' s' \/ failed_leaky out s r out' s' ->
  code r = STARS_OK -> exists p, out' = OutCell (Some p).
Proof.
  intros [(_ & _ & _ & x & ->) | (Hn & _)] Hc; [| contradiction].
  eexists; reflexivity.
Qed.

End EndToEnd.

(** X22.  From end to end.  Let the engine account for every block it
    is given.  When [stars_run_full_pipeline] returns [STARS_OK], its
    second stage had loaded a block collection from the input text, and
    the text written to the out-parameter is the dump of a schedule
    document whose [scheduled_count] and [unscheduled_count] add up to
    the number of blocks of that collection. *)
Theorem X22_pipeline_accounts_for_the_loaded_blocks `{W : Collaborators} :
  engine_accounts_for_every_block ->
  (forall input params v s r out' s',
     Native.stars_run_full_pipeline input params (OutCell v) s
     = ((r, out'), s') ->
     code r = STARS_OK ->
     exists s1 r2 (b : ptr Native.StarsBlocksCollection) s2 doc text,
       Native.stars_blocks_load_json input (OutCell None) s1
       = ((r2, OutCell (Some b)), s2) /\
       code r2 = STARS_OK /\
       json_dump doc = Normal text /\
       out' = OutCell (Some text) /\
       counts_add_up_to doc (size (Native.blocks (deref b)))) /\
  (forall input params v s r out' s',
     CoreNative.stars_run_full_pipeline input params (OutCell v) s
     = ((r, out'), s') ->
     code r = STARS_OK ->
     exists s1 r2 (b : ptr CoreNative.StarsBlocksCollection) s2 doc text,
       CoreNative.stars_blocks_load_json input (OutCell None) s1
       = ((r2, OutCell (Some b)), s2) /\
       code r2 = STARS_OK /\
       json_dump doc = Normal text /\
       out' = OutCell (Some text) /\
       counts_add_up_to doc (size (CoreNative.blocks (deref b)))).
Proof.
  intros Hengine. split.
  - intros * H Hc.
    destruct (Native_full_pipeline_ok _ _ _ _ _ _ _ H Hc)
      as (r1 & c1 & s1 & r2 & c2 & s2 & r3 & c3 & s3 & r4 & c4 & s4 & s5
          & E1 & Hc1 & E2 & Hc2 & E3 & Hc3 & E4 & Hc4 & E5).
    destruct (created_handle_leaky _ _ _ _ _
                (Native_context_create_spec _ _ _ _ _ _ E1) Hc1) as [ctx ->].
    destruct (created_handle_leaky _ _ _ _ _
                (Native_blocks_load_json_spec _ _ _ _ _ _ E2) Hc2) as [b ->].
    destruct (created_handle_leaky _ _ _ _ _
                (Native_run_scheduler_spec _ _ _ _ _ _ _ _ _ E4) Hc4)
      as [h ->].
    cbn [cell_value] in *.
    destruct (Native_run_scheduler_handle Hengine _ _ _ _ _ _ _ _ _ E4 Hc4)
      as [_ Hs].
    destruct (Native_schedule_to_json_ok _ _ _ _ _ _ E5 Hc)
      as (p & text & Hp & Hd & -> & _).
    injection Hp as <-.
    exists s1, r2, b, s2, (Native.schedule_document (deref h)), text.
    split; [exact E2 |]. split; [exact Hc2 |]. split; [exact Hd |].
    split; [reflexivity |].
    apply Native_schedule_counts, Hs.
  - intros * H Hc.
    destruct (CoreNative_full_pipeline_ok _ _ _ _ _ _ _ H Hc)
      as (r1 & c1 & s1 & r2 & c2 & s2 & r3 & c3 & s3 & s4
          & E1 & Hc1 & E2 & Hc2 & E3 & Hc3 & E4).
    destruct (created_handle _ _ _ _ _
                (CoreNative_context_create_spec _ _ _ _ _ _ E1) Hc1)
      as [ctx ->].
    destruct (created_handle _ _ _ _ _
                (CoreNative_blocks_load_json_spec _ _ _ _ _ _ E2) Hc2)
      as [b ->].
    destruct (created_handle _ _ _ _ _
                (CoreNative_run_scheduler_spec _ _ _ _ _ _ _ _ _ E3) Hc3)
      as [h ->].
    cbn [cell_value] in *.
    pose proof (CoreNative_run_scheduler_handle Hengine _ _ _ _ _ _ _ _ _
                  E3 Hc3) as Hs.
    destruct (CoreNative_schedule_to_json_ok _ _ _ _ _ _ E4 Hc)
      as (p & text & Hp & Hd & -> & _).
    injection Hp as <-.
    exists s1, r2, b, s2, (CoreNative.schedule_document (deref h)), text.
    split; [exact E2 |]. split; [exact Hc2 |]. split; [exact Hd |].
    split; [reflexivity |].
    apply CoreNative_schedule_counts, Hs.
Qed.

Lemma X22_witness :
  let W := Demo.collaborators in
  let call := CoreNative.stars_run_full_pipeline (Some Demo.demo_file)
                CoreNative.stars_scheduling_params_default (OutCell None)
                Demo.s0 in
  code call.1.1 = STARS_OK /\
  exists (b : ptr CoreNative.StarsBlocksCollection) doc text,
    json_dump doc = Normal text /\
    call.1.2 = OutCell (Some text) /\
    counts_add_up_to doc (size (CoreNative.blocks (deref b))).
Proof.
  cbv zeta.
  match goal with
  | |- ?A /\ _ => assert A as Hc by (vm_compute; reflexivity)
  end.
  split; [exact Hc |].
  destruct (X22_pipeline_accounts_for_the_loaded_blocks
              (W := Demo.collaborators) Demo_engine_accounts) as [_ H].
  destruct (H (Some Demo.demo_file)
              CoreNative.stars_scheduling_params_default None Demo.s0
              _ _ _ (triple_eta _) Hc)
    as (s1 & r2 & b & s2 & doc & text & _ & _ & Hd & Ho & Hn).
  exists b, doc, text. split; [exact Hd |]. split; [exact Ho | exact Hn].
Defined.

(** ** The codes an operation can return *)

Ltac pick := simpl; repeat (first [left; reflexivity | right]).

Ltac codes_by_cases :=
  intros s;
  match goal with
  | |- In (code (?m s).1.1) _ => destruct (m s) as [[r o] s'] eqn:H
  end;
  run; pick.

Section Codes.
Context `{W : Collaborators}.

Lemma returns_only_weaken {V : Type} codes codes' (m : M (StarsResult * V)) :
  returns_only codes m -> incl codes codes' -> returns_only codes' m.
Proof. intros H Hi s. apply Hi, H. Qed.

Lemma Native_context_create_code_set cfg out :
  returns_only [STARS_OK; STARS_ERROR_NULL_POINTER; STARS_ERROR_INVALID_JSON]
    (Native.stars_context_create cfg out).
Proof. unfold Native.stars_context_create. codes_by_cases. Qed.

Lemma Native_blocks_load_json_code_set text out :
  returns_only [STARS_OK; STARS_ERROR_NULL_POINTER; STARS_ERROR_INVALID_JSON]
    (Native.stars_blocks_load_json text out).
Proof. unfold Native.stars_blocks_load_json. codes_by_cases. Qed.

Lemma Native_compute_possible_periods_code_set c b out :
  returns_only
    [STARS_OK; STARS_ERROR_NULL_POINTER; STARS_ERROR_PRESCHEDULER_FAILED]
    (Native.stars_compute_possible_periods c b out).
Proof. unfold Native.stars_compute_possible_periods. codes_by_cases. Qed.

Lemma Native_run_scheduler_code_set c b pp params out :
  returns_only
    [STARS_OK; STARS_ERROR_NULL_POINTER; STARS_ERROR_SCHEDULING_FAILED]
    (Native.stars_run_scheduler c b pp params out).
Proof. unfold Native.stars_run_scheduler. codes_by_cases. Qed.

Lemma Native_schedule_to_json_code_set h out :
  returns_only
    [STARS_OK; STARS_ERROR_NULL_POINTER; STARS_ERROR_SERIALIZATION]
    (Native.stars_schedule_to_json h out).
Proof. unfold Native.stars_schedule_to_json. codes_by_cases. Qed.

Lemma code_of_stage {V : Type} codes (m : M (StarsResult * V)) s r o s' :
  returns_only codes m -> m s = ((r, o), s') -> In (code r) codes.
Proof. intros H E. specialize (H s). rewrite E in H. exact H. Qed.

Lemma Native_full_pipeline_code_set input params out :
  returns_only
    [STARS_OK; STARS_ERROR_NULL_POINTER; STARS_ERROR_INVALID_JSON;
     STARS_ERROR_PRESCHEDULER_FAILED; STARS_ERROR_SCHEDULING_FAILED;
     STARS_ERROR_SERIALIZATION]
    (Native.stars_run_full_pipeline input params out).
Proof.
  intros s. unfold Native.stars_run_full_pipeline.
  destruct input as [txt |]; [destruct out as [| v0] |];
    [ pick | | pick ].
  cbv [mbind mret M_bind M_ret].
  destruct (Native.stars_context_create _ _ _) as [[r1 c1] s1] eqn:E1.
  pose proof (code_of_stage _ _ _ _ _ _
                (Native_context_create_code_set _ _) E1) as K1.
  destruct (negb (is_ok r1)); [simpl in *; tauto |].
  destruct (Native.stars_blocks_load_json _ _ _) as [[r2 c2] s2] eqn:E2.
  pose proof (code_of_stage _ _ _ _ _ _
                (Native_blocks_load_json_code_set _ _) E2) as K2.
  destruct (negb (is_ok r2));
    [ destruct (Native.stars_context_destroy _ s2) as [[] ?];
      simpl in *; tauto |].
  destruct (Native.stars_compute_possible_periods _ _ _ _)
    as [[r3 c3] s3] eqn:E3.
  pose proof (code_of_stage _ _ _ _ _ _
                (Native_compute_possible_periods_code_set _ _ _) E3) as K3.
  destruct (negb (is_ok r3));
    [ destruct (Native.stars_blocks_destroy _ s3) as [[] ?];
      destruct (Native.stars_context_destroy _ _) as [[] ?];
      simpl in *; tauto |].
  destruct (Native.stars_run_scheduler _ _ _ _ _ _) as [[r4 c4] s4] eqn:E4.
  pose proof (code_of_stage _ _ _ _ _ _
                (Native_run_scheduler_code_set _ _ _ _ _) E4) as K4.
  destruct (negb (is_ok r4));
    [ destruct (Native.stars_possible_periods_destroy _ s4) as [[] ?];
      destruct (Native.stars_blocks_destroy _ _) as [[] ?];
      destruct (Native.stars_context_destroy _ _) as [[] ?];
      simpl in *; tauto |].
  destruct (Native.stars_schedule_to_json _ _ _) as [[r5 c5] s5] eqn:E5.
  pose proof (code_of_stage _ _ _ _ _ _
                (Native_schedule_to_json_code_set _ _) E5) as K5.
  destruct (Native.stars_schedule_destroy _ _) as [[] ?].
  destruct (Native.stars_possible_periods_destroy _ _) as [[] ?].
  destruct (Native.stars_blocks_destroy _ _) as [[] ?].
  destruct (Native.stars_context_destroy _ _) as [[] ?].
  simpl in *; tauto.
Qed.

(** *** stars-core-native *)

Lemma CoreNative_context_create_code_set cfg out :
  returns_only
    [STARS_OK; STARS_ERROR_NULL_POINTER; STARS_ERROR_INVALID_JSON;
     STARS_ERROR_DESERIALIZATION]
    (CoreNative.stars_context_create cfg out).
Proof. unfold CoreNative.stars_context_create. codes_by_cases. Qed.

Lemma CoreNative_context_create_from_file_code_set path out :
  returns_only [STARS_OK; STARS_ERROR_NULL_POINTER; STARS_ERROR_IO]
    (CoreNative.stars_context_create_from_file path out).
Proof. unfold CoreNative.stars_context_create_from_file. codes_by_cases. Qed.

Lemma CoreNative_blocks_load_json_code_set text out :
  returns_only
    [STARS_OK; STARS_ERROR_NULL_POINTER; STARS_ERROR_INVALID_JSON;
     STARS_ERROR_DESERIALIZATION]
    (CoreNative.stars_blocks_load_json text out).
Proof. unfold CoreNative.stars_blocks_load_json. codes_by_cases. Qed.

Lemma CoreNative_blocks_load_file_code_set path out :
  returns_only [STARS_OK; STARS_ERROR_NULL_POINTER; STARS_ERROR_IO]
    (CoreNative.stars_blocks_load_file path out).
Proof. unfold CoreNative.stars_blocks_load_file. codes_by_cases. Qed.

Lemma CoreNative_run_scheduler_code_set c b pp params out :
  returns_only
    [STARS_OK; STARS_ERROR_NULL_POINTER; STARS_ERROR_INVALID_HANDLE;
     STARS_ERROR_SCHEDULING_FAILED]
    (CoreNative.stars_run_scheduler c b pp params out).
Proof. unfold CoreNative.stars_run_scheduler. codes_by_cases. Qed.

Lemma CoreNative_schedule_to_json_code_set h out :
  returns_only
    [STARS_OK; STARS_ERROR_NULL_POINTER; STARS_ERROR_SERIALIZATION]
    (CoreNative.stars_schedule_to_json h out).
Proof. unfold CoreNative.stars_schedule_to_json. codes_by_cases. Qed.

Lemma CoreNative_schedule_and_export_code_set ctx b params out :
  returns_only
    [STARS_OK; STARS_ERROR_NULL_POINTER; STARS_ERROR_INVALID_HANDLE;
     STARS_ERROR_SCHEDULING_FAILED; STARS_ERROR_SERIALIZATION]
    (CoreNative.schedule_and_export ctx b params out).
Proof.
  intros s. unfold CoreNative.schedule_and_export.
  cbv [mbind mret M_bind M_ret].
  destruct (CoreNative.stars_run_scheduler _ _ _ _ _ _)
    as [[r3 c3] s3] eqn:E3.
  pose proof (code_of_stage _ _ _ _ _ _
                (CoreNative_run_scheduler_code_set _ _ _ _ _) E3) as K3.
  destruct (negb (is_ok r3));
    [ destruct (CoreNative.stars_context_destroy _ s3) as [[] ?];
      destruct (CoreNative.stars_blocks_destroy _ _) as [[] ?];
      simpl in *; tauto |].
  destruct (CoreNative.stars_schedule_to_json _ _ _) as [[r4 c4] s4] eqn:E4.
  pose proof (code_of_stage _ _ _ _ _ _
                (CoreNative_schedule_to_json_code_set _ _) E4) as K4.
  destruct (CoreNative.stars_schedule_destroy _ _) as [[] ?].
  destruct (CoreNative.stars_blocks_destroy _ _) as [[] ?].
  destruct (CoreNative.stars_context_destroy _ _) as [[] ?].
  simpl in *; tauto.
Qed.

Lemma CoreNative_full_pipeline_code_set input params out :
  returns_only
    [STARS_OK; STARS_ERROR_NULL_POINTER; STARS_ERROR_INVALID_JSON;
     STARS_ERROR_DESERIALIZATION; STARS_ERROR_INVALID_HANDLE;
     STARS_ERROR_SCHEDULING_FAILED; STARS_ERROR_SERIALIZATION]
    (CoreNative.stars_run_full_pipeline input params out).
Proof.
  intros s. unfold CoreNative.stars_run_full_pipeline.
  destruct input as [txt |]; [destruct out as [| v0] |];
    [ pick | | pick ].
  cbv [mbind mret M_bind M_ret CoreNative.clear_error_internal].
  destruct (CoreNative.stars_context_create _ _ _) as [[r1 c1] s1] eqn:E1.
  pose proof (code_of_stage _ _ _ _ _ _
                (CoreNative_context_create_code_set _ _) E1) as K1.
  destruct (negb (is_ok r1)); [simpl in *; tauto |].
  destruct (CoreNative.stars_blocks_load_json _ _ _) as [[r2 c2] s2] eqn:E2.
  pose proof (code_of_stage _ _ _ _ _ _
                (CoreNative_blocks_load_json_code_set _ _) E2) as K2.
  destruct (negb (is_ok r2));
    [ destruct (CoreNative.stars_context_destroy _ s2) as [[] ?];
      simpl in *; tauto |].
  pose proof (CoreNative_schedule_and_export_code_set
                (cell_value c1) (cell_value c2) params (OutCell v0) s2) as K.
  simpl in *; tauto.
Qed.

Lemma CoreNative_pipeline_from_file_code_set path params out :
  returns_only
    [STARS_OK; STARS_ERROR_NULL_POINTER; STARS_ERROR_IO;
     STARS_ERROR_INVALID_HANDLE; STARS_ERROR_SCHEDULING_FAILED;
     STARS_ERROR_SERIALIZATION]
    (CoreNative.stars_run_pipeline_from_file path params out).
Proof.
  intros s. unfold CoreNative.stars_run_pipeline_from_file.
  destruct path as [p |]; [destruct out as [| v0] |];
    [ pick | | pick ].
  cbv [mbind mret M_bind M_ret CoreNative.clear_error_internal].
  destruct (CoreNative.stars_context_create_from_file _ _ _)
    as [[r1 c1] s1] eqn:E1.
  pose proof (code_of_stage _ _ _ _ _ _
                (CoreNative_context_create_from_file_code_set _ _) E1) as K1.
  destruct (negb (is_ok r1)); [simpl in *; tauto |].
  destruct (CoreNative.stars_blocks_load_file _ _ _) as [[r2 c2] s2] eqn:E2.
  pose proof (code_of_stage _ _ _ _ _ _
                (CoreNative_blocks_load_file_code_set _ _) E2) as K2.
  destruct (negb (is_ok r2));
    [ destruct (CoreNative.stars_context_destroy _ s2) as [[] ?];
      simpl in *; tauto |].
  pose proof (CoreNative_schedule_and_export_code_set
                (cell_value c1) (cell_value c2) params (OutCell v0) s2) as K.
  simpl in *; tauto.
Qed.

End Codes.

(** X23.  The codes of the native wrapper, function by function.  Each
    function returns [STARS_OK], [STARS_ERROR_NULL_POINTER] or the
    codes of its own handlers and checks, and nothing else:
    [STARS_ERROR_INVALID_JSON] for the two loaders of text,
    [STARS_ERROR_IO] in addition for the functions that read a file,
    [STARS_ERROR_SERIALIZATION] for the exporters,
    [STARS_ERROR_INVALID_HANDLE] only for an index out of bounds,
    [STARS_ERROR_PRESCHEDULER_FAILED] and
    [STARS_ERROR_SCHEDULING_FAILED] for the two engine calls; a
    pipeline call returns a code of one of its five stages.  No
    function of this wrapper returns [STARS_ERROR_DESERIALIZATION] or
    [STARS_ERROR_UNKNOWN], and [stars_blocks_count] cannot fail on
    non-null arguments. *)
Theorem X23_native_return_codes `{W : Collaborators} :
  (forall cfg out,
     returns_only
       [STARS_OK; STARS_ERROR_NULL_POINTER; STARS_ERROR_INVALID_JSON]
       (Native.stars_context_create cfg out)) /\
  (forall path out,
     returns_only
       [STARS_OK; STARS_ERROR_NULL_POINTER; STARS_ERROR_INVALID_JSON;
        STARS_ERROR_IO]
       (Native.stars_context_create_from_file path out)) /\
  (forall h out,
     returns_only
       [STARS_OK; STARS_ERROR_NULL_POINTER; STARS_ERROR_SERIALIZATION]
       (Native.stars_context_get_execution_period h out)) /\
  (forall text out,
     returns_only
       [STARS_OK; STARS_ERROR_NULL_POINTER; STARS_ERROR_INVALID_JSON]
       (Native.stars_blocks_load_json text out)) /\
  (forall path out,
     returns_only
       [STARS_OK; STARS_ERROR_NULL_POINTER; STARS_ERROR_INVALID_JSON;
        STARS_ERROR_IO]
       (Native.stars_blocks_load_file path out)) /\
  (forall h out,
     returns_only
       [STARS_OK; STARS_ERROR_NULL_POINTER; STARS_ERROR_SERIALIZATION]
       (Native.stars_blocks_to_json h out)) /\
  (forall h out,
     returns_only [STARS_OK; STARS_ERROR_NULL_POINTER]
       (Native.stars_blocks_count h out)) /\
  (forall h index out,
     returns_only
       [STARS_OK; STARS_ERROR_NULL_POINTER; STARS_ERROR_INVALID_HANDLE;
        STARS_ERROR_SERIALIZATION]
       (Native.stars_blocks_get_at h index out)) /\
  (forall c b out,
     returns_only
       [STARS_OK; STARS_ERROR_NULL_POINTER; STARS_ERROR_PRESCHEDULER_FAILED]
       (Native.stars_compute_possible_periods c b out)) /\
  (forall h out,
     returns_only
       [STARS_OK; STARS_ERROR_NULL_POINTER; STARS_ERROR_SERIALIZATION]
       (Native.stars_possible_periods_to_json h out)) /\
  (forall c b pp params out,
     returns_only
       [STARS_OK; STARS_ERROR_NULL_POINTER; STARS_ERROR_SCHEDULING_FAILED]
       (Native.stars_run_scheduler c b pp params out)) /\
  (forall h out,
     returns_only
       [STARS_OK; STARS_ERROR_NULL_POINTER; STARS_ERROR_SERIALIZATION]
       (Native.stars_schedule_to_json h out)) /\
  (forall h out,
     returns_only
       [STARS_OK; STARS_ERROR_NULL_POINTER; STARS_ERROR_SERIALIZATION]
       (Native.stars_schedule_get_stats h out)) /\
  (forall input params out,
     returns_only
       [STARS_OK; STARS_ERROR_NULL_POINTER; STARS_ERROR_INVALID_JSON;
        STARS_ERROR_PRESCHEDULER_FAILED; STARS_ERROR_SCHEDULING_FAILED;
        STARS_ERROR_SERIALIZATION]
       (Native.stars_run_full_pipeline input params out)) /\
  (forall path params out,
     returns_only
       [STARS_OK; STARS_ERROR_NULL_POINTER; STARS_ERROR_INVALID_JSON;
        STARS_ERROR_PRESCHEDULER_FAILED; STARS_ERROR_SCHEDULING_FAILED;
        STARS_ERROR_SERIALIZATION; STARS_ERROR_IO]
       (Native.stars_run_pipeline_from_file path params out)).
Proof.
  repeat match goal with |- _ /\ _ => split end; intros.
  - apply Native_context_create_code_set.
  - intros s. unfold Native.stars_context_create_from_file.
    destruct path as [p |]; [destruct out as [| v0] |]; [pick | | pick].
    cbv [try_catch lift]. destruct (read_file p) as [buffer |]; [| pick].
    pose proof (Native_context_create_code_set (Some buffer) (OutCell v0) s)
      as K.
    destruct (Native.stars_context_create _ _ _) as [[r0 o0] s0].
    simpl in *; tauto.
  - unfold Native.stars_context_get_execution_period. codes_by_cases.
  - apply Native_blocks_load_json_code_set.
  - intros s. unfold Native.stars_blocks_load_file.
    destruct path as [p |]; [destruct out as [| v0] |]; [pick | | pick].
    cbv [try_catch lift]. destruct (read_file p) as [buffer |]; [| pick].
    pose proof (Native_blocks_load_json_code_set (Some buffer) (OutCell v0) s)
      as K.
    destruct (Native.stars_blocks_load_json _ _ _) as [[r0 o0] s0].
    simpl in *; tauto.
  - unfold Native.stars_blocks_to_json. codes_by_cases.
  - unfold Native.stars_blocks_count. codes_by_cases.
  - unfold Native.stars_blocks_get_at. codes_by_cases.
  - apply Native_compute_possible_periods_code_set.
  - unfold Native.stars_possible_periods_to_json. codes_by_cases.
  - apply Native_run_scheduler_code_set.
  - apply Native_schedule_to_json_code_set.
  - unfold Native.stars_schedule_get_stats. codes_by_cases.
  - apply Native_full_pipeline_code_set.
  - intros s. unfold Native.stars_run_pipeline_from_file.
    destruct path as [p |]; [destruct out as [| v0] |]; [pick | | pick].
    cbv [try_catch lift]. destruct (read_file p) as [buffer |]; [| pick].
    pose proof (Native_full_pipeline_code_set (Some buffer) params
                  (OutCell v0) s) as K.
    destruct (Native.stars_run_full_pipeline _ _ _ _) as [[r0 o0] s0].
    simpl in *; tauto.
Qed.

(** X24.  The codes of stars-core-native, function by function, for
    exceptions derived from [std::exception]; [STARS_ERROR_UNKNOWN] is
    listed for the functions that have a catch-all handler and for the
    pipeline functions that call them.  The loaders of text return
    [STARS_ERROR_INVALID_JSON] or [STARS_ERROR_DESERIALIZATION], the
    functions that read a file report every failure as
    [STARS_ERROR_IO], [STARS_ERROR_INVALID_HANDLE] stands for an index
    out of bounds or a context without instrument.  The pipeline
    functions have no prescheduler stage of their own, so they never
    return [STARS_ERROR_PRESCHEDULER_FAILED]; the pipeline from a file
    never returns [STARS_ERROR_INVALID_JSON] or
    [STARS_ERROR_DESERIALIZATION]. *)
Theorem X24_core_return_codes `{W : Collaborators} :
  (forall cfg out,
     returns_only
       [STARS_OK; STARS_ERROR_NULL_POINTER; STARS_ERROR_INVALID_JSON;
        STARS_ERROR_DESERIALIZATION; STARS_ERROR_UNKNOWN]
       (CoreNative.stars_context_create cfg out)) /\
  (forall path out,
     returns_only
       [STARS_OK; STARS_ERROR_NULL_POINTER; STARS_ERROR_IO;
        STARS_ERROR_UNKNOWN]
       (CoreNative.stars_context_create_from_file path out)) /\
  (forall h out,
     returns_only
       [STARS_OK; STARS_ERROR_NULL_POINTER; STARS_ERROR_SERIALIZATION]
       (CoreNative.stars_context_get_execution_period h out)) /\
  (forall text out,
     returns_only
       [STARS_OK; STARS_ERROR_NULL_POINTER; STARS_ERROR_INVALID_JSON;
        STARS_ERROR_DESERIALIZATION]
       (CoreNative.stars_blocks_load_json text out)) /\
  (forall path out,
     returns_only [STARS_OK; STARS_ERROR_NULL_POINTER; STARS_ERROR_IO]
       (CoreNative.stars_blocks_load_file path out)) /\
  (forall h out,
     returns_only
       [STARS_OK; STARS_ERROR_NULL_POINTER; STARS_ERROR_SERIALIZATION]
       (CoreNative.stars_blocks_to_json h out)) /\
  (forall h out,
     returns_only [STARS_OK; STARS_ERROR_NULL_POINTER]
       (CoreNative.stars_blocks_count h out)) /\
  (forall h index out,
     returns_only
       [STARS_OK; STARS_ERROR_NULL_POINTER; STARS_ERROR_INVALID_HANDLE;
        STARS_ERROR_SERIALIZATION]
       (CoreNative.stars_blocks_get_at h index out)) /\
  (forall c b out,
     returns_only
       [STARS_OK; STARS_ERROR_NULL_POINTER; STARS_ERROR_INVALID_HANDLE;
        STARS_ERROR_PRESCHEDULER_FAILED]
       (CoreNative.stars_compute_possible_periods c b out)) /\
  (forall h out,
     returns_only
       [STARS_OK; STARS_ERROR_NULL_POINTER; STARS_ERROR_SERIALIZATION]
       (CoreNative.stars_possible_periods_to_json h out)) /\
  (forall c b pp params out,
     returns_only
       [STARS_OK; STARS_ERROR_NULL_POINTER; STARS_ERROR_INVALID_HANDLE;
        STARS_ERROR_SCHEDULING_FAILED]
       (CoreNative.stars_run_scheduler c b pp params out)) /\
  (forall h out,
     returns_only
       [STARS_OK; STARS_ERROR_NULL_POINTER; STARS_ERROR_SERIALIZATION]
       (CoreNative.stars_schedule_to_json h out)) /\
  (forall h out,
     returns_only
       [STARS_OK; STARS_ERROR_NULL_POINTER; STARS_ERROR_SERIALIZATION]
       (CoreNative.stars_schedule_get_stats h out)) /\
  (forall input params out,
     returns_only
       [STARS_OK; STARS_ERROR_NULL_POINTER; STARS_ERROR_INVALID_JSON;
        STARS_ERROR_DESERIALIZATION; STARS_ERROR_INVALID_HANDLE;
        STARS_ERROR_SCHEDULING_FAILED; STARS_ERROR_SERIALIZATION;
        STARS_ERROR_UNKNOWN]
       (CoreNative.stars_run_full_pipeline input params out)) /\
  (forall path params out,
     returns_only
       [STARS_OK; STARS_ERROR_NULL_POINTER; STARS_ERROR_IO;
        STARS_ERROR_INVALID_HANDLE; STARS_ERROR_SCHEDULING_FAILED;
        STARS_ERROR_SERIALIZATION; STARS_ERROR_UNKNOWN]
       (CoreNative.stars_run_pipeline_from_file path params out)).
Proof.
  repeat match goal with |- _ /\ _ => split end; intros.
  - eapply returns_only_weaken; [apply CoreNative_context_create_code_set |].
    intros x Hx; simpl in *; tauto.
  - eapply returns_only_weaken;
      [apply CoreNative_context_create_from_file_code_set |].
    intros x Hx; simpl in *; tauto.
  - unfold CoreNative.stars_context_get_execution_period. codes_by_cases.
  - apply CoreNative_blocks_load_json_code_set.
  - apply CoreNative_blocks_load_file_code_set.
  - unfold CoreNative.stars_blocks_to_json. codes_by_cases.
  - unfold CoreNative.stars_blocks_count. codes_by_cases.
  - unfold CoreNative.stars_blocks_get_at. codes_by_cases.
  - unfold CoreNative.stars_compute_possible_periods. codes_by_cases.
  - unfold CoreNative.stars_possible_periods_to_json. codes_by_cases.
  - apply CoreNative_run_scheduler_code_set.
  - apply CoreNative_schedule_to_json_code_set.
  - unfold CoreNative.stars_schedule_get_stats. codes_by_cases.
  - eapply returns_only_weaken; [apply CoreNative_full_pipeline_code_set |].
    intros x Hx; simpl in *; tauto.
  - eapply returns_only_weaken;
      [apply CoreNative_pipeline_from_file_code_set |].
    intros x Hx; simpl in *; tauto.
Qed.

(** ** Freeing what the wrappers hand out *)

(** X25.  [stars_free_result] may be called again on the same result:
    on a result whose message is null or a block in use it releases
    that block, sets the pointer to null and keeps the code, and a
    second call finds the null pointer and does nothing; a null result
    pointer is ignored.  [stars_free_string] has no such memory: both
    versions (with and without the null test) do the same, nothing for
    null and a release for a block in use, and a second call on the
    same block is a double [free]. *)
Theorem X25_free_result_may_be_repeated :
  (forall r h,
     owns_its_message r h ->
     exists h',
       Memory.stars_free_result (OutCell r) h
       = Some (OutCell (Memory.mkResult (Memory.code r) None), h') /\
       h' = match Memory.error_message r with
            | Some a => delete a h
            | None => h
            end /\
       Memory.stars_free_result
         (OutCell (Memory.mkResult (Memory.code r) None)) h'
       = Some (OutCell (Memory.mkResult (Memory.code r) None), h')) /\
  (forall h, Memory.stars_free_result NullOut h = Some (NullOut, h)) /\
  (forall str h,
     Memory.Native.stars_free_string str h
     = Memory.CoreNative.stars_free_string str h) /\
  (forall h, Memory.Native.stars_free_string None h = Some h) /\
  (forall a h h',
     Memory.Native.stars_free_string (Some a) h = Some h' ->
     h' = delete a h /\
     Memory.Native.stars_free_string (Some a) h' = None).
Proof.
  repeat match goal with |- _ /\ _ => split end.
  - intros [c [a |]] h Ho; unfold owns_its_message in Ho; simpl in Ho.
    + exists (delete a h). unfold Memory.stars_free_result, Memory.free.
      simpl. rewrite bool_decide_eq_true_2 by exact Ho. simpl.
      repeat split.
    + exists h. repeat split.
  - reflexivity.
  - intros [a |] h; reflexivity.
  - reflexivity.
  - intros a h h'. unfold Memory.Native.stars_free_string, Memory.free.
    case_bool_decide as Hl; [| discriminate].
    intros [= Hh]. subst h'. split; [reflexivity |].
    rewrite bool_decide_eq_false_2; [reflexivity |].
    rewrite lookup_delete_eq. intros [? ?]; discriminate.
Qed.

Lemma X25_witness :
  owns_its_message failed_result one_message /\
  Memory.stars_free_result (OutCell failed_result) one_message
  = Some (OutCell (Memory.mkResult STARS_ERROR_INVALID_HANDLE None), ∅) /\
  Memory.stars_free_result
    (OutCell (Memory.mkResult STARS_ERROR_INVALID_HANDLE None)) ∅
  = Some (OutCell (Memory.mkResult STARS_ERROR_INVALID_HANDLE None), ∅) /\
  Memory.Native.stars_free_string (Some 1%positive) ∅ = None.
Proof.
  assert (owns_its_message failed_result one_message) as Ho
    by (eexists; reflexivity).
  destruct X25_free_result_may_be_repeated as (H1 & _ & _ & _ & H5).
  destruct (H1 failed_result one_message Ho) as (h' & E1 & Eh & E2).
  assert (h' = ∅) as -> by (rewrite Eh; vm_compute; reflexivity).
  split; [exact Ho |]. split; [exact E1 |]. split; [exact E2 |].
  apply (H5 1%positive one_message ∅). vm_compute. reflexivity.
Defined.

(** X26.  [duplicate_string] returns null and leaves the heap alone
    when [malloc] finds no room; otherwise it returns a block that was
    not in use, holding exactly the characters of its argument, and
    leaves every other block as it was.  Passing that block to
    [stars_free_string] gives back the heap from before the call. *)
Theorem X26_duplicate_string_copies_into_a_new_block :
  (forall s h, Memory.duplicate_string false s h = (None, h)) /\
  (forall s h,
   exists a,
     Memory.duplicate_string true s h = (Some a, <[a := s]> h) /\
     h !! a = None /\
     (<[a := s]> h) !! a = Some s /\
     (forall b, b <> a -> (<[a := s]> h) !! b = h !! b) /\
     Memory.Native.stars_free_string (Some a) (<[a := s]> h) = Some h /\
     Memory.CoreNative.stars_free_string (Some a) (<[a := s]> h) = Some h).
Proof.
  split; [reflexivity |].
  intros s h. exists (fresh (dom h)).
  assert (h !! fresh (dom h) = None) as Hf
    by (apply not_elem_of_dom, is_fresh).
  assert (Memory.free (Some (fresh (dom h))) (<[fresh (dom h) := s]> h)
          = Some h) as Hfree.
  { unfold Memory.free.
    rewrite bool_decide_eq_true_2 by (rewrite lookup_insert_eq; eauto).
    rewrite delete_insert_id by exact Hf. reflexivity. }
  split; [reflexivity |]. split; [exact Hf |].
  split; [apply lookup_insert_eq |].
  split; [intros b Hb; apply lookup_insert_ne; congruence |].
  split; exact Hfree.
Qed.

Lemma X26_witness :
  exists a,
    Memory.duplicate_string true "Null pointer argument" one_message
    = (Some a, <[a := "Null pointer argument"]> one_message) /\
    one_message !! a = None /\
    (<[a := "Null pointer argument"]> one_message) !! 1%positive
    = one_message !! 1%positive.
Proof.
  destruct (proj2 X26_duplicate_string_copies_into_a_new_block
              "Null pointer argument" one_message)
    as (a & E & Hf & _ & Ho & _).
  exists a. split; [exact E |]. split; [exact Hf |].
  apply Ho. intros Heq. subst a. vm_compute in Hf. discriminate Hf.
Defined.

(** ** One failure, two codes *)

(** X27.  A failure of the prescheduler reaches the caller of a
    pipeline function under different codes.  Let the first two stages
    succeed and [ComputePeriods] throw on the context and the blocks
    they made.  The native [stars_run_full_pipeline] fails in its third
    stage with [STARS_ERROR_PRESCHEDULER_FAILED] and the exception's
    message; the stars-core-native one, which runs the prescheduler
    inside [stars_run_scheduler], fails with
    [STARS_ERROR_SCHEDULING_FAILED] and the message prefixed by
    "Scheduling failed: ".  Both leave the out-parameter as it was and
    the set of live objects as before the call. *)
Theorem X27_prescheduler_failure_in_a_pipeline `{W : Collaborators} :
  (forall txt params v s r1 (c : ptr Native.StarsContext) s1 r2
          (b : ptr Native.StarsBlocksCollection) s2 k what,
     Native.stars_context_create (Some txt) (OutCell None) s
     = ((r1, OutCell (Some c)), s1) ->
     code r1 = STARS_OK ->
     Native.stars_blocks_load_json (Some txt) (OutCell None) s1
     = ((r2, OutCell (Some b)), s2) ->
     code r2 = STARS_OK ->
     ComputePeriods (Native.instrument (deref c)) (Native.blocks (deref b))
       (Native.executionPeriod (deref c)) = Throw k what ->
     exists s',
       Native.stars_run_full_pipeline (Some txt) params (OutCell v) s
       = ((mkResult STARS_ERROR_PRESCHEDULER_FAILED (Some what), OutCell v),
          s') /\
       g_last_error s' = what /\ live s' = live s) /\
  (forall txt params v s r1 (c : ptr CoreNative.StarsContext) s1 r2
          (b : ptr CoreNative.StarsBlocksCollection) s2 ins k what,
     CoreNative.stars_context_create (Some txt) (OutCell None)
       (mkState "" (live s)) = ((r1, OutCell (Some c)), s1) ->
     code r1 = STARS_OK ->
     CoreNative.stars_blocks_load_json (Some txt) (OutCell None) s1
     = ((r2, OutCell (Some b)), s2) ->
     code r2 = STARS_OK ->
     CoreNative.instrument (deref c) = Some ins ->
     is_Some (CoreNative.algorithm_configuration params) ->
     ComputePeriods ins (CoreNative.blocks (deref b))
       (CoreNative.executionPeriod (deref c)) = Throw k what ->
     exists s',
       CoreNative.stars_run_full_pipeline (Some txt) params (OutCell v) s
       = ((mkResult STARS_ERROR_SCHEDULING_FAILED
             (Some ("Scheduling failed: " ++ what)), OutCell v), s') /\
       g_last_error s' = "Scheduling failed: " ++ what /\
       live s' = live s).
Proof.
  split.
  - intros * E1 Hc1 E2 Hc2 Hp.
    pose proof (Native_context_create_spec _ _ _ _ _ _ E1) as S1.
    pose proof (Native_blocks_load_json_spec _ _ _ _ _ _ E2) as S2.
    destruct S1 as [(_ & _ & L1 & x1 & Hx1) | (Hn & _)]; [| contradiction].
    destruct S2 as [(_ & _ & L2 & x2 & Hx2) | (Hn & _)]; [| contradiction].
    injection Hx1 as Hx1. injection Hx2 as Hx2.
    eexists. split.
    + unfold Native.stars_run_full_pipeline.
      cbv [mbind mret M_bind M_ret]. rewrite E1.
      apply is_ok_true in Hc1 as ->. cbn [negb]. rewrite E2.
      apply is_ok_true in Hc2 as ->. cbn [negb cell_value].
      unfold Native.stars_compute_possible_periods.
      cbv [try_catch mbind M_bind MX_bind call]. rewrite Hp.
      reflexivity.
    + split; [reflexivity |].
      cbv [Native.stars_blocks_destroy Native.stars_context_destroy
           destroy delete_]. simpl.
      rewrite Hx1, Hx2, L2, L1.
      pose proof (is_fresh (live s)).
      pose proof (is_fresh ({[fresh (live s)]} ∪ live s)).
      set_solver.
  - intros * E1 Hc1 E2 Hc2 Hi [config Ha] Hp.
    pose proof (CoreNative_context_create_spec _ _ _ _ _ _ E1) as S1.
    pose proof (CoreNative_blocks_load_json_spec _ _ _ _ _ _ E2) as S2.
    destruct S1 as [(_ & _ & L1 & x1 & Hx1) | (Hn & _)]; [| contradiction].
    destruct S2 as [(_ & _ & L2 & x2 & Hx2) | (Hn & _)]; [| contradiction].
    injection Hx1 as Hx1. injection Hx2 as Hx2.
    eexists. split.
    + unfold CoreNative.stars_run_full_pipeline.
      cbv [mbind mret M_bind M_ret CoreNative.clear_error_internal].
      rewrite E1.
      apply is_ok_true in Hc1 as ->. cbn [negb]. rewrite E2.
      apply is_ok_true in Hc2 as ->. cbn [negb cell_value].
      unfold CoreNative.schedule_and_export, CoreNative.stars_run_scheduler.
      cbv [try_catch mbind mret M_bind M_ret MX_bind call
           CoreNative.clear_error_internal].
      rewrite Hi, Ha, Hp. reflexivity.
    + split; [reflexivity |].
      cbv [CoreNative.stars_blocks_destroy CoreNative.stars_context_destroy
           destroy delete_]. simpl.
      rewrite Hx1, Hx2, L2, L1. simpl.
      pose proof (is_fresh (live s)).
      pose proof (is_fresh ({[fresh (live s)]} ∪ live s)).
      set_solver.
Qed.

Lemma X27_witness :
  let W := no_ephemeris in
  exists s',
    Native.stars_run_full_pipeline (Some Demo.demo_file)
      Native.stars_scheduling_params_default (OutCell None) Demo.s0
    = ((mkResult STARS_ERROR_PRESCHEDULER_FAILED (Some "no ephemeris"),
        OutCell None), s') /\
    g_last_error s' = "no ephemeris" /\ live s' = live Demo.s0.
Proof.
  cbv zeta.
  destruct (X27_prescheduler_failure_in_a_pipeline (W := no_ephemeris))
    as [H _].
  apply (H Demo.demo_file Native.stars_scheduling_params_default None
           Demo.s0 (mkResult STARS_OK None) demo_context
           (Native.stars_context_create (W := no_ephemeris)
              (Some Demo.demo_file) (OutCell None) Demo.s0).2
           (mkResult STARS_OK None) demo_blocks
           (Native.stars_blocks_load_json (W := no_ephemeris)
              (Some Demo.demo_file) (OutCell None)
              (Native.stars_context_create (W := no_ephemeris)
                 (Some Demo.demo_file) (OutCell None) Demo.s0).2).2
           std_exception "no ephemeris");
    reflexivity.
Defined.

